(** * Traffic API MVP: fetch / normalize / fallback pipeline

    A shallow embedding of the JavaScript sources of the traffic aggregator
    (TII adapter, WebTRIS adapter, Google Maps adapter, the orchestrator of
    [server.js], the junction report of [m1-junction-monitor.js] and the
    enrichment fallback of the segment extractor), and the properties of the
    specification stated over it.  A second part covers more of the same
    files: the comparison helpers of [server.js], the adapters' cache keys,
    usage counters and [clearCache], the extractor's cache, sweep and batch
    call, and the route check of the junction monitor.

    Conventions of the embedding.
    - A JavaScript number is an exact rational ([Q]); [Math.round] is
      [Qfloor (x + 1/2)].  Every division of the modelled code has a divisor
      the code has just tested to be non-zero.
    - A field that may be absent from a JSON object is an [option]; the
      operator [x || d] is [jsor]: the default is taken when the field is
      absent or falsy (0 for numbers, the empty string for strings).
    - Strings are byte strings; [toUpperCase] and the case-insensitive
      regular expressions act on ASCII letters.
    - [Date.now()] is an integer number of milliseconds.
    - A JavaScript exception is the [Throw] outcome of the monad [M];
      [try { } catch] is [try_catch]. *)

From Stdlib Require Import ZArith QArith Qround Qminmax Lqa Lia Bool List.
From Stdlib Require Import Ascii String.
From stdpp Require Import base option gmap strings.
Import ListNotations.

Local Open Scope Z_scope.
Local Open Scope string_scope.

(** ** JavaScript primitives used by the sources *)

Module Js.

(** Truthiness of the values that occur behind [||] and [&&]. *)
Class Truthy (A : Type) := truthy : A -> bool.

#[export] Instance truthy_Q : Truthy Q := fun q => negb (Qeq_bool q 0).
#[export] Instance truthy_string : Truthy string :=
  fun s => match s with EmptyString => false | _ => true end.
#[export] Instance truthy_option {A} `{Truthy A} : Truthy (option A) :=
  fun o => match o with Some a => truthy a | None => false end.

(** [x || d] for an optional field [x] and a default [d] of its type. *)
Definition jsor {A} `{Truthy A} (x : option A) (d : A) : A :=
  match x with
  | Some a => if truthy a then a else d
  | None => d
  end.

(** [x || y] where both sides may be absent. *)
Definition jsor_opt {A} `{Truthy A} (x y : option A) : option A :=
  if truthy x then x else y.

Definition Qltb (a b : Q) : bool := negb (Qle_bool b a).
Definition Qgtb (a b : Q) : bool := Qltb b a.

(** [Math.round]: nearest integer, halves towards plus infinity. *)
Definition round (x : Q) : Z := Qfloor (x + (1 # 2)).

(** [Math.max(0, x)]. *)
Definition max0 (x : Q) : Q := if Qle_bool 0 x then x else 0%Q.

(** [Math.round(x * 10) / 10]. *)
Definition round1 (x : Q) : Q := Qmake (round (x * 10)) 10.

(** ASCII case mapping. *)
Definition is_lower (c : ascii) : bool :=
  (97 <=? nat_of_ascii c)%nat && (nat_of_ascii c <=? 122)%nat.
Definition is_upper (c : ascii) : bool :=
  (65 <=? nat_of_ascii c)%nat && (nat_of_ascii c <=? 90)%nat.
Definition is_digit (c : ascii) : bool :=
  (48 <=? nat_of_ascii c)%nat && (nat_of_ascii c <=? 57)%nat.
Definition is_alpha (c : ascii) : bool := is_lower c || is_upper c.

Definition upper_char (c : ascii) : ascii :=
  if is_lower c then ascii_of_nat (nat_of_ascii c - 32) else c.
Definition lower_char (c : ascii) : ascii :=
  if is_upper c then ascii_of_nat (nat_of_ascii c + 32) else c.

Fixpoint map_string (f : ascii -> ascii) (s : string) : string :=
  match s with
  | EmptyString => EmptyString
  | String c s' => String (f c) (map_string f s')
  end.

Definition toUpperCase : string -> string := map_string upper_char.
Definition toLowerCase : string -> string := map_string lower_char.

(** [String.prototype.includes]. *)
Fixpoint includes (hay needle : string) : bool :=
  String.prefix needle hay ||
  match hay with
  | EmptyString => false
  | String _ hay' => includes hay' needle
  end.

(** [/needle/i.test(s)] for a pattern of plain lower-case letters. *)
Definition test_ci (needle s : string) : bool :=
  includes (toLowerCase s) needle.

(** The remainder of [s] after one or more digits ([[0-9]+], greedy),
    or [None] when [s] does not start with a digit. *)
Fixpoint skip_digits (s : string) : string :=
  match s with
  | String c s' => if is_digit c then skip_digits s' else s
  | EmptyString => EmptyString
  end.

Definition digits1 (s : string) : option string :=
  match s with
  | String c s' => if is_digit c then Some (skip_digits s') else None
  | EmptyString => None
  end.

(** [/^X[0-9]+$/i] for a letter [X] given in upper case. *)
Definition letter_digits (x : ascii) (s : string) : bool :=
  match s with
  | String c s' =>
      if Ascii.eqb (upper_char c) x then
        match digits1 s' with
        | Some EmptyString => true
        | _ => false
        end
      else false
  | EmptyString => false
  end.

(** [/^X[0-9]+[A-Z]?$/i]. *)
Definition letter_digits_opt_letter (x : ascii) (s : string) : bool :=
  match s with
  | String c s' =>
      if Ascii.eqb (upper_char c) x then
        match digits1 s' with
        | Some EmptyString => true
        | Some (String l EmptyString) => is_alpha l
        | _ => false
        end
      else false
  | EmptyString => false
  end.

(** [s.match(/^(M|N|A)[0-9]+/i)] as a truth value: an anchored prefix,
    one digit after the letter is enough. *)
Definition matches_designation (s : string) : bool :=
  match s with
  | String c (String d _) =>
      let u := upper_char c in
      (Ascii.eqb u "M" || Ascii.eqb u "N" || Ascii.eqb u "A") && is_digit d
  | _ => false
  end.

End Js.
Export Js.

(** ** The normalized record schema *)

Inductive CongestionLevel :=
| CongNone | CongLight | CongModerate | CongHeavy | CongUnknown.

(** The order [none < light < moderate < heavy] (the [levels] table of
    [generateInsight]); ['unknown'] has no rank. *)
Definition levelRank (l : CongestionLevel) : option nat :=
  match l with
  | CongNone => Some 0%nat
  | CongLight => Some 1%nat
  | CongModerate => Some 2%nat
  | CongHeavy => Some 3%nat
  | CongUnknown => None
  end.

Definition level_le (a b : CongestionLevel) : Prop :=
  match levelRank a, levelRank b with
  | Some x, Some y => (x <= y)%nat
  | _, _ => False
  end.

Definition level_lt (a b : CongestionLevel) : Prop :=
  match levelRank a, levelRank b with
  | Some x, Some y => (x < y)%nat
  | _, _ => False
  end.

#[export] Instance CongestionLevel_eq_dec : EqDecision CongestionLevel.
Proof. solve_decision. Defined.

(** The value of a [timestamp] field: the provider's own string,
    [new Date().toISOString()] taken at the given clock reading, or a
    [Date.now()] number as the caches store it. *)
Inductive Timestamp :=
| ProviderTime (s : string)
| CapturedAt (now : Z)
| EpochMillis (t : Z).

(** ** TII adapter (Transport Infrastructure Ireland) *)

Module TII.

Record SituationRecord := {
  roadName : option string;
  directionBound : option string;
  travelTime : option Q;
  freeFlowTravelTime : option Q;
  sr_lat : option Q;
  sr_lon : option Q;
  startLocation : option string;
  endLocation : option string
}.

Definition emptySituationRecord : SituationRecord :=
  {| roadName := None; directionBound := None; travelTime := None;
     freeFlowTravelTime := None; sr_lat := None; sr_lon := None;
     startLocation := None; endLocation := None |}.

Record Situation := {
  header_id : option string;
  sit_situationRecord : list SituationRecord
}.

(** One element of the feed's [situation] array.  The road filter of
    [fetchTIITraffic] reads [s.situationRecord], the normalizer reads
    [record.situation.situationRecord]: both fields are kept. *)
Record FeedElement := {
  situationRecord : list SituationRecord;
  situation : option Situation;
  road : option string;
  lat : option Q;
  lon : option Q;
  publicationTime : option string;
  id : option string
}.

Record Location := {
  loc_lat : option Q;
  loc_lon : option Q;
  loc_from : option string;
  loc_to : option string
}.

Record Record_ := {
  r_road : string;
  r_direction : string;
  travelTimeMinutes : Z;
  freeFlowTimeMinutes : Z;
  delayMinutes : Z;
  congestionLevel : CongestionLevel;
  location : Location;
  timestamp : Timestamp;
  rawId : option string
}.

(** [(xs || [])[0] || {}] *)
Definition first_record (xs : list SituationRecord) : SituationRecord :=
  match xs with
  | r :: _ => r
  | [] => emptySituationRecord
  end.

(** [road.replace(/^R/i, '')] *)
Definition strip_R (s : string) : string :=
  match s with
  | String c s' => if Ascii.eqb (upper_char c) "R" then s' else s
  | EmptyString => EmptyString
  end.


(** The threshold ladder of [normalizeTIIRecord], on the raw delay. *)
Definition congestionOf (delay : Q) : CongestionLevel :=
  if Qgtb delay 10 then CongHeavy
  else if Qgtb delay 5 then CongModerate
  else if Qgtb delay 2 then CongLight
  else CongNone.

Definition normalizeTIIRecord (now : Z) (record : FeedElement) : Record_ :=
  let sit := situation record in
  let sr := first_record (from_option sit_situationRecord [] sit) in
  let road0 := jsor (jsor_opt (roadName sr) (road record)) "Unknown" in
  let direction := jsor (directionBound sr) "Unknown" in
  let travel := jsor (travelTime sr) 0%Q in
  let freeFlow := jsor (freeFlowTravelTime sr) travel in
  let delay := max0 (travel - freeFlow) in
  {| r_road := strip_R road0;
     r_direction := direction;
     travelTimeMinutes := round (travel / 60);
     freeFlowTimeMinutes := round (freeFlow / 60);
     delayMinutes := round (delay / 60);
     congestionLevel := congestionOf delay;
     location := {| loc_lat := jsor_opt (lat record) (sr_lat sr);
                    loc_lon := jsor_opt (lon record) (sr_lon sr);
                    loc_from := startLocation sr;
                    loc_to := endLocation sr |};
     timestamp := match publicationTime record with
                  | Some s => if truthy s then ProviderTime s else CapturedAt now
                  | None => CapturedAt now
                  end;
     rawId := jsor_opt (sit ≫= header_id) (id record) |}.

(** [isIrishRoad] *)
Definition isIrishRoad (road : string) : bool :=
  letter_digits "M" road || letter_digits "N" road ||
  letter_digits "R" road || letter_digits "L" road ||
  test_ci "dublin" road || test_ci "cork" road || test_ci "galway" road ||
  test_ci "limerick" road || test_ci "waterford" road ||
  test_ci "drogheda" road || test_ci "swords" road || test_ci "dundalk" road.

End TII.

(** ** WebTRIS adapter (UK National Highways) *)

Module WebTRIS.

Record Site := {
  site_id : option string;
  name : option string;
  direction : option string;
  typicalSpeed : option Q;
  length : option Q;
  latitude : option Q;
  longitude : option Q;
  area : option string;
  description : option string
}.

Record Report := {
  siteId : option string;
  speed : option Q;
  averageSpeed : option Q;
  vehicleFlow : option Q;
  volume : option Q;
  report_timestamp : option string
}.

(** The empty object [{}] that stands for a missing report. *)
Definition emptyReport : Report :=
  {| siteId := None; speed := None; averageSpeed := None;
     vehicleFlow := None; volume := None; report_timestamp := None |}.

Record Location := {
  loc_lat : option Q;
  loc_lon : option Q;
  loc_area : option string;
  loc_description : option string
}.

Record Record_ := {
  r_siteId : option string;
  r_road : string;
  r_direction : string;
  location : Location;
  r_vehicleFlow : Q;
  r_averageSpeed : Z;
  congestionLevel : CongestionLevel;
  travelTimeMinutes : Q;
  freeFlowTimeMinutes : Q;
  delayMinutes : Q;
  timestamp : Timestamp
}.

Definition speedOf (report : Report) : Q :=
  match jsor_opt (speed report) (averageSpeed report) with
  | Some s => if truthy s then s else 0%Q
  | None => 0%Q
  end.

Definition typicalSpeedOf (site : Site) : Q := jsor (typicalSpeed site) 70%Q.
Definition distanceKmOf (site : Site) : Q := jsor (length site) 1%Q.

(** Congestion from the speed ratio and the absolute speed. *)
Definition congestionOf (spd typical : Q) : CongestionLevel :=
  let speedRatio := (spd / typical)%Q in
  if Qltb speedRatio (3 # 10) || Qltb spd 20 then CongHeavy
  else if Qltb speedRatio (6 # 10) || Qltb spd 40 then CongModerate
  else if Qltb speedRatio (8 # 10) || Qltb spd 55 then CongLight
  else CongNone.

Definition travelTimeOf (distanceKm spd : Q) : Q :=
  if Qgtb spd 0 then (distanceKm / spd * 60)%Q else 0%Q.
Definition freeFlowTimeOf (distanceKm typical : Q) : Q :=
  (distanceKm / typical * 60)%Q.

(** [road.replace(/^M/i, 'M')] *)
Definition normalize_M (s : string) : string :=
  match s with
  | String c s' => if Ascii.eqb (upper_char c) "M" then String "M" s' else s
  | EmptyString => EmptyString
  end.

Definition normalizeWebTRISRecord (now : Z) (site : Site) (report : Report)
  : Record_ :=
  let road := jsor (name site) "Unknown" in
  let spd := speedOf report in
  let flow := match jsor_opt (vehicleFlow report) (volume report) with
              | Some f => if truthy f then f else 0%Q
              | None => 0%Q
              end in
  let typical := typicalSpeedOf site in
  let distanceKm := distanceKmOf site in
  let travel := travelTimeOf distanceKm spd in
  let freeFlow := freeFlowTimeOf distanceKm typical in
  let delay := max0 (travel - freeFlow) in
  {| r_siteId := site_id site;
     r_road := normalize_M road;
     r_direction := jsor (direction site) "Unknown";
     location := {| loc_lat := latitude site; loc_lon := longitude site;
                    loc_area := area site;
                    loc_description := description site |};
     r_vehicleFlow := flow;
     r_averageSpeed := round spd;
     congestionLevel := congestionOf spd typical;
     travelTimeMinutes := round1 travel;
     freeFlowTimeMinutes := round1 freeFlow;
     delayMinutes := round1 delay;
     timestamp := match report_timestamp report with
                  | Some s => if truthy s then ProviderTime s else CapturedAt now
                  | None => CapturedAt now
                  end |}.

(** [/^M(1|2|...|89)$/i]: the motorway numbers taken to be Irish. *)
Definition irishMotorways : list string :=
  ["1"; "2"; "3"; "4"; "5"; "6"; "7"; "8"; "9"; "11"; "17"; "18"; "20";
   "50"; "54"; "55"; "56"; "57"; "61"; "62"; "63"; "64"; "65"; "66"; "67";
   "68"; "69"; "70"; "71"; "72"; "73"; "74"; "75"; "76"; "77"; "78"; "79";
   "80"; "81"; "82"; "83"; "84"; "85"; "86"; "87"; "88"; "89"].

Definition isLikelyIrish (road : string) : bool :=
  match road with
  | String c rest =>
      Ascii.eqb (upper_char c) "M" &&
      existsb (String.eqb rest) irishMotorways
  | EmptyString => false
  end.

(** [isUKRoad] *)
Definition isUKRoad (road : string) : bool :=
  (letter_digits_opt_letter "M" road || letter_digits_opt_letter "A" road ||
   letter_digits "B" road ||
   test_ci "motorway" road || test_ci "milton keynes" road ||
   test_ci "birmingham" road || test_ci "manchester" road ||
   test_ci "london" road || test_ci "leeds" road ||
   test_ci "glasgow" road || test_ci "edinburgh" road)
  && negb (isLikelyIrish road).

End WebTRIS.

(** ** Google Maps adapter: the pure part *)

Module GoogleMaps.

Record LatLng := { ll_lat : option Q; ll_lng : option Q }.

Record Step := { html_instructions : option string }.

Record Leg := {
  distance : option Q;             (* leg.distance?.value *)
  duration : option Q;             (* leg.duration?.value *)
  duration_in_traffic : option Q;  (* leg.duration_in_traffic?.value *)
  start_location : option LatLng;
  end_location : option LatLng;
  steps : option (list Step);
  start_address : option string;
  end_address : option string
}.

Record Route := {
  legs : option (list Leg);
  summary : option string;
  warnings : option (list string)
}.

Record Location := {
  startLat : option Q;
  startLon : option Q;
  endLat : option Q;
  endLon : option Q;
  via : list string
}.

Record Record_ := {
  r_road : string;
  r_origin : string;
  r_destination : string;
  location : Location;
  distanceKm : Q;
  durationMinutes : Z;
  durationInTrafficMinutes : Z;
  delayMinutes : Z;
  congestionLevel : CongestionLevel;
  routeSummary : string;
  r_warnings : list string;
  timestamp : Timestamp
}.

(** [calculateCongestion] *)
Definition calculateCongestion (durationInTraffic duration : Q)
  : CongestionLevel :=
  if negb (truthy duration) then CongUnknown
  else
    let ratio := (durationInTraffic / duration)%Q in
    let delayMinutes := ((durationInTraffic - duration) / 60)%Q in
    if Qgtb delayMinutes 15 || Qgtb ratio 2 then CongHeavy
    else if Qgtb delayMinutes 5 || Qgtb ratio (15 # 10) then CongModerate
    else if Qgtb delayMinutes 2 || Qgtb ratio (12 # 10) then CongLight
    else CongNone.

(** The loop that collects [mainRoads]: the captured road of each step's
    instruction, trimmed, without repetitions.  [onto] gives, for an
    instruction, the trimmed first group of
    [/(?:onto|on)\s+([^<]+)/i] when the expression matches. *)
Definition collectRoads (onto : string -> option string) (steps : list Step)
  : list string :=
  fold_left
    (fun mainRoads step =>
       match onto (jsor (html_instructions step) "") with
       | Some r => if existsb (String.eqb r) mainRoads then mainRoads
                   else (mainRoads ++ [r])%list
       | None => mainRoads
       end)
    steps [].

Definition durationSecondsOf (leg : Leg) : Q := jsor (duration leg) 0%Q.
Definition durationInTrafficSecondsOf (leg : Leg) : Q :=
  jsor (duration_in_traffic leg) (durationSecondsOf leg).

(** The body of [normalizeGoogleMapsData] once [route.legs[0]] is known. *)
Definition normalizeLeg (onto : string -> option string) (now : Z)
    (route : Route) (leg : Leg) (origin destination : string)
    (road : option string) : Record_ :=
  let distanceMeters := jsor (distance leg) 0%Q in
  let distanceKm := (distanceMeters / 1000)%Q in
  let durationSeconds := durationSecondsOf leg in
  let durationInTrafficSeconds := durationInTrafficSecondsOf leg in
  let durationMinutes := round (durationSeconds / 60) in
  let durationInTrafficMinutes := round (durationInTrafficSeconds / 60) in
  let startLocation := start_location leg in
  let endLocation := end_location leg in
  let mainRoads := collectRoads onto (from_option id [] (steps leg)) in
  {| r_road := jsor road (jsor (head mainRoads) "Unknown");
     r_origin := jsor (start_address leg) origin;
     r_destination := jsor (end_address leg) destination;
     location := {| startLat := startLocation ≫= ll_lat;
                    startLon := startLocation ≫= ll_lng;
                    endLat := endLocation ≫= ll_lat;
                    endLon := endLocation ≫= ll_lng;
                    via := firstn 3 mainRoads |};
     distanceKm := Qmake (round (distanceKm * 100)) 100;
     durationMinutes := durationMinutes;
     durationInTrafficMinutes := durationInTrafficMinutes;
     delayMinutes := Z.max 0 (durationInTrafficMinutes - durationMinutes);
     congestionLevel :=
       calculateCongestion durationInTrafficSeconds durationSeconds;
     routeSummary := jsor (summary route) "";
     r_warnings := from_option id [] (warnings route);
     timestamp := CapturedAt now |}.

(** [normalizeGoogleMapsData]: reading [route.legs[0]] raises a TypeError
    when [legs] is absent, and so does reading a field of the leg when the
    array is empty. *)
Definition normalizeGoogleMapsData (onto : string -> option string)
    (now : Z) (route : Route) (origin destination : string)
    (road : option string) : string + Record_ :=
  match legs route with
  | None => inl "Cannot read properties of undefined (reading '0')"
  | Some [] => inl "Cannot read properties of undefined (reading 'distance')"
  | Some (leg :: _) =>
      inr (normalizeLeg onto now route leg origin destination road)
  end.

(** [buildLocationQuery] *)
Definition buildLocationQuery (road : string) (town country : option string)
  : string :=
  let parts := ([road] ++ (if truthy town then [jsor town ""] else [])
                       ++ (if truthy country then [jsor country ""] else []))%list in
  String.concat ", " parts.

Definition nonCoveredCountries : list string :=
  ["US"; "FR"; "DE"; "ES"; "IT"; "NL"; "BE"; "AT"; "CH"; "PT"].

(** [isGoogleMapsPreferred] *)
Definition isGoogleMapsPreferred (road : string) (town country : option string)
  : bool :=
  if truthy town && negb (matches_designation road) then true
  else if truthy country &&
          existsb (String.eqb (toUpperCase (jsor country "")))
                  nonCoveredCountries then true
  else if test_ci "street" road || test_ci "road" road ||
          test_ci "avenue" road || test_ci "lane" road ||
          test_ci "drive" road || test_ci "way" road ||
          test_ci "boulevard" road then true
  else false.

End GoogleMaps.

(** ** Exceptions and state *)

Inductive outcome (A : Type) :=
| Ret (a : A)
| Throw (e : string).
Arguments Ret {A} a.
Arguments Throw {A} e.

(** A computation over a store [S] that returns or throws; the store
    survives an exception, as a JavaScript heap does. *)
Definition M (S A : Type) : Type := S -> outcome A * S.

Section MonadOps.
Context {S : Type}.

Definition ret {A} (a : A) : M S A := fun s => (Ret a, s).
Definition throw {A} (e : string) : M S A := fun s => (Throw e, s).
Definition bind {A B} (m : M S A) (k : A -> M S B) : M S B :=
  fun s => match m s with
           | (Ret a, s') => k a s'
           | (Throw e, s') => (Throw e, s')
           end.
Definition try_catch {A} (body : M S A) (handler : string -> M S A) : M S A :=
  fun s => match body s with
           | (Ret a, s') => (Ret a, s')
           | (Throw e, s') => handler e s'
           end.
Definition gets {A} (f : S -> A) : M S A := fun s => (Ret (f s), s).
Definition modify (f : S -> S) : M S unit := fun s => (Ret tt, f s).
End MonadOps.

Notation "'let*' x ':=' m 'in' k" := (bind m (fun x => k))
  (at level 10, x name, m at level 100, k at level 200).
Notation "'do*' m 'in' k" := (bind m (fun _ => k))
  (at level 10, m at level 100, k at level 200).

(** ** The adapters' shared world: clock, network, caches *)

Definition CACHE_TTL_MS : Z := 5 * 60 * 1000.

Inductive TrafficRecord :=
| FromTII (r : TII.Record_)
| FromWebTRIS (r : WebTRIS.Record_)
| FromGoogle (r : GoogleMaps.Record_).

(** What [axios.get] does: reject (timeout, connection error, status
    outside 2xx) or resolve with [response.data]. *)
Inductive Axios (B : Type) :=
| Rejected (message : string)
| Resolved (data : B).
Arguments Rejected {B} message.
Arguments Resolved {B} data.

(** [response.data?.situation] of the TII feed: absent (or falsy), an array
    of elements, or a value on which the filter or the normalizer raises a
    TypeError with the given message. *)
Inductive TIIBody :=
| TIINoSituation
| TIISituations (l : list TII.FeedElement)
| TIIIllTyped (typeError : string).

Inductive SitesBody :=
| SitesAbsent
| SitesArray (l : list WebTRIS.Site)
| SitesIllTyped (typeError : string).

Inductive ReportsBody :=
| ReportsAbsent
| ReportsArray (l : list WebTRIS.Report)
| ReportsIllTyped (typeError : string).

(** [response.data] of the Directions API: an object with [status] and
    [routes], or nothing an object (reading [status] raises). *)
Inductive GoogleBody :=
| GoogleNoData (typeError : string)
| GoogleData (status : option string) (routes : option (list GoogleMaps.Route)).

Inductive Request :=
| GetTIITraffic
| GetSites (road : string)
| GetReports (siteIds : list (option string))
| GetDirections (origin destination : string).

(** Entry into an adapter function, recorded for the statements about which
    adapter the orchestrator calls. *)
Inductive Invocation :=
| CallTII (road : string)
| CallWebTRIS (road : string)
| CallRoadTraffic (road : string) (town : option string) (country : string)
| CallGoogleMaps (origin destination : string).

#[export] Instance Invocation_eq_dec : EqDecision Invocation.
Proof. solve_decision. Defined.

(** The environment of a run.  The responses may depend on how many
    requests were issued before. *)
Record Runtime := {
  GOOGLE_MAPS_API_KEY : option string;
  tiiFeed : nat -> Axios TIIBody;
  sitesEndpoint : nat -> string -> Axios SitesBody;
  reportsEndpoint : nat -> list (option string) -> Axios ReportsBody;
  directionsEndpoint : nat -> string -> string -> Axios GoogleBody;
  latency : nat -> N;
  onto : string -> option string
}.

Record CacheEntry (R : Type) := {
  ce_data : list R;
  ce_timestamp : Z
}.
Arguments ce_data {R} c.
Arguments ce_timestamp {R} c.

Record ApiCall := {
  ac_timestamp : Z;
  ac_origin : string;
  ac_destination : string;
  ac_success : bool
}.

Record World := {
  clock : Z;
  requests : list Request;           (* most recent first *)
  calls : list Invocation;           (* most recent first *)
  tiiCache : gmap string (CacheEntry TII.Record_);
  webtrisCache : gmap string (CacheEntry WebTRIS.Record_);
  googleCache : gmap string (CacheEntry GoogleMaps.Record_);
  apiCallCount : nat;
  apiCallHistory : list ApiCall
}.

Definition set_clock (t : Z) (w : World) : World :=
  {| clock := t; requests := requests w; calls := calls w;
     tiiCache := tiiCache w; webtrisCache := webtrisCache w;
     googleCache := googleCache w; apiCallCount := apiCallCount w;
     apiCallHistory := apiCallHistory w |}.


Definition log_request (rq : Request) (w : World) : World :=
  {| clock := clock w; requests := rq :: requests w; calls := calls w;
     tiiCache := tiiCache w; webtrisCache := webtrisCache w;
     googleCache := googleCache w; apiCallCount := apiCallCount w;
     apiCallHistory := apiCallHistory w |}.

Definition log_call (c : Invocation) (w : World) : World :=
  {| clock := clock w; requests := requests w; calls := c :: calls w;
     tiiCache := tiiCache w; webtrisCache := webtrisCache w;
     googleCache := googleCache w; apiCallCount := apiCallCount w;
     apiCallHistory := apiCallHistory w |}.

Definition set_tiiCache (c : gmap string (CacheEntry TII.Record_)) (w : World)
  : World :=
  {| clock := clock w; requests := requests w; calls := calls w;
     tiiCache := c; webtrisCache := webtrisCache w;
     googleCache := googleCache w; apiCallCount := apiCallCount w;
     apiCallHistory := apiCallHistory w |}.

Definition set_webtrisCache (c : gmap string (CacheEntry WebTRIS.Record_))
    (w : World) : World :=
  {| clock := clock w; requests := requests w; calls := calls w;
     tiiCache := tiiCache w; webtrisCache := c;
     googleCache := googleCache w; apiCallCount := apiCallCount w;
     apiCallHistory := apiCallHistory w |}.

Definition set_googleCache (c : gmap string (CacheEntry GoogleMaps.Record_))
    (w : World) : World :=
  {| clock := clock w; requests := requests w; calls := calls w;
     tiiCache := tiiCache w; webtrisCache := webtrisCache w;
     googleCache := c; apiCallCount := apiCallCount w;
     apiCallHistory := apiCallHistory w |}.

(** [Date.now()] *)
Definition now : M World Z := gets clock.

(** [await axios.get(...)]: the request is issued, the clock moves on by the
    latency of this request, and the call resolves or rejects. *)
Definition axios_get {B} (rt : Runtime) (rq : Request)
    (endpoint : nat -> Axios B) : M World B :=
  fun w =>
    let n := List.length (requests w) in
    let w' := set_clock (clock w + Z.of_N (latency rt n)) (log_request rq w) in
    match endpoint n with
    | Rejected message => (Throw message, w')
    | Resolved data => (Ret data, w')
    end.

(** [isCacheValid] *)
Definition isCacheValid {R} (now : Z) (cachedItem : option (CacheEntry R))
  : bool :=
  match cachedItem with
  | Some c => bool_decide (now - ce_timestamp c < CACHE_TTL_MS)
  | None => false
  end.

(** The object an adapter's fetch resolves with. *)
Module Result.
Record FetchResult (R : Type) := {
  data : list R;
  fromCache : option bool;
  error : option string;
  source : string;
  timestamp : option Timestamp
}.
Arguments data {R} f.
Arguments fromCache {R} f.
Arguments error {R} f.
Arguments source {R} f.
Arguments timestamp {R} f.
End Result.
Abbreviation FetchResult := Result.FetchResult.

(** ** The adapters' fetch functions *)

Module Fetch.
Import Result.

Definition tiiKey (road : string) : string := "tii:" ++ toUpperCase road.
Definition webtrisKey (road : string) : string :=
  "webtris:" ++ toUpperCase road.
Definition googleKey (origin destination : string) : string :=
  "googlemaps:" ++ toLowerCase origin ++ ":" ++ toLowerCase destination.

(** The road filter of [fetchTIITraffic]. *)
Definition onRoad (road : string) (s : TII.FeedElement) : bool :=
  let rec := TII.first_record (TII.situationRecord s) in
  let roadName := toUpperCase (jsor (TII.roadName rec) "") in
  includes roadName (toUpperCase road).

(** The [try { } catch] of [fetchTIITraffic], reached on a cache miss. *)
Definition tiiFromNetwork (rt : Runtime) (road cacheKey : string)
  : M World (FetchResult TII.Record_) :=
  try_catch
    (let* body := axios_get rt GetTIITraffic (tiiFeed rt) in
     let* situations :=
       match body with
       | TIINoSituation => ret []
       | TIISituations l => ret l
       | TIIIllTyped e => throw e
       end in
     let filteredData :=
       if truthy road then List.filter (onRoad road) situations
       else situations in
     let* t1 := now in
     let normalizedData := map (TII.normalizeTIIRecord t1) filteredData in
     do* modify (fun w =>
           set_tiiCache
             (<[cacheKey := {| ce_data := normalizedData;
                               ce_timestamp := clock w |}]> (tiiCache w)) w) in
     let* t2 := now in
     ret {| data := normalizedData; fromCache := Some false; error := None;
            source := "TII-Ireland";
            timestamp := Some (CapturedAt t2) |})
    (fun message =>
       let* t2 := now in
       ret {| data := []; fromCache := None; error := Some message;
              source := "TII-Ireland";
              timestamp := Some (CapturedAt t2) |}).

(** [fetchTIITraffic] *)
Definition fetchTIITraffic (rt : Runtime) (road : string)
  : M World (FetchResult TII.Record_) :=
  do* modify (log_call (CallTII road)) in
  let cacheKey := tiiKey road in
  let* cached := gets (fun w => tiiCache w !! cacheKey) in
  let* t := now in
  match cached with
  | Some c =>
      if isCacheValid t cached then
        ret {| data := ce_data c; fromCache := Some true; error := None;
               source := "TII-Ireland";
               timestamp := Some (EpochMillis (ce_timestamp c)) |}
      else tiiFromNetwork rt road cacheKey
  | None => tiiFromNetwork rt road cacheKey
  end.

(** [fetchSites]: a rejected request is logged and gives the empty array. *)
Definition fetchSites (rt : Runtime) (road : string) : M World SitesBody :=
  try_catch
    (let* body := axios_get rt (GetSites (toUpperCase road))
                    (fun n => sitesEndpoint rt n (toUpperCase road)) in
     ret match body with
         | SitesAbsent => SitesArray []
         | other => other
         end)
    (fun _ => ret (SitesArray [])).

(** [fetchReports] *)
Definition fetchReports (rt : Runtime) (siteIds : list (option string))
  : M World ReportsBody :=
  match siteIds with
  | [] => ret (ReportsArray [])
  | _ =>
      try_catch
        (let* body := axios_get rt (GetReports siteIds)
                        (fun n => reportsEndpoint rt n siteIds) in
         ret match body with
             | ReportsAbsent => ReportsArray []
             | other => other
             end)
        (fun _ => ret (ReportsArray []))
  end.

(** [reports.find(r => r.siteId === site.id) || {}] *)
Definition reportFor (reports : list WebTRIS.Report) (site : WebTRIS.Site)
  : WebTRIS.Report :=
  from_option id WebTRIS.emptyReport
    (List.find
       (fun r => bool_decide (WebTRIS.siteId r = WebTRIS.site_id site))
       reports).

(** The [try { } catch] of [fetchWebTRISTraffic]. *)
Definition webtrisFromNetwork (rt : Runtime) (road cacheKey : string)
  : M World (FetchResult WebTRIS.Record_) :=
  try_catch
    (let* sitesValue := fetchSites rt road in
     match sitesValue with
     | SitesAbsent | SitesArray [] =>
         let* t := now in
         ret {| data := []; fromCache := None; error := None;
                source := "WebTRIS-UK";
                timestamp := Some (CapturedAt t) |}
     | SitesIllTyped e => throw e
     | SitesArray sites =>
         let siteIds := map WebTRIS.site_id sites in
         let* reportsValue := fetchReports rt siteIds in
         let* reports :=
           match reportsValue with
           | ReportsAbsent => ret []
           | ReportsArray l => ret l
           | ReportsIllTyped e => throw e
           end in
         let* t1 := now in
         let data :=
           map (fun site =>
                  WebTRIS.normalizeWebTRISRecord t1 site
                    (reportFor reports site)) sites in
         do* modify (fun w =>
               set_webtrisCache
                 (<[cacheKey := {| ce_data := data;
                                   ce_timestamp := clock w |}]>
                    (webtrisCache w)) w) in
         let* t2 := now in
         ret {| data := data; fromCache := Some false; error := None;
                source := "WebTRIS-UK";
                timestamp := Some (CapturedAt t2) |}
     end)
    (fun message =>
       let* t2 := now in
       ret {| data := []; fromCache := None; error := Some message;
              source := "WebTRIS-UK";
              timestamp := Some (CapturedAt t2) |}).

(** [fetchWebTRISTraffic] *)
Definition fetchWebTRISTraffic (rt : Runtime) (road : string)
  : M World (FetchResult WebTRIS.Record_) :=
  do* modify (log_call (CallWebTRIS road)) in
  let cacheKey := webtrisKey road in
  let* cached := gets (fun w => webtrisCache w !! cacheKey) in
  let* t := now in
  match cached with
  | Some c =>
      if isCacheValid t cached then
        ret {| data := ce_data c; fromCache := Some true; error := None;
               source := "WebTRIS-UK";
               timestamp := Some (EpochMillis (ce_timestamp c)) |}
      else webtrisFromNetwork rt road cacheKey
  | None => webtrisFromNetwork rt road cacheKey
  end.

(** [trackAPICall]: count the call and keep the last 100 of the history. *)
Definition trackAPICall (origin destination : string) (success : bool)
  : M World unit :=
  modify (fun w =>
    let history :=
      (apiCallHistory w ++
         [{| ac_timestamp := clock w; ac_origin := origin;
             ac_destination := destination; ac_success := success |}])%list in
    {| clock := clock w; requests := requests w; calls := calls w;
       tiiCache := tiiCache w; webtrisCache := webtrisCache w;
       googleCache := googleCache w;
       apiCallCount := Datatypes.S (apiCallCount w);
       apiCallHistory :=
         if (100 <? List.length history)%nat
         then skipn (List.length history - 100) history
         else history |}).

(** The [try { } catch] of [fetchGoogleMapsTraffic]. *)
Definition googleFromNetwork (rt : Runtime) (origin destination : string)
    (road : option string) (cacheKey : string)
  : M World (FetchResult GoogleMaps.Record_) :=
  try_catch
    (let* body := axios_get rt (GetDirections origin destination)
                    (fun n => directionsEndpoint rt n origin destination) in
     match body with
     | GoogleNoData e => throw e
     | GoogleData status routes =>
         if negb (bool_decide (status = Some "OK")) then
           do* trackAPICall origin destination false in
           let* t := now in
           ret {| data := []; fromCache := None;
                  error := Some ("Google Maps API Error: " ++
                                 from_option id "undefined" status);
                  source := "GoogleMaps";
                  timestamp := Some (CapturedAt t) |}
         else
           match from_option id [] routes with
           | [] =>
               do* trackAPICall origin destination false in
               let* t := now in
               ret {| data := []; fromCache := None; error := None;
                      source := "GoogleMaps";
                      timestamp := Some (CapturedAt t) |}
           | route :: _ =>
               let* t1 := now in
               let* normalizedData :=
                 match GoogleMaps.normalizeGoogleMapsData (onto rt) t1 route
                         origin destination road with
                 | inl e => throw e
                 | inr r => ret r
                 end in
               do* modify (fun w =>
                     set_googleCache
                       (<[cacheKey := {| ce_data := [normalizedData];
                                         ce_timestamp := clock w |}]>
                          (googleCache w)) w) in
               do* trackAPICall origin destination true in
               let* t2 := now in
               ret {| data := [normalizedData]; fromCache := Some false;
                      error := None; source := "GoogleMaps";
                      timestamp := Some (CapturedAt t2) |}
           end
     end)
    (fun message =>
       do* trackAPICall origin destination false in
       let* t2 := now in
       ret {| data := []; fromCache := None; error := Some message;
              source := "GoogleMaps";
              timestamp := Some (CapturedAt t2) |}).

(** [fetchGoogleMapsTraffic] *)
Definition fetchGoogleMapsTraffic (rt : Runtime) (origin destination : string)
    (road : option string) : M World (FetchResult GoogleMaps.Record_) :=
  do* modify (log_call (CallGoogleMaps origin destination)) in
  if negb (truthy (GOOGLE_MAPS_API_KEY rt)) then
    ret {| data := []; fromCache := None;
           error := Some "Google Maps API Key not configured";
           source := "GoogleMaps"; timestamp := None |}
  else
    let cacheKey := googleKey origin destination in
    let* cached := gets (fun w => googleCache w !! cacheKey) in
    let* t := now in
    match cached with
    | Some c =>
        if isCacheValid t cached then
          ret {| data := ce_data c; fromCache := Some true; error := None;
                 source := "GoogleMaps";
                 timestamp := Some (EpochMillis (ce_timestamp c)) |}
        else googleFromNetwork rt origin destination road cacheKey
    | None => googleFromNetwork rt origin destination road cacheKey
    end.

(** The origin and destination [fetchRoadTraffic] builds, and the
    alternative phrasing of its second attempt. *)
Definition roadDestination (road : string) (town : option string)
    (country : string) : string :=
  GoogleMaps.buildLocationQuery road town (Some country).
Definition roadOrigin (road : string) (town : option string)
    (country : string) : string :=
  if truthy town then jsor town "" ++ " " ++ country
  else roadDestination road town country.
Definition altOrigin (road : string) (town : option string) : string :=
  "Near " ++ road ++ ", " ++ jsor town "".
Definition altDest (road : string) (town : option string) : string :=
  "End of " ++ road ++ ", " ++ jsor town "".

(** [fetchRoadTraffic]: one call, and a second one with the alternative
    phrasing when the first gave no data and a town is given. *)
Definition fetchRoadTraffic (rt : Runtime) (road : string)
    (town : option string) (country : string)
  : M World (FetchResult GoogleMaps.Record_) :=
  do* modify (log_call (CallRoadTraffic road town country)) in
  let origin := roadOrigin road town country in
  let destination := roadDestination road town country in
  let* result := fetchGoogleMapsTraffic rt origin destination (Some road) in
  if bool_decide (List.length (data result) = 0%nat) && truthy town then
    fetchGoogleMapsTraffic rt (altOrigin road town) (altDest road town)
      (Some road)
  else ret result.

End Fetch.

(** ** The orchestrator of [server.js] *)

Module Server.

(** An entry of [results.details]. *)
Inductive Detail :=
| Step (step : string)
| StepFromCache (step : string) (fromCache : option bool)
| StepError (step : string) (error : option string).

Record Results := {
  data : list TrafficRecord;
  sourcesUsed : list string;
  fallbackUsed : bool;
  errors : list string;
  details : list Detail
}.

(** Decimal rendering of an array length. *)
Definition show (n : nat) : string := pretty.pretty n.

(** The free-source block for TII. *)
Definition tryTII (rt : Runtime) (road : string) (results : Results)
  : M World Results :=
  let* tiiResult := Fetch.fetchTIITraffic rt road in
  let tried := (details results ++ [Step ("Trying TII (Ireland) for " ++ road)])%list in
  let sources := (sourcesUsed results ++ ["TII-Ireland"])%list in
  let n := List.length (Result.data tiiResult) in
  if (0 <? n)%nat then
    ret {| data := (data results ++ map FromTII (Result.data tiiResult))%list;
           sourcesUsed := sources;
           fallbackUsed := fallbackUsed results;
           errors := errors results;
           details :=
             (tried ++ [StepFromCache ("TII returned " ++ show n ++ " records")
                          (Result.fromCache tiiResult)])%list |}
  else
    ret {| data := data results;
           sourcesUsed := sources;
           fallbackUsed := fallbackUsed results;
           errors := errors results;
           details :=
             (tried ++ [StepError "TII returned no data"
                          (Result.error tiiResult)])%list |}.

(** The free-source block for WebTRIS. *)
Definition tryWebTRIS (rt : Runtime) (road : string) (results : Results)
  : M World Results :=
  let* webtrisResult := Fetch.fetchWebTRISTraffic rt road in
  let tried := (details results ++ [Step ("Trying WebTRIS (UK) for " ++ road)])%list in
  let sources := (sourcesUsed results ++ ["WebTRIS-UK"])%list in
  let n := List.length (Result.data webtrisResult) in
  if (0 <? n)%nat then
    ret {| data := (data results ++ map FromWebTRIS (Result.data webtrisResult))%list;
           sourcesUsed := sources;
           fallbackUsed := fallbackUsed results;
           errors := errors results;
           details :=
             (tried ++ [StepFromCache ("WebTRIS returned " ++ show n ++ " records")
                          (Result.fromCache webtrisResult)])%list |}
  else
    ret {| data := data results;
           sourcesUsed := sources;
           fallbackUsed := fallbackUsed results;
           errors := errors results;
           details :=
             (tried ++ [StepError "WebTRIS returned no data"
                          (Result.error webtrisResult)])%list |}.

Definition countryNameOf (normalizedCountry : string) : string :=
  if String.eqb normalizedCountry "IE" then "Ireland"
  else if String.eqb normalizedCountry "UK" then "United Kingdom"
  else if String.eqb normalizedCountry "ALL" then ""
  else normalizedCountry.

(** The fallback block. *)
Definition tryGoogle (rt : Runtime) (road : string) (town : option string)
    (normalizedCountry : string) (results : Results) : M World Results :=
  let countryName := countryNameOf normalizedCountry in
  let* googleResult := Fetch.fetchRoadTraffic rt road town countryName in
  let tried :=
    (details results ++ [Step ("Falling back to Google Maps for " ++ road)])%list in
  let sources := (sourcesUsed results ++ ["GoogleMaps"])%list in
  let n := List.length (Result.data googleResult) in
  if (0 <? n)%nat then
    ret {| data := (data results ++ map FromGoogle (Result.data googleResult))%list;
           sourcesUsed := sources;
           fallbackUsed := true;
           errors := errors results;
           details :=
             (tried ++ [StepFromCache ("Google Maps returned " ++ show n ++ " records")
                          (Result.fromCache googleResult)])%list |}
  else
    ret {| data := data results;
           sourcesUsed := sources;
           fallbackUsed := true;
           errors :=
             if truthy (Result.error googleResult)
             then (errors results ++ [jsor (Result.error googleResult) ""])%list
             else errors results;
           details :=
             (tried ++ [StepError "Google Maps returned no data"
                          (Result.error googleResult)])%list |}.

Definition normalizeCountry (country : option string) : string :=
  if truthy country then toUpperCase (jsor country "") else "ALL".

(** [town && !road.match(/^(M|N|A)[0-9]+/i)] as a truth value. *)
Definition isLocalStreet (road : string) (town : option string) : bool :=
  truthy town && negb (matches_designation road).

Definition wantsTII (road : string) (country : option string) : bool :=
  let normalizedCountry := normalizeCountry country in
  (String.eqb normalizedCountry "ALL" || String.eqb normalizedCountry "IE")
  && (TII.isIrishRoad road || String.eqb (toUpperCase road) "M1").

Definition wantsWebTRIS (road : string) (country : option string) : bool :=
  let normalizedCountry := normalizeCountry country in
  (String.eqb normalizedCountry "ALL" || String.eqb normalizedCountry "UK")
  && (WebTRIS.isUKRoad road || String.eqb (toUpperCase road) "M1").

(** [shouldTryGoogle], from the data gathered so far. *)
Definition shouldTryGoogle (road : string) (country town : option string)
    (results : Results) : bool :=
  let hasFreeData := (0 <? List.length (data results))%nat in
  negb hasFreeData || isLocalStreet road town
  || GoogleMaps.isGoogleMapsPreferred road town country.

Definition initialResults : Results :=
  {| data := []; sourcesUsed := []; fallbackUsed := false; errors := [];
     details := [] |}.

(** Step 1 of [fetchTrafficWithFallback]: the free sources. *)
Definition tryFreeSources (rt : Runtime) (road : string)
    (country : option string) : M World Results :=
  let results := initialResults in
  let* results :=
    if wantsTII road country then tryTII rt road results else ret results in
  if wantsWebTRIS road country then tryWebTRIS rt road results
  else ret results.

(** [fetchTrafficWithFallback] *)
Definition fetchTrafficWithFallback (rt : Runtime) (road : string)
    (country town : option string) : M World Results :=
  let normalizedCountry := normalizeCountry country in
  let* results := tryFreeSources rt road country in
  if shouldTryGoogle road country town results
  then tryGoogle rt road town normalizedCountry results
  else ret results.

(** The congestion level of a record, as [summary] reads it. *)
Definition congestionLevelOf (d : TrafficRecord) : CongestionLevel :=
  match d with
  | FromTII r => TII.congestionLevel r
  | FromWebTRIS r => WebTRIS.congestionLevel r
  | FromGoogle r => GoogleMaps.congestionLevel r
  end.

Definition countLevel (l : CongestionLevel) (data : list TrafficRecord) : nat :=
  List.length
    (List.filter (fun d => bool_decide (congestionLevelOf d = l)) data).

Record CongestionBreakdown := {
  heavy : nat;
  moderate : nat;
  light : nat;
  none : nat
}.

Record Summary := {
  totalRecords : nat;
  summary_sourcesUsed : list string;
  fallbackTriggered : bool;
  countries : list string;
  congestionBreakdown : CongestionBreakdown
}.

Definition countryOf (d : TrafficRecord) : string :=
  match d with
  | FromTII _ => "IE"
  | FromWebTRIS _ => "UK"
  | FromGoogle _ => "Unknown"
  end.

(** [[...new Set(xs)]]: first occurrences, in order. *)
Definition dedupe (xs : list string) : list string :=
  fold_left
    (fun seen x => if existsb (String.eqb x) seen then seen
                   else (seen ++ [x])%list)
    xs [].

(** The [summary] object; [country] is the query parameter, ['ALL'] by
    default. *)
Definition summary (country : string) (fetchResults : Results) : Summary :=
  let data := data fetchResults in
  {| totalRecords := List.length data;
     summary_sourcesUsed := sourcesUsed fetchResults;
     fallbackTriggered := fallbackUsed fetchResults;
     countries := if String.eqb country "ALL"
                  then dedupe (map countryOf data) else [country];
     congestionBreakdown :=
       {| heavy := countLevel CongHeavy data;
          moderate := countLevel CongModerate data;
          light := countLevel CongLight data;
          none := countLevel CongNone data |} |}.

End Server.

(** ** The junction report of [m1-junction-monitor.js] *)

Module Junction.

Inductive Status := Clear | Light | Moderate | Heavy | Unknown.

(** The status marker of a segment line (a coloured emoji in the source). *)
Inductive Marker := Green | Yellow | Orange | Red | White.

Record Segment := {
  name : string;
  from : string;
  to : string;
  town : string;
  normalTime : Q
}.

(** A checked segment: the segment's own fields and what
    [processSegmentData] or the error branch of [checkSegment] adds. *)
Record SegmentResult := {
  segment : Segment;
  status : Status;
  currentTime : option Q;          (* null after a transport error *)
  delayMinutes : Q;
  emoji : Marker
}.

(** The fields of an API record that [processSegmentData] reads. *)
Record ApiRecord := {
  travelTimeMinutes : option Q;
  api_delayMinutes : option Q
}.

Definition classify (delayMinutes : Q) : Status * Marker :=
  if Qle_bool 10 delayMinutes then (Heavy, Red)
  else if Qle_bool 5 delayMinutes then (Moderate, Orange)
  else if Qle_bool 2 delayMinutes then (Light, Yellow)
  else (Clear, Green).

(** [processSegmentData] *)
Definition processSegmentData (seg : Segment) (data : list ApiRecord)
  : SegmentResult :=
  match data with
  | [] =>
      {| segment := seg; status := Clear; currentTime := Some (normalTime seg);
         delayMinutes := 0; emoji := Green |}
  | first :: _ =>
      let record :=
        from_option id first
          (List.find (fun d => truthy (travelTimeMinutes d)) data) in
      let current := jsor (travelTimeMinutes record) (normalTime seg) in
      let delay :=
        jsor (api_delayMinutes record) (max0 (current - normalTime seg)) in
      {| segment := seg; status := fst (classify delay);
         currentTime := Some current; delayMinutes := delay;
         emoji := snd (classify delay) |}
  end.

(** The error branch of [checkSegment]. *)
Definition unknownSegment (seg : Segment) : SegmentResult :=
  {| segment := seg; status := Unknown; currentTime := None;
     delayMinutes := 0; emoji := White |}.

(** The recommendation line; the constructors are the four messages and
    carry the values interpolated into them. *)
Inductive Recommendation :=
| MajorDelays (delayDepartureBy : Z)
| SignificantDelays (worstName : string) (extraMinutes : Q)
| MinorDelays (extraMinutes : Q) (worstName : string)
| RouteClear.

Inductive Tier := TierMajor | TierSignificant | TierMinor | TierClear.

Definition tierOf (r : Recommendation) : Tier :=
  match r with
  | MajorDelays _ => TierMajor
  | SignificantDelays _ _ => TierSignificant
  | MinorDelays _ _ => TierMinor
  | RouteClear => TierClear
  end.

Record Report := {
  southbound : bool;
  segmentLines : list (Marker * string * option Q * option Q);
  totalCurrentTime : Q;
  totalNormalTime : Q;
  totalDelay : Q;
  worstSegment : SegmentResult;
  recommendation : Recommendation
}.

Definition sumQ {A} (f : A -> Q) (xs : list A) : Q :=
  fold_left (fun sum s => (sum + f s)%Q) xs 0%Q.

(** [segmentResults.reduce((worst, current) => ...)] without an initial
    value: a TypeError on the empty array. *)
Definition worstOf (segmentResults : list SegmentResult)
  : outcome SegmentResult :=
  match segmentResults with
  | [] => Throw "Reduce of empty array with no initial value"
  | s :: rest =>
      Ret (fold_left
             (fun worst current =>
                if Qgtb (delayMinutes current) (delayMinutes worst)
                then current else worst)
             rest s)
  end.

Definition recommend (totalDelay : Q) (worst : SegmentResult)
  : Recommendation :=
  if Qle_bool 15 totalDelay then
    MajorDelays (Qceiling (totalDelay / 5) * 5)
  else if Qle_bool 10 totalDelay then
    SignificantDelays (name (segment worst)) totalDelay
  else if Qle_bool 5 totalDelay then
    MinorDelays totalDelay (name (segment worst))
  else RouteClear.

(** [generateReport] *)
Definition generateReport (direction : string)
    (segmentResults : list SegmentResult) : outcome Report :=
  let isMorning := String.eqb direction "southbound" in
  let totalNormal := sumQ (fun s => normalTime (segment s)) segmentResults in
  let totalCurrent :=
    sumQ (fun s => jsor (currentTime s) (normalTime (segment s)))
         segmentResults in
  let totalDelay := (totalCurrent - totalNormal)%Q in
  match worstOf segmentResults with
  | Throw e => Throw e
  | Ret worst =>
      Ret {| southbound := isMorning;
             segmentLines :=
               map (fun s =>
                      (emoji s, name (segment s),
                       if truthy (currentTime s) then currentTime s else None,
                       if Qgtb (delayMinutes s) 0
                       then Some (delayMinutes s) else None))
                   segmentResults;
             totalCurrentTime := totalCurrent;
             totalNormalTime := totalNormal;
             totalDelay := totalDelay;
             worstSegment := worst;
             recommendation := recommend totalDelay worst |}
  end.

End Junction.

(** ** Segment enrichment: [extractSegment] and its fallback *)

Module Extract.

(** A JavaScript value as a field of an input object may hold it. *)
Inductive jsval :=
| JUndefined
| JNull
| JBool (b : bool)
| JNum (q : Q)
| JStr (s : string)
| JObject.

#[global] Instance truthy_jsval : Truthy jsval :=
  fun v => match v with
           | JUndefined | JNull => false
           | JBool b => b
           | JNum q => truthy q
           | JStr s => truthy s
           | JObject => true
           end.

(** [a || b] on values. *)
Definition vor (a b : jsval) : jsval := if truthy a then a else b.

(** The fields of an input object that the fallback reads;
    [location_lat] is [trafficData.location?.lat]. *)
Record RecordObject := {
  location_lat : jsval;
  location_lon : jsval;
  lat : jsval;
  lon : jsval;
  o_road : jsval;
  o_direction : jsval;
  congestionLevel : jsval;
  o_congestion : jsval;
  averageSpeed : jsval;
  o_incidentType : jsval
}.

Inductive TrafficData :=
| Text (s : string)
| Obj (o : RecordObject).

(** The seven extracted fields. *)
Record Fields := {
  road : jsval;
  direction : jsval;
  segment : jsval;
  landmark : jsval;
  congestion : jsval;
  speed : jsval;
  incidentType : jsval
}.

(** The object [extractSegment] resolves with. *)
Record Segment := {
  fields : Fields;
  rawExtracted : bool;
  partial : bool;                  (* set on a partially recovered reply *)
  humanReadable : string;
  cached : option bool;
  llmProvider : option string;
  extractionError : option string;
  fallback : option bool
}.

(** What the backend call does. *)
Inductive LLMReply :=
| HttpError (status : Z) (errorData : string)
| Timeout
| NetworkError (message : string)
| InvalidFormat (message : string)    (* [parseResponse] finds no text *)
| ReplyText (text : string).

(** The built-ins and the environment of the extractor: number and value
    formatting, [JSON.stringify], the regular expressions of the text
    fallback (each gives the captured groups of the first match), the
    configuration read from [process.env], the backend (its reply to the
    prompt that [buildPrompt] wraps around the given data string), and
    [parseLLMResponse], which returns [null] ([None]) on every failure and
    otherwise the fields and whether they were recovered from a partial
    reply. *)
Record Runtime := {
  toFixed3 : Q -> string;
  toStr : jsval -> string;
  stringify : RecordObject -> string;
  roadMatch : string -> option string;
  directionMatch : string -> option string;
  congestionMatch : string -> option string;
  incidentMatch : string -> option string;
  speedMatch : string -> option (string * option string);
  llmConfigError : option string;
  llmProviderName : string;
  backend : string -> LLMReply;
  parseLLMResponse : string -> option (Fields * bool)
}.

Record Store := {
  clock : Z;
  cache : gmap string (Segment * Z)
}.

Definition CACHE_TTL : Z := 5 * 60 * 1000.

(** ToInt32 *)
Definition toInt32 (z : Z) : Z := (z + 2 ^ 31) mod 2 ^ 32 - 2 ^ 31.

Fixpoint hashFrom (hash : Z) (str : string) : Z :=
  match str with
  | EmptyString => hash
  | String c rest =>
      let char := Z.of_nat (nat_of_ascii c) in
      hashFrom (toInt32 (toInt32 (Z.shiftl hash 5) - hash + char)) rest
  end.

Definition dataString (rt : Runtime) (d : TrafficData) : string :=
  match d with
  | Text s => s
  | Obj o => stringify rt o
  end.

(** [getCacheKey] *)
Definition getCacheKey (rt : Runtime) (d : TrafficData) : string :=
  "segment_" ++ pretty.pretty (hashFrom 0 (dataString rt d)).

(** [generateHumanReadable] *)
Definition generateHumanReadable (rt : Runtime) (extracted : Fields)
  : string :=
  let parts :=
    List.concat
      [ if truthy (road extracted) && truthy (direction extracted)
        then [toStr rt (road extracted) ++ " " ++ toStr rt (direction extracted)]
        else if truthy (road extracted) then [toStr rt (road extracted)]
        else [];
        if truthy (segment extracted)
        then ["- " ++ toStr rt (segment extracted)] else [];
        if truthy (landmark extracted)
        then ["(" ++ toStr rt (landmark extracted) ++ ")"] else [];
        if truthy (congestion extracted)
        then ["[" ++ toStr rt (congestion extracted) ++ " congestion]"]
        else [];
        if truthy (speed extracted)
        then ["at " ++ toStr rt (speed extracted)] else [];
        if truthy (incidentType extracted)
        then ["- " ++ toStr rt (incidentType extracted)] else [] ] in
  let joined := String.concat " " parts in
  if truthy joined then joined else "Location information unavailable".

Definition ofMatch (m : option string) : jsval :=
  match m with Some s => JStr s | None => JNull end.

(** [x.toFixed(3)]: defined on numbers, a TypeError on any other value
    that passed the truthiness test. *)
Definition toFixed (rt : Runtime) (what : string) (v : jsval)
  : outcome string :=
  match v with
  | JNum q => Ret (toFixed3 rt q)
  | _ => Throw (what ++ ".toFixed is not a function")
  end.

Definition fallbackSegment (rt : Runtime) (extracted : Fields) : Segment :=
  {| fields := extracted; rawExtracted := false; partial := false;
     humanReadable := generateHumanReadable rt extracted;
     cached := None; llmProvider := None; extractionError := None;
     fallback := None |}.

(** [createFallbackResult] *)
Definition createFallbackResult (rt : Runtime) (trafficData : TrafficData)
  : outcome Segment :=
  match trafficData with
  | Text s =>
      let extracted :=
        {| road := ofMatch (toUpperCase <$> roadMatch rt s);
           direction := ofMatch (directionMatch rt s);
           segment := JNull;
           landmark := JNull;
           congestion := ofMatch (congestionMatch rt s);
           speed := match speedMatch rt s with
                    | Some (n, unit) => JStr (n ++ " " ++ jsor unit "km/h")
                    | None => JNull
                    end;
           incidentType := ofMatch (incidentMatch rt s) |} in
      Ret (fallbackSegment rt extracted)
  | Obj o =>
      let lat := vor (location_lat o) (lat o) in
      let lon := vor (location_lon o) (lon o) in
      match
        (if truthy lat && truthy lon then
           match toFixed rt "lat" lat with
           | Throw e => Throw e
           | Ret a =>
               match toFixed rt "lon" lon with
               | Throw e => Throw e
               | Ret b => Ret (JStr ("Coordinates: " ++ a ++ ", " ++ b))
               end
           end
         else Ret JNull)
      with
      | Throw e => Throw e
      | Ret seg =>
          let extracted :=
            {| road := vor (o_road o) JNull;
               direction := vor (o_direction o) JNull;
               segment := seg;
               landmark := JNull;
               congestion :=
                 vor (vor (congestionLevel o) (o_congestion o)) JNull;
               speed := if truthy (averageSpeed o)
                        then JStr (toStr rt (averageSpeed o) ++ " km/h")
                        else JNull;
               incidentType := vor (o_incidentType o) JNull |} in
          Ret (fallbackSegment rt extracted)
      end
  end.

(** [callLLM]: every way of failing is an exception with its message. *)
Definition callLLM (rt : Runtime) (prompt : string) : outcome string :=
  match llmConfigError rt with
  | Some e => Throw ("LLM not configured: " ++ e)
  | None =>
      match backend rt prompt with
      | HttpError status errorData =>
          if (status =? 401)%Z || (status =? 403)%Z then
            Throw ("LLM API authentication failed: Invalid API key for "
                   ++ llmProviderName rt)
          else if (status =? 429)%Z then
            Throw ("LLM API rate limit exceeded for " ++ llmProviderName rt)
          else
            Throw ("LLM API error (" ++ pretty.pretty status ++ "): "
                   ++ errorData)
      | Timeout => Throw "LLM API timeout after 30s"
      | NetworkError message => Throw ("LLM API call failed: " ++ message)
      | InvalidFormat message => Throw ("LLM API call failed: " ++ message)
      | ReplyText text => Ret text
      end
  end.

(** The [try] block of [extractSegment] up to the parsed fields. *)
Definition llmPath (rt : Runtime) (trafficData : TrafficData)
  : outcome (Fields * bool) :=
  match callLLM rt (dataString rt trafficData) with
  | Throw e => Throw e
  | Ret llmResponse =>
      match parseLLMResponse rt llmResponse with
      | None => Throw "Failed to extract segment data from LLM response"
      | Some extracted => Ret extracted
      end
  end.

Definition lift {A} (o : outcome A) : M Store A := fun s => (o, s).

(** [extractSegment] *)
Definition extractSegment (rt : Runtime) (trafficData : TrafficData)
    (useCache fallbackOn : bool) : M Store Segment :=
  let cacheKey := getCacheKey rt trafficData in
  let* hit := gets (fun s =>
    if useCache then
      match cache s !! cacheKey with
      | Some (data, stamp) =>
          if bool_decide (clock s - stamp < CACHE_TTL) then Some data
          else None
      | None => None
      end
    else None) in
  match hit with
  | Some data =>
      ret {| fields := fields data; rawExtracted := rawExtracted data;
             partial := partial data;
             humanReadable := humanReadable data; cached := Some true;
             llmProvider := llmProvider data;
             extractionError := extractionError data;
             fallback := fallback data |}
  | None =>
      try_catch
        (let* extracted := lift (llmPath rt trafficData) in
         let result :=
           {| fields := fst extracted; rawExtracted := true;
              partial := snd extracted;
              humanReadable := generateHumanReadable rt (fst extracted);
              cached := Some false;
              llmProvider := Some (llmProviderName rt);
              extractionError := None; fallback := None |} in
         do* (if useCache then
                modify (fun s =>
                  {| clock := clock s;
                     cache := <[cacheKey := (result, clock s)]> (cache s) |})
              else ret tt) in
         ret result)
        (fun message =>
           if fallbackOn then
             let* fallbackResult := lift (createFallbackResult rt trafficData) in
             ret {| fields := fields fallbackResult;
                    rawExtracted := rawExtracted fallbackResult;
                    partial := partial fallbackResult;
                    humanReadable := humanReadable fallbackResult;
                    cached := cached fallbackResult;
                    llmProvider := llmProvider fallbackResult;
                    extractionError := Some message;
                    fallback := Some true |}
           else throw message)
  end.

End Extract.

(** ** Vocabulary of the statements *)





(** Inputs of the enrichment fallback whose coordinates, when both are
    truthy, are numbers. *)
Definition coordinatesFormattable (d : Extract.TrafficData) : Prop :=
  match d with
  | Extract.Text _ => True
  | Extract.Obj o =>
      let lat := Extract.vor (Extract.location_lat o) (Extract.lat o) in
      let lon := Extract.vor (Extract.location_lon o) (Extract.lon o) in
      truthy lat && truthy lon = true ->
      (exists a, lat = Extract.JNum a) /\ (exists b, lon = Extract.JNum b)
  end.

(** ** Concrete scenarios *)

Module Scenario.

Definition emptyWorld : World :=
  {| clock := 0; requests := []; calls := []; tiiCache := ∅;
     webtrisCache := ∅; googleCache := ∅; apiCallCount := 0;
     apiCallHistory := [] |}.

(** A TII situation on the M1 with the given raw travel times. *)
Definition m1Record (travel freeFlow : Q) : TII.SituationRecord :=
  {| TII.roadName := Some "M1"; TII.directionBound := Some "Northbound";
     TII.travelTime := Some travel; TII.freeFlowTravelTime := Some freeFlow;
     TII.sr_lat := None; TII.sr_lon := None;
     TII.startLocation := None; TII.endLocation := None |}.

Definition m1Element (travel freeFlow : Q) : TII.FeedElement :=
  {| TII.situationRecord := [m1Record travel freeFlow];
     TII.situation :=
       Some {| TII.header_id := None;
               TII.sit_situationRecord := [m1Record travel freeFlow] |};
     TII.road := None; TII.lat := None; TII.lon := None;
     TII.publicationTime := None; TII.id := None |}.

(** A WebTRIS site with the default length and typical speed. *)
Definition m25Site : WebTRIS.Site :=
  {| WebTRIS.site_id := Some "19446"; WebTRIS.name := Some "M25";
     WebTRIS.direction := Some "Clockwise"; WebTRIS.typicalSpeed := None;
     WebTRIS.length := None; WebTRIS.latitude := None;
     WebTRIS.longitude := None; WebTRIS.area := None;
     WebTRIS.description := None |}.

Definition reportAt (s : Q) : WebTRIS.Report :=
  {| WebTRIS.siteId := Some "19446"; WebTRIS.speed := Some s;
     WebTRIS.averageSpeed := None; WebTRIS.vehicleFlow := None;
     WebTRIS.volume := None; WebTRIS.report_timestamp := None |}.

(** A Directions leg with the given free-flow and in-traffic seconds. *)
Definition legOf (duration : option Q) (inTraffic : option Q)
  : GoogleMaps.Leg :=
  {| GoogleMaps.distance := Some 600%Q;
     GoogleMaps.duration := duration;
     GoogleMaps.duration_in_traffic := inTraffic;
     GoogleMaps.start_location := None; GoogleMaps.end_location := None;
     GoogleMaps.steps := None;
     GoogleMaps.start_address := None; GoogleMaps.end_address := None |}.

Definition routeOf (leg : GoogleMaps.Leg) : GoogleMaps.Route :=
  {| GoogleMaps.legs := Some [leg]; GoogleMaps.summary := None;
     GoogleMaps.warnings := None |}.

(** Every provider answers. *)
Definition liveRuntime : Runtime :=
  {| GOOGLE_MAPS_API_KEY := Some "key";
     tiiFeed := fun _ => Resolved (TIISituations [m1Element 1680 1320]);
     sitesEndpoint := fun _ _ => Resolved (SitesArray [m25Site]);
     reportsEndpoint := fun _ _ => Resolved (ReportsArray [reportAt 50]);
     directionsEndpoint := fun _ _ _ =>
       Resolved (GoogleData (Some "OK")
                   (Some [routeOf (legOf (Some 180%Q) (Some 200%Q))]));
     latency := fun _ => 120%N;
     onto := fun _ => None |}.


(** Every request times out and no API key is configured. *)
Definition downRuntime : Runtime :=
  {| GOOGLE_MAPS_API_KEY := None;
     tiiFeed := fun _ => Rejected "timeout of 10000ms exceeded";
     sitesEndpoint := fun _ _ => Rejected "timeout of 10000ms exceeded";
     reportsEndpoint := fun _ _ => Rejected "timeout of 10000ms exceeded";
     directionsEndpoint := fun _ _ _ =>
       Rejected "timeout of 10000ms exceeded";
     latency := fun _ => 10000%N;
     onto := fun _ => None |}.

(** A checked segment of the junction report. *)
Definition syntheticSegment (normal current : Q) : Junction.SegmentResult :=
  {| Junction.segment :=
       {| Junction.name := "J7-J6 Julianstown-Balbriggan";
          Junction.from := "Julianstown"; Junction.to := "Balbriggan North";
          Junction.town := "Balbriggan"; Junction.normalTime := normal |};
     Junction.status := fst (Junction.classify (current - normal));
     Junction.currentTime := Some current;
     Junction.delayMinutes := (current - normal)%Q;
     Junction.emoji := snd (Junction.classify (current - normal)) |}.

(** The extractor with no backend configured. *)
Definition offlineRuntime : Extract.Runtime :=
  {| Extract.toFixed3 := fun _ => "0.000";
     Extract.toStr := fun v => match v with Extract.JStr s => s | _ => "" end;
     Extract.stringify := fun _ => "{}";
     Extract.roadMatch := fun _ => None;
     Extract.directionMatch := fun _ => None;
     Extract.congestionMatch := fun _ => None;
     Extract.incidentMatch := fun _ => None;
     Extract.speedMatch := fun _ => None;
     Extract.llmConfigError := Some "LLM_API_KEY not set";
     Extract.llmProviderName := "gemini";
     Extract.backend := fun _ => Extract.NetworkError "unreachable";
     Extract.parseLLMResponse := fun _ => None |}.

(** A record whose coordinates arrived as JSON strings. *)
Definition stringCoordinates : Extract.RecordObject :=
  {| Extract.location_lat := Extract.JStr "53.7179";
     Extract.location_lon := Extract.JStr "-6.3561";
     Extract.lat := Extract.JUndefined; Extract.lon := Extract.JUndefined;
     Extract.o_road := Extract.JStr "M1";
     Extract.o_direction := Extract.JStr "Northbound";
     Extract.congestionLevel := Extract.JStr "moderate";
     Extract.o_congestion := Extract.JUndefined;
     Extract.averageSpeed := Extract.JUndefined;
     Extract.o_incidentType := Extract.JUndefined |}.

Definition emptyStore : Extract.Store :=
  {| Extract.clock := 0; Extract.cache := ∅ |}.




End Scenario.

(** ** More of [server.js]: the comparison helpers *)

Module Compare.

(** [Object.entries(counts)]: the four initial keys in their order, then
    ['unknown'] if some record added it. *)
Definition congestionCounts (data : list TrafficRecord)
  : list (CongestionLevel * nat) :=
  ([(CongHeavy, Server.countLevel CongHeavy data);
    (CongModerate, Server.countLevel CongModerate data);
    (CongLight, Server.countLevel CongLight data);
    (CongNone, Server.countLevel CongNone data)] ++
   (if (0 <? Server.countLevel CongUnknown data)%nat
    then [(CongUnknown, Server.countLevel CongUnknown data)] else []))%list.

(** The position of a level's key in [Object.entries(counts)]. *)
Definition entryOrder (l : CongestionLevel) : nat :=
  match l with
  | CongHeavy => 0
  | CongModerate => 1
  | CongLight => 2
  | CongNone => 3
  | CongUnknown => 4
  end.

(** [entries.sort((a, b) => b[1] - a[1])]: descending by count, stable. *)
Fixpoint insertDesc (x : CongestionLevel * nat)
    (sorted : list (CongestionLevel * nat)) : list (CongestionLevel * nat) :=
  match sorted with
  | [] => [x]
  | y :: ys =>
      if (snd x <? snd y)%nat then y :: insertDesc x ys else x :: y :: ys
  end.

Definition sortDesc (entries : list (CongestionLevel * nat))
  : list (CongestionLevel * nat) :=
  fold_right insertDesc [] entries.

(** [getDominantCongestion]; [sorted[0][0]] exists because the four initial
    keys are always there. *)
Definition getDominantCongestion (data : list TrafficRecord)
  : CongestionLevel :=
  match sortDesc (congestionCounts data) with
  | (level, _) :: _ => level
  | [] => CongHeavy
  end.

Inductive Insight :=
| NoDataForComparison
| OnlyUK
| OnlyIreland
| IrelandHigher
| UKHigher
| Similar.

(** [levels[a] > levels[b]]; a level outside the table gives [undefined],
    and every comparison with it is false. *)
Definition rankGt (a b : CongestionLevel) : bool :=
  match levelRank a, levelRank b with
  | Some x, Some y => (y <? x)%nat
  | _, _ => false
  end.

(** [generateInsight] *)
Definition generateInsight (ieData ukData : list TrafficRecord) : Insight :=
  match ieData, ukData with
  | [], [] => NoDataForComparison
  | [], _ => OnlyUK
  | _, [] => OnlyIreland
  | _, _ =>
      let ieCongestion := getDominantCongestion ieData in
      let ukCongestion := getDominantCongestion ukData in
      if rankGt ieCongestion ukCongestion then IrelandHigher
      else if rankGt ukCongestion ieCongestion then UKHigher
      else Similar
  end.

(** The same message with the two countries exchanged. *)
Definition mirror (i : Insight) : Insight :=
  match i with
  | OnlyUK => OnlyIreland
  | OnlyIreland => OnlyUK
  | IrelandHigher => UKHigher
  | UKHigher => IrelandHigher
  | other => other
  end.

End Compare.

(** ** The adapters' [clearCache] *)

Module Admin.

Definition clearTIICache (w : World) : World := set_tiiCache ∅ w.
Definition clearWebTRISCache (w : World) : World := set_webtrisCache ∅ w.
Definition clearGoogleCache (w : World) : World := set_googleCache ∅ w.

(** The adapter part of the [/cache/clear] handler. *)
Definition clearAdapterCaches (w : World) : World :=
  clearGoogleCache (clearWebTRISCache (clearTIICache w)).

End Admin.

(** ** More of the extractor: cache sweep and batch *)

Module ExtractMore.

(** [cleanCache]: delete the entries older than the TTL. *)
Definition cleanCache (s : Extract.Store) : Extract.Store :=
  {| Extract.clock := Extract.clock s;
     Extract.cache :=
       filter (fun kv : string * (Extract.Segment * Z) =>
                 ~ (Extract.CACHE_TTL < Extract.clock s - snd (snd kv)))
              (Extract.cache s) |}.

(** [clearCache] *)
Definition clearCache (s : Extract.Store) : Extract.Store :=
  {| Extract.clock := Extract.clock s; Extract.cache := ∅ |}.

(** Time passes: the clock of the extractor's store moves on by [d]
    milliseconds. *)
Definition later (d : Z) (s : Extract.Store) : Extract.Store :=
  {| Extract.clock := Extract.clock s + d; Extract.cache := Extract.cache s |}.

(** The cache lookup at the head of [extractSegment]: the stored segment
    when there is an entry younger than the TTL. *)
Definition hitOf (rt : Extract.Runtime) (d : Extract.TrafficData)
    (useCache : bool) (s : Extract.Store) : option Extract.Segment :=
  if useCache then
    match Extract.cache s !! Extract.getCacheKey rt d with
    | Some (data, stamp) =>
        if bool_decide (Extract.clock s - stamp < Extract.CACHE_TTL)
        then Some data else None
    | None => None
    end
  else None.

(** [getCacheStats().size]: the size after a sweep. *)
Definition cacheSize (s : Extract.Store) : nat :=
  size (Extract.cache (cleanCache s)).

(** [extractSegment] with the cache lookup made in the store [seen] and the
    write made to the current store.  In a batch every call runs up to its
    first [await], and so looks the cache up, before any backend call
    completes. *)
Definition extractSegmentAt (rt : Extract.Runtime)
    (trafficData : Extract.TrafficData) (useCache fallbackOn : bool)
    (seen : Extract.Store) : M Extract.Store Extract.Segment :=
  fun s =>
    match Extract.extractSegment rt trafficData useCache fallbackOn seen with
    | (Ret result, _) =>
        (Ret result,
         if useCache && bool_decide (Extract.cached result = Some false)
         then {| Extract.clock := Extract.clock s;
                 Extract.cache :=
                   <[Extract.getCacheKey rt trafficData :=
                       (result, Extract.clock s)]> (Extract.cache s) |}
         else s)
    | (Throw e, _) => (Throw e, s)
    end.

(** An element of the array [extractSegmentsBatch] resolves with: the
    record, its segment (or [null]) and the added fields. *)
Record BatchItem := {
  record : Extract.TrafficData;
  item_segment : option Extract.Segment;
  item_humanReadable : string;
  item_extractionError : option string
}.

(** The item for a record whose extraction gave the outcome [o]: the
    record with its segment, or the placeholder of the [catch] block. *)
Definition itemOf (r : Extract.TrafficData) (o : outcome Extract.Segment)
  : BatchItem :=
  match o with
  | Ret extracted =>
      {| record := r; item_segment := Some extracted;
         item_humanReadable := Extract.humanReadable extracted;
         item_extractionError := None |}
  | Throw message =>
      {| record := r; item_segment := None;
         item_humanReadable := "Segment extraction failed";
         item_extractionError := Some message |}
  end.

(** The callback of [records.map] with its [try { } catch]. *)
Definition batchItem (rt : Extract.Runtime) (useCache fallbackOn : bool)
    (seen : Extract.Store) (r : Extract.TrafficData)
  : M Extract.Store BatchItem :=
  try_catch
    (let* extracted := extractSegmentAt rt r useCache fallbackOn seen in
     ret {| record := r; item_segment := Some extracted;
            item_humanReadable := Extract.humanReadable extracted;
            item_extractionError := None |})
    (fun message =>
       ret {| record := r; item_segment := None;
              item_humanReadable := "Segment extraction failed";
              item_extractionError := Some message |}).

Fixpoint mapM {A B} (f : A -> M Extract.Store B) (xs : list A)
  : M Extract.Store (list B) :=
  match xs with
  | [] => ret []
  | x :: rest =>
      let* y := f x in
      let* ys := mapM f rest in
      ret (y :: ys)
  end.

(** [extractSegmentsBatch]: the results in the order of the records; the
    cache writes are applied in that order too. *)
Definition extractSegmentsBatch (rt : Extract.Runtime)
    (records : list Extract.TrafficData) (useCache fallbackOn : bool)
  : M Extract.Store (list BatchItem) :=
  fun s => mapM (batchItem rt useCache fallbackOn s) records s.

End ExtractMore.

(** ** More of [m1-junction-monitor.js]: checking a route *)

Module Monitor.

Definition segmentOf (name from to town : string) (normalTime : Q)
  : Junction.Segment :=
  {| Junction.name := name; Junction.from := from; Junction.to := to;
     Junction.town := town; Junction.normalTime := normalTime |}.

Definition southbound : list Junction.Segment :=
  [segmentOf "J10-J9 Drogheda" "Drogheda North" "Drogheda South" "Drogheda" 5;
   segmentOf "J9-J8 Drogheda-Duleek" "Drogheda" "Duleek" "Duleek" 8;
   segmentOf "J8-J7 Duleek-Julianstown" "Duleek" "Julianstown" "Julianstown" 5;
   segmentOf "J7-J6 Julianstown-Balbriggan" "Julianstown" "Balbriggan North"
     "Balbriggan" 8;
   segmentOf "J6-J5 Balbriggan" "Balbriggan North" "Balbriggan" "Balbriggan" 3;
   segmentOf "J5-J4 Balbriggan-Donabate" "Balbriggan" "Donabate" "Donabate" 7;
   segmentOf "J4-J3 Donabate-Swords" "Donabate" "Swords" "Swords" 6;
   segmentOf "J3-J1 Swords-M50" "Swords" "M50 Interchange" "Swords" 5].

Definition northbound : list Junction.Segment :=
  [segmentOf "J3-J1 Swords-M50" "M50 Interchange" "Swords" "Swords" 5;
   segmentOf "J4-J3 Donabate-Swords" "Swords" "Donabate" "Donabate" 6;
   segmentOf "J5-J4 Balbriggan-Donabate" "Donabate" "Balbriggan" "Balbriggan" 7;
   segmentOf "J6-J5 Balbriggan" "Balbriggan" "Balbriggan North" "Balbriggan" 3;
   segmentOf "J7-J6 Julianstown-Balbriggan" "Balbriggan North" "Julianstown"
     "Julianstown" 8;
   segmentOf "J8-J7 Duleek-Julianstown" "Julianstown" "Duleek" "Duleek" 5;
   segmentOf "J9-J8 Drogheda-Duleek" "Duleek" "Drogheda" "Drogheda" 8;
   segmentOf "J10-J9 Drogheda" "Drogheda South" "Drogheda North" "Drogheda" 5].

(** [M1_SEGMENTS[direction]] when it is one of the two arrays; every other
    key gives a value that cannot be iterated. *)
Definition M1_SEGMENTS (direction : string)
  : option (list Junction.Segment) :=
  if String.eqb direction "southbound" then Some southbound
  else if String.eqb direction "northbound" then Some northbound
  else None.

(** What the request of [checkSegment] comes to: an exception inside its
    [try] (the fetch rejects, the status is not ok, the body is no JSON, or
    [data] is no array), or the array [apiResponse.data || []]. *)
Inductive ApiReply :=
| CheckFailed (message : string)
| ApiData (data : list Junction.ApiRecord).

(** [checkSegment]; [api n town] is the reply to the [n]-th request. *)
Definition checkSegment (api : nat -> string -> ApiReply) (n : nat)
    (segment : Junction.Segment) : Junction.SegmentResult :=
  match api n (Junction.town segment) with
  | CheckFailed _ => Junction.unknownSegment segment
  | ApiData data => Junction.processSegmentData segment data
  end.

Fixpoint checkAll (api : nat -> string -> ApiReply) (n : nat)
    (segments : list Junction.Segment) : list Junction.SegmentResult :=
  match segments with
  | [] => []
  | segment :: rest => checkSegment api n segment :: checkAll api (S n) rest
  end.

(** [checkRoute]: the segments one after the other. *)
Definition checkRoute (api : nat -> string -> ApiReply) (direction : string)
  : outcome (list Junction.SegmentResult) :=
  match M1_SEGMENTS direction with
  | Some segments => Ret (checkAll api 0 segments)
  | None => Throw "segments is not iterable"
  end.

Record Summary := {
  totalNormalTime : Q;
  totalCurrentTime : Q;
  totalDelay : Q;                  (* the sum of the segments' delayMinutes *)
  worstSegment : string
}.

Inductive CheckResult :=
| Success (direction : string) (report : Junction.Report)
    (segments : list Junction.SegmentResult) (summary : Summary)
| Failure (error : string).

(** [handleTrafficCheck] *)
Definition handleTrafficCheck (api : nat -> string -> ApiReply)
    (direction : string) : CheckResult :=
  match checkRoute api direction with
  | Throw e => Failure e
  | Ret results =>
      match Junction.generateReport direction results with
      | Throw e => Failure e
      | Ret report =>
          match Junction.worstOf results with
          | Throw e => Failure e
          | Ret worst =>
              Success direction report results
                {| totalNormalTime :=
                     Junction.sumQ
                       (fun s => Junction.normalTime (Junction.segment s))
                       results;
                   totalCurrentTime :=
                     Junction.sumQ
                       (fun s => jsor (Junction.currentTime s)
                                   (Junction.normalTime (Junction.segment s)))
                       results;
                   totalDelay := Junction.sumQ Junction.delayMinutes results;
                   worstSegment := Junction.name (Junction.segment worst) |}
          end
      end
  end.

End Monitor.

(** ** Further scenarios *)

Module Cases.

(** The sites endpoint answers, the reports request times out. *)
Definition reportsDownRuntime : Runtime :=
  {| GOOGLE_MAPS_API_KEY := Some "key";
     tiiFeed := tiiFeed Scenario.liveRuntime;
     sitesEndpoint := sitesEndpoint Scenario.liveRuntime;
     reportsEndpoint := fun _ _ => Rejected "timeout of 10000ms exceeded";
     directionsEndpoint := directionsEndpoint Scenario.liveRuntime;
     latency := fun _ => 120%N;
     onto := fun _ => None |}.

(** A feed element that carries its records at the top level only. *)
Definition flatElement : TII.FeedElement :=
  {| TII.situationRecord := [Scenario.m1Record 1680 1320];
     TII.situation := None; TII.road := None; TII.lat := None;
     TII.lon := None; TII.publicationTime := None; TII.id := None |}.

(** The extractor with a backend that answers every prompt. *)
Definition onlineRuntime : Extract.Runtime :=
  {| Extract.toFixed3 := Extract.toFixed3 Scenario.offlineRuntime;
     Extract.toStr := Extract.toStr Scenario.offlineRuntime;
     Extract.stringify := Extract.stringify Scenario.offlineRuntime;
     Extract.roadMatch := fun _ => None;
     Extract.directionMatch := fun _ => None;
     Extract.congestionMatch := fun _ => None;
     Extract.incidentMatch := fun _ => None;
     Extract.speedMatch := fun _ => None;
     Extract.llmConfigError := None;
     Extract.llmProviderName := "gemini";
     Extract.backend := fun _ => Extract.ReplyText "road: M1";
     Extract.parseLLMResponse := fun _ =>
       Some ({| Extract.road := Extract.JStr "M1";
                Extract.direction := Extract.JNull;
                Extract.segment := Extract.JNull;
                Extract.landmark := Extract.JNull;
                Extract.congestion := Extract.JNull;
                Extract.speed := Extract.JNull;
                Extract.incidentType := Extract.JNull |}, false) |}.

(** The API reports a travel time of 3 minutes, and no delay, for every
    segment. *)
Definition quickApi : nat -> string -> Monitor.ApiReply :=
  fun _ _ =>
    Monitor.ApiData
      [{| Junction.travelTimeMinutes := Some 3%Q;
          Junction.api_delayMinutes := None |}].

End Cases.

(** ** Vocabulary of the further properties *)

(** Records as the two free normalizers produce them. *)
Definition normalizedFree (d : TrafficRecord) : Prop :=
  (exists now el, d = FromTII (TII.normalizeTIIRecord now el)) \/
  (exists now site report,
     d = FromWebTRIS (WebTRIS.normalizeWebTRISRecord now site report)).

(** * Properties *)

(** ** Arithmetic of the JavaScript primitives *)

Section Arith.
Local Open Scope Q_scope.

Lemma Qltb_lt (a b : Q) : Qltb a b = true <-> a < b.
Proof.
  unfold Qltb. rewrite negb_true_iff.
  split; intros H.
  - apply Qnot_le_lt. intros Hle. apply Qle_bool_iff in Hle. congruence.
  - destruct (Qle_bool b a) eqn:E; [|reflexivity].
    apply Qle_bool_iff in E. exfalso. apply (Qlt_not_le _ _ H E).
Qed.

Lemma Qltb_ge (a b : Q) : Qltb a b = false <-> b <= a.
Proof. unfold Qltb. rewrite negb_false_iff. apply Qle_bool_iff. Qed.

Lemma Qgtb_gt (a b : Q) : Qgtb a b = true <-> b < a.
Proof. apply Qltb_lt. Qed.

Lemma Qgtb_le (a b : Q) : Qgtb a b = false <-> a <= b.
Proof. apply Qltb_ge. Qed.

Lemma Qle_bool_false (a b : Q) : Qle_bool a b = false <-> b < a.
Proof.
  split; intros H.
  - apply Qnot_le_lt. intros Hle. apply Qle_bool_iff in Hle. congruence.
  - destruct (Qle_bool a b) eqn:E; [|reflexivity].
    apply Qle_bool_iff in E. exfalso. apply (Qlt_not_le _ _ H E).
Qed.

Lemma max0_cases (x : Q) :
  (0 <= x /\ max0 x = x) \/ (x < 0 /\ max0 x = 0).
Proof.
  unfold max0. destruct (Qle_bool 0 x) eqn:E.
  - left. split; [now apply Qle_bool_iff|reflexivity].
  - right. split; [now apply Qle_bool_false|reflexivity].
Qed.

Lemma max0_nonneg (x : Q) : 0 <= max0 x.
Proof. destruct (max0_cases x) as [[H ->]|[H ->]]; lra. Qed.

Lemma max0_ge (x : Q) : x <= max0 x.
Proof. destruct (max0_cases x) as [[H ->]|[H ->]]; lra. Qed.

Lemma max0_lt_inv (a b : Q) : max0 a < max0 b -> a < b.
Proof.
  destruct (max0_cases a) as [[H1 ->]|[H1 ->]],
           (max0_cases b) as [[H2 ->]|[H2 ->]]; lra.
Qed.


(** [Math.round x] is the integer [n] with [n <= x + 1/2 < n + 1]. *)
Lemma round_lower (x : Q) : inject_Z (round x) <= x + (1 # 2).
Proof. apply Qfloor_le. Qed.

Lemma round_upper (x : Q) : x + (1 # 2) < inject_Z (round x) + 1.
Proof.
  unfold round. pose proof (Qlt_floor (x + (1 # 2))) as H.
  rewrite inject_Z_plus in H. exact H.
Qed.

Lemma round_mono (x y : Q) : x <= y -> (round x <= round y)%Z.
Proof. intros H. apply Qfloor_resp_le. lra. Qed.


Lemma round_lt_inv (x y : Q) : (round x < round y)%Z -> x < y.
Proof.
  intros H. apply Qnot_le_lt. intros Hle. apply round_mono in Hle. lia.
Qed.


Lemma div60 (x : Q) : x / 60 == x * (1 # 60).
Proof. reflexivity. Qed.





Lemma round1_lt_inv (x y : Q) : round1 x < round1 y -> x < y.
Proof.
  intros H. unfold round1, Qlt in H. cbn [Qnum Qden] in H.
  assert (H' : (round (x * 10) < round (y * 10))%Z) by lia.
  apply round_lt_inv in H'. lra.
Qed.



Lemma Qdiv_le_mono (x y d : Q) : 0 < d -> x <= y -> x / d <= y / d.
Proof.
  intros Hd H. unfold Qdiv. apply Qmult_le_compat_r; [exact H|].
  apply Qlt_le_weak, Qinv_lt_0_compat, Hd.
Qed.

Lemma Qdiv_le_antitone (a s1 s2 : Q) :
  0 <= a -> 0 < s1 -> s1 <= s2 -> a / s2 <= a / s1.
Proof.
  intros Ha H1 H12.
  assert (H2 : 0 < s2) by lra.
  apply Qle_shift_div_l; [exact H1|].
  assert (Hq : 0 <= a / s2).
  { apply Qle_shift_div_l; [exact H2|]. lra. }
  assert (E : a / s2 * s2 == a).
  { rewrite Qmult_comm. apply Qmult_div_r. lra. }
  set (q := a / s2) in *. nra.
Qed.

End Arith.

(** ** The normalizers: delay and congestion *)

Section Normalizers.
Local Open Scope Q_scope.

Ltac qcases :=
  repeat match goal with
  | |- context [Qgtb ?a ?b] =>
      let E := fresh "E" in
      destruct (Qgtb a b) eqn:E;
      [apply Qgtb_gt in E | apply Qgtb_le in E]
  | |- context [Qltb ?a ?b] =>
      let E := fresh "E" in
      destruct (Qltb a b) eqn:E;
      [apply Qltb_lt in E | apply Qltb_ge in E]
  end.

(** Whatever the feed holds, a TII record that shows 28 and 22 minutes
    has a raw delay above 300 and is classified heavy. *)
Lemma tii_28_22_always_heavy (now : Z) (record : TII.FeedElement) :
  TII.travelTimeMinutes (TII.normalizeTIIRecord now record) = 28%Z ->
  TII.freeFlowTimeMinutes (TII.normalizeTIIRecord now record) = 22%Z ->
  TII.congestionLevel (TII.normalizeTIIRecord now record) = CongHeavy.
Proof.
  unfold TII.normalizeTIIRecord;
    cbn [TII.travelTimeMinutes TII.freeFlowTimeMinutes TII.congestionLevel].
  set (sr := TII.first_record _).
  set (travel := jsor (TII.travelTime sr) 0).
  set (freeFlow := jsor (TII.freeFlowTravelTime sr) travel).
  intros HT HF.
  pose proof (round_lower (travel / 60)) as Hu. rewrite HT in Hu.
  pose proof (round_upper (freeFlow / 60)) as Hl. rewrite HF in Hl.
  rewrite div60 in Hu, Hl.
  change (inject_Z 28) with 28 in Hu. change (inject_Z 22) with 22 in Hl.
  unfold TII.congestionOf.
  assert (Hgt : Qgtb (max0 (travel - freeFlow)) 10 = true).
  { apply Qgtb_gt. pose proof (max0_ge (travel - freeFlow)). lra. }
  now rewrite Hgt.
Qed.

Lemma tii_congestionOf_mono (d1 d2 : Q) :
  d1 <= d2 -> level_le (TII.congestionOf d1) (TII.congestionOf d2).
Proof.
  intros H. unfold TII.congestionOf. qcases; cbn; try lia; lra.
Qed.

Lemma tii_monotone (now1 now2 : Z) (e1 e2 : TII.FeedElement) :
  (TII.delayMinutes (TII.normalizeTIIRecord now1 e1)
   < TII.delayMinutes (TII.normalizeTIIRecord now2 e2))%Z ->
  level_le (TII.congestionLevel (TII.normalizeTIIRecord now1 e1))
           (TII.congestionLevel (TII.normalizeTIIRecord now2 e2)).
Proof.
  unfold TII.normalizeTIIRecord; cbn [TII.delayMinutes TII.congestionLevel].
  intros H. apply round_lt_inv in H.
  apply tii_congestionOf_mono.
  rewrite !div60 in H. lra.
Qed.

Lemma google_calc_mono (t1 t2 dur : Q) :
  0 < dur -> t1 <= t2 ->
  level_le (GoogleMaps.calculateCongestion t1 dur)
           (GoogleMaps.calculateCongestion t2 dur).
Proof.
  intros Hd H. unfold GoogleMaps.calculateCongestion.
  assert (T : truthy dur = true).
  { unfold truthy, truthy_Q. apply negb_true_iff.
    destruct (Qeq_bool dur 0) eqn:E; [|reflexivity].
    apply Qeq_bool_iff in E. lra. }
  rewrite T. cbn [negb].
  pose proof (Qdiv_le_mono t1 t2 dur Hd H) as Hr.
  assert (Hm : (t1 - dur) / 60 <= (t2 - dur) / 60) by (rewrite !div60; lra).
  set (r1 := t1 / dur) in *. set (r2 := t2 / dur) in *.
  set (m1 := (t1 - dur) / 60) in *. set (m2 := (t2 - dur) / 60) in *.
  qcases; cbn; try lia; lra.
Qed.

Lemma google_monotone onto1 onto2 now1 now2 route1 route2 leg1 leg2
    o1 o2 d1 d2 road1 road2 :
  let r1 := GoogleMaps.normalizeLeg onto1 now1 route1 leg1 o1 d1 road1 in
  let r2 := GoogleMaps.normalizeLeg onto2 now2 route2 leg2 o2 d2 road2 in
  GoogleMaps.durationSecondsOf leg1 = GoogleMaps.durationSecondsOf leg2 ->
  0 < GoogleMaps.durationSecondsOf leg1 ->
  (GoogleMaps.delayMinutes r1 < GoogleMaps.delayMinutes r2)%Z ->
  level_le (GoogleMaps.congestionLevel r1) (GoogleMaps.congestionLevel r2).
Proof.
  unfold GoogleMaps.normalizeLeg;
    cbn [GoogleMaps.delayMinutes GoogleMaps.congestionLevel].
  intros Ed Hd H. rewrite <- Ed in *.
  apply google_calc_mono; [exact Hd|].
  apply Qlt_le_weak.
  assert (H' : (round (GoogleMaps.durationInTrafficSecondsOf leg1 / 60)
                < round (GoogleMaps.durationInTrafficSecondsOf leg2 / 60))%Z)
    by lia.
  apply round_lt_inv in H'. rewrite !div60 in H'. lra.
Qed.

Lemma webtris_congestionOf_antitone (s1 s2 typical : Q) :
  0 < typical -> s2 <= s1 ->
  level_le (WebTRIS.congestionOf s1 typical) (WebTRIS.congestionOf s2 typical).
Proof.
  intros Ht H. unfold WebTRIS.congestionOf.
  pose proof (Qdiv_le_mono s2 s1 typical Ht H) as Hr.
  set (r1 := s1 / typical) in *. set (r2 := s2 / typical) in *.
  qcases; cbn; try lia; lra.
Qed.

Lemma webtris_monotone now1 now2 site report1 report2 :
  let r1 := WebTRIS.normalizeWebTRISRecord now1 site report1 in
  let r2 := WebTRIS.normalizeWebTRISRecord now2 site report2 in
  0 < WebTRIS.typicalSpeedOf site -> 0 < WebTRIS.distanceKmOf site ->
  0 < WebTRIS.speedOf report1 -> 0 < WebTRIS.speedOf report2 ->
  WebTRIS.delayMinutes r1 < WebTRIS.delayMinutes r2 ->
  level_le (WebTRIS.congestionLevel r1) (WebTRIS.congestionLevel r2).
Proof.
  unfold WebTRIS.normalizeWebTRISRecord;
    cbn [WebTRIS.delayMinutes WebTRIS.congestionLevel].
  intros Ht Hd H1 H2 H.
  apply round1_lt_inv, max0_lt_inv in H.
  unfold WebTRIS.travelTimeOf in H.
  apply Qgtb_gt in H1 as G1. apply Qgtb_gt in H2 as G2. rewrite G1, G2 in H.
  apply webtris_congestionOf_antitone; [exact Ht|].
  apply Qnot_lt_le. intros Hlt.
  assert (Hq : WebTRIS.distanceKmOf site / WebTRIS.speedOf report2
               <= WebTRIS.distanceKmOf site / WebTRIS.speedOf report1).
  { apply Qdiv_le_antitone; lra. }
  lra.
Qed.

End Normalizers.

(** ** Claims about the normalized records *)

(** C2 (the code departs from the claim).  On the documented scenario, a
    feed record with a travel time of 1680 and a free-flow time of 1320
    (28 and 22 minutes), the TII normalizer reports travelTimeMinutes 28,
    freeFlowTimeMinutes 22 and delayMinutes 6, but it applies the
    thresholds 10 / 5 / 2 to the raw delay of 360 and not to delayMinutes:
    the congestion level is heavy, not moderate, and the summary of the
    query M1 / IE counts the record under heavy. *)
Theorem tii_documented_scenario_is_heavy :
  let r := TII.normalizeTIIRecord 0 (Scenario.m1Element 1680 1320) in
  TII.travelTimeMinutes r = 28 /\
  TII.freeFlowTimeMinutes r = 22 /\
  TII.delayMinutes r = 6 /\
  TII.congestionLevel r = CongHeavy /\
  match fst (Server.fetchTrafficWithFallback Scenario.liveRuntime "M1"
               (Some "IE") None Scenario.emptyWorld) with
  | Ret results =>
      let b := Server.congestionBreakdown (Server.summary "IE" results) in
      Server.totalRecords (Server.summary "IE" results) = 1%nat /\
      Server.moderate b = 0%nat /\ Server.heavy b = 1%nat
  | Throw _ => False
  end.
Proof. vm_compute. auto 10. Qed.



(** C6, counterexample.  Two WebTRIS records of one site: with no report
    (speed 0) the record is heavy with delayMinutes 0; at speed 50 it is
    light with delayMinutes 0.3.  The larger delay has the strictly lower
    congestion level. *)
Lemma webtris_congestion_not_monotone :
  let a := WebTRIS.normalizeWebTRISRecord 0 Scenario.m25Site
             WebTRIS.emptyReport in
  let b := WebTRIS.normalizeWebTRISRecord 0 Scenario.m25Site
             (Scenario.reportAt 50) in
  (WebTRIS.delayMinutes a < WebTRIS.delayMinutes b)%Q /\
  WebTRIS.congestionLevel a = CongHeavy /\
  WebTRIS.congestionLevel b = CongLight /\
  level_lt (WebTRIS.congestionLevel b) (WebTRIS.congestionLevel a).
Proof. vm_compute. repeat split; lia. Qed.

(** C6, amended.  Over all pairs of TII records a larger delayMinutes never
    has a lower congestion level.  A WebTRIS level comes from the speed and
    a Google Maps level from the duration ratio and the delay in seconds;
    there the property holds over pairs that share their baseline: two
    WebTRIS records of one site (positive length and typical speed) with
    positive measured speeds, and two Google Maps records with the same
    positive free-flow duration. *)
Theorem congestion_monotone_per_baseline
    (now1 now2 : Z) (e1 e2 : TII.FeedElement)
    (site : WebTRIS.Site) (report1 report2 : WebTRIS.Report)
    (onto : string -> option string) (route1 route2 : GoogleMaps.Route)
    (leg1 leg2 : GoogleMaps.Leg) (origin destination : string)
    (road : option string) :
  let t1 := TII.normalizeTIIRecord now1 e1 in
  let t2 := TII.normalizeTIIRecord now2 e2 in
  let u1 := WebTRIS.normalizeWebTRISRecord now1 site report1 in
  let u2 := WebTRIS.normalizeWebTRISRecord now2 site report2 in
  let g1 := GoogleMaps.normalizeLeg onto now1 route1 leg1 origin destination
              road in
  let g2 := GoogleMaps.normalizeLeg onto now2 route2 leg2 origin destination
              road in
  (TII.delayMinutes t1 < TII.delayMinutes t2 ->
   level_le (TII.congestionLevel t1) (TII.congestionLevel t2)) /\
  ((0 < WebTRIS.typicalSpeedOf site)%Q -> (0 < WebTRIS.distanceKmOf site)%Q ->
   (0 < WebTRIS.speedOf report1)%Q -> (0 < WebTRIS.speedOf report2)%Q ->
   (WebTRIS.delayMinutes u1 < WebTRIS.delayMinutes u2)%Q ->
   level_le (WebTRIS.congestionLevel u1) (WebTRIS.congestionLevel u2)) /\
  (GoogleMaps.durationSecondsOf leg1 = GoogleMaps.durationSecondsOf leg2 ->
   (0 < GoogleMaps.durationSecondsOf leg1)%Q ->
   GoogleMaps.delayMinutes g1 < GoogleMaps.delayMinutes g2 ->
   level_le (GoogleMaps.congestionLevel g1) (GoogleMaps.congestionLevel g2)).
Proof.
  cbv zeta. split_and!.
  - apply tii_monotone.
  - apply webtris_monotone.
  - apply google_monotone.
Qed.

(** Witness of C6: a TII pair (raw delays 60 and 360), a WebTRIS pair of
    one site (speeds 60 and 50) and a Google Maps pair with a free-flow
    duration of 180 seconds (200 and 600 seconds in traffic). *)
Lemma congestion_monotone_per_baseline_witness :
  level_le
    (TII.congestionLevel
       (TII.normalizeTIIRecord 0 (Scenario.m1Element 1380 1320)))
    (TII.congestionLevel
       (TII.normalizeTIIRecord 0 (Scenario.m1Element 1680 1320))) /\
  level_le
    (WebTRIS.congestionLevel
       (WebTRIS.normalizeWebTRISRecord 0 Scenario.m25Site (Scenario.reportAt 60)))
    (WebTRIS.congestionLevel
       (WebTRIS.normalizeWebTRISRecord 0 Scenario.m25Site (Scenario.reportAt 50))) /\
  level_le
    (GoogleMaps.congestionLevel
       (GoogleMaps.normalizeLeg (fun _ => None) 0
          (Scenario.routeOf (Scenario.legOf (Some 180%Q) (Some 200%Q)))
          (Scenario.legOf (Some 180%Q) (Some 200%Q)) "a" "b" None))
    (GoogleMaps.congestionLevel
       (GoogleMaps.normalizeLeg (fun _ => None) 0
          (Scenario.routeOf (Scenario.legOf (Some 180%Q) (Some 600%Q)))
          (Scenario.legOf (Some 180%Q) (Some 600%Q)) "a" "b" None)).
Proof.
  destruct (congestion_monotone_per_baseline 0 0
              (Scenario.m1Element 1380 1320) (Scenario.m1Element 1680 1320)
              Scenario.m25Site (Scenario.reportAt 60) (Scenario.reportAt 50)
              (fun _ => None)
              (Scenario.routeOf (Scenario.legOf (Some 180%Q) (Some 200%Q)))
              (Scenario.routeOf (Scenario.legOf (Some 180%Q) (Some 600%Q)))
              (Scenario.legOf (Some 180%Q) (Some 200%Q))
              (Scenario.legOf (Some 180%Q) (Some 600%Q)) "a" "b" None)
    as (HT & HW & HG).
  split; [|split].
  - apply HT. vm_compute. reflexivity.
  - apply HW; vm_compute; reflexivity.
  - apply HG; vm_compute; reflexivity.
Defined.

(** The five congestion levels partition the records of a response. *)
Lemma countLevel_cons l d data :
  Server.countLevel l (d :: data) =
  ((if bool_decide (Server.congestionLevelOf d = l) then 1 else 0)
   + Server.countLevel l data)%nat.
Proof.
  unfold Server.countLevel. cbn [List.filter].
  destruct (bool_decide _); reflexivity.
Qed.

Lemma countLevel_partition data :
  (Server.countLevel CongHeavy data + Server.countLevel CongModerate data
   + Server.countLevel CongLight data + Server.countLevel CongNone data
   + Server.countLevel CongUnknown data = List.length data)%nat.
Proof.
  induction data as [|d data IH]; [reflexivity|].
  rewrite !countLevel_cons. cbn [List.length].
  destruct (Server.congestionLevelOf d);
    repeat case_bool_decide; try congruence; lia.
Qed.

Lemma countLevel_In l d data :
  In d data -> Server.congestionLevelOf d = l ->
  (1 <= Server.countLevel l data)%nat.
Proof.
  intros Hin Hl. induction data as [|x data IH]; [destruct Hin|].
  rewrite countLevel_cons. destruct Hin as [->|Hin].
  - rewrite bool_decide_eq_true_2 by exact Hl. lia.
  - specialize (IH Hin). lia.
Qed.

Lemma calculateCongestion_zero t dur :
  truthy dur = false -> GoogleMaps.calculateCongestion t dur = CongUnknown.
Proof. intros H. unfold GoogleMaps.calculateCongestion. now rewrite H. Qed.

(** C10.  When the first leg of a route has no free-flow duration, or a
    duration of zero, the Google Maps record has the congestion level
    'unknown'; in the summary of any response that holds the record it is
    counted in totalRecords and in none of the buckets heavy, moderate,
    light and none, so the four buckets sum to less than totalRecords. *)
Theorem unknown_congestion_outside_breakdown
    (onto : string -> option string) (now : Z) (route : GoogleMaps.Route)
    (leg : GoogleMaps.Leg) (rest : list GoogleMaps.Leg)
    (origin destination : string) (road : option string) :
  GoogleMaps.legs route = Some (leg :: rest) ->
  (GoogleMaps.duration leg = None \/
   exists q, GoogleMaps.duration leg = Some q /\ (q == 0)%Q) ->
  exists r,
    GoogleMaps.normalizeGoogleMapsData onto now route origin destination road
      = inr r /\
    GoogleMaps.congestionLevel r = CongUnknown /\
    forall country results,
      In (FromGoogle r) (Server.data results) ->
      let s := Server.summary country results in
      let b := Server.congestionBreakdown s in
      (Server.heavy b + Server.moderate b + Server.light b + Server.none b
       < Server.totalRecords s)%nat.
Proof.
  intros Hl Hd.
  unfold GoogleMaps.normalizeGoogleMapsData. rewrite Hl.
  eexists. split; [reflexivity|].
  assert (U : GoogleMaps.congestionLevel
                (GoogleMaps.normalizeLeg onto now route leg origin destination
                   road) = CongUnknown).
  { unfold GoogleMaps.normalizeLeg; cbn [GoogleMaps.congestionLevel].
    apply calculateCongestion_zero.
    unfold GoogleMaps.durationSecondsOf.
    destruct Hd as [->|(q & -> & Hq)]; [reflexivity|].
    assert (Tq : truthy q = false).
    { unfold truthy, truthy_Q. apply Qeq_bool_iff in Hq. now rewrite Hq. }
    unfold jsor. rewrite Tq. reflexivity. }
  split; [exact U|].
  intros country results Hin. cbn.
  pose proof (countLevel_partition (Server.data results)) as P.
  pose proof (countLevel_In CongUnknown _ _ Hin U) as C.
  lia.
Qed.

(** Witness of C10: a leg without a free-flow duration. *)
Lemma unknown_congestion_outside_breakdown_witness :
  exists r,
    GoogleMaps.normalizeGoogleMapsData (fun _ => None) 0
      (Scenario.routeOf (Scenario.legOf None (Some 200%Q)))
      "Drogheda Ireland" "George's Street, Drogheda, Ireland"
      (Some "George's Street") = inr r /\
    GoogleMaps.congestionLevel r = CongUnknown /\
    forall country results,
      In (FromGoogle r) (Server.data results) ->
      let s := Server.summary country results in
      let b := Server.congestionBreakdown s in
      (Server.heavy b + Server.moderate b + Server.light b + Server.none b
       < Server.totalRecords s)%nat.
Proof.
  apply (unknown_congestion_outside_breakdown (fun _ => None) 0
           (Scenario.routeOf (Scenario.legOf None (Some 200%Q)))
           (Scenario.legOf None (Some 200%Q)) []).
  - reflexivity.
  - left. reflexivity.
Defined.

(** ** The adapters' fetch functions: what a call returns and changes *)

(** Unfolding of the monad's operations. *)
Ltac munfold :=
  unfold bind, ret, throw, try_catch, gets, modify, now in *.

(** TII fetch *)
(** The network path of the TII adapter always returns; what it returns
    and stores depends on the feed's answer. *)
Lemma tiiFromNetwork_spec rt road key w :
  exists r w', Fetch.tiiFromNetwork rt road key w = (Ret r, w') /\
    requests w' = GetTIITraffic :: requests w /\ calls w' = calls w /\
    webtrisCache w' = webtrisCache w /\ googleCache w' = googleCache w /\
    match tiiFeed rt (List.length (requests w)) with
    | Rejected message =>
        Result.data r = [] /\ Result.error r = Some message /\
        Result.fromCache r = None /\ tiiCache w' = tiiCache w
    | Resolved (TIIIllTyped e) =>
        Result.data r = [] /\ Result.error r = Some e /\
        Result.fromCache r = None /\ tiiCache w' = tiiCache w
    | Resolved TIINoSituation =>
        Result.data r = [] /\ Result.error r = None /\
        Result.fromCache r = Some false /\
        tiiCache w' = <[key := {| ce_data := Result.data r;
                                  ce_timestamp := clock w' |}]> (tiiCache w)
    | Resolved (TIISituations _) =>
        Result.error r = None /\ Result.fromCache r = Some false /\
        tiiCache w' = <[key := {| ce_data := Result.data r;
                                  ce_timestamp := clock w' |}]> (tiiCache w)
    end.
Proof.
  unfold Fetch.tiiFromNetwork, axios_get. munfold.
  destruct (tiiFeed rt _) as [m|[ |l|e]]; cbn;
    try destruct (truthy road); cbn;
    do 2 eexists; (split; [reflexivity|]); cbn; auto 10.
Qed.

(** [fetchTIITraffic]: a valid cache entry is served without a request,
    otherwise one request is issued. *)
Lemma fetchTII_spec rt road w :
  exists r w', Fetch.fetchTIITraffic rt road w = (Ret r, w') /\
    calls w' = CallTII road :: calls w /\
    webtrisCache w' = webtrisCache w /\ googleCache w' = googleCache w /\
    if isCacheValid (clock w) (tiiCache w !! Fetch.tiiKey road) then
      requests w' = requests w /\ tiiCache w' = tiiCache w /\
      clock w' = clock w /\
      Result.fromCache r = Some true /\ Result.error r = None /\
      exists c, tiiCache w !! Fetch.tiiKey road = Some c /\
                Result.data r = ce_data c
    else
      requests w' = GetTIITraffic :: requests w /\
      match tiiFeed rt (List.length (requests w)) with
      | Rejected message =>
          Result.data r = [] /\ Result.error r = Some message /\
          Result.fromCache r = None /\ tiiCache w' = tiiCache w
      | Resolved (TIIIllTyped e) =>
          Result.data r = [] /\ Result.error r = Some e /\
          Result.fromCache r = None /\ tiiCache w' = tiiCache w
      | Resolved TIINoSituation =>
          Result.data r = [] /\ Result.error r = None /\
          Result.fromCache r = Some false /\
          tiiCache w' = <[Fetch.tiiKey road :=
                            {| ce_data := Result.data r;
                               ce_timestamp := clock w' |}]> (tiiCache w)
      | Resolved (TIISituations _) =>
          Result.error r = None /\ Result.fromCache r = Some false /\
          tiiCache w' = <[Fetch.tiiKey road :=
                            {| ce_data := Result.data r;
                               ce_timestamp := clock w' |}]> (tiiCache w)
      end.
Proof.
  unfold Fetch.fetchTIITraffic. munfold. cbn.
  destruct (tiiFromNetwork_spec rt road (Fetch.tiiKey road)
              (log_call (CallTII road) w)) as (r & w' & E & Hr & Hc & Hw & Hg & Hm).
  cbn in Hr, Hc, Hw, Hg, Hm.
  destruct (tiiCache w !! Fetch.tiiKey road) as [c|] eqn:L.
  - destruct (isCacheValid (clock w) (Some c)) eqn:V.
    + do 2 eexists. split; [reflexivity|]. cbn. repeat split; eauto.
    + exists r, w'. rewrite E. auto 10.
  - exists r, w'. rewrite E. cbn. auto 10.
Qed.

Lemma fetchSites_spec rt road w :
  exists v w', Fetch.fetchSites rt road w = (Ret v, w') /\
    requests w' = GetSites (toUpperCase road) :: requests w /\
    calls w' = calls w /\ tiiCache w' = tiiCache w /\
    webtrisCache w' = webtrisCache w /\ googleCache w' = googleCache w /\
    v = match sitesEndpoint rt (List.length (requests w)) (toUpperCase road) with
        | Rejected _ | Resolved SitesAbsent => SitesArray []
        | Resolved other => other
        end.
Proof.
  unfold Fetch.fetchSites, axios_get. munfold.
  destruct (sitesEndpoint rt _ _) as [m|[ |l|e]]; cbn;
    do 2 eexists; (split; [reflexivity|]); cbn; auto 10.
Qed.

Lemma fetchReports_spec rt ids w :
  exists v w' more, Fetch.fetchReports rt ids w = (Ret v, w') /\
    requests w' = (more ++ requests w)%list /\
    calls w' = calls w /\ tiiCache w' = tiiCache w /\
    webtrisCache w' = webtrisCache w /\ googleCache w' = googleCache w.
Proof.
  unfold Fetch.fetchReports, axios_get. munfold.
  destruct ids as [|i ids].
  - exists (ReportsArray []), w, []. auto 10.
  - destruct (reportsEndpoint rt _ _) as [m|[ |l|e]]; cbn;
      do 2 eexists; exists [GetReports (i :: ids)];
      (split; [reflexivity|]); cbn; auto 10.
Qed.

Lemma webtrisFromNetwork_spec rt road key w :
  exists r w' more, Fetch.webtrisFromNetwork rt road key w = (Ret r, w') /\
    requests w' = (more ++ GetSites (toUpperCase road) :: requests w)%list /\
    calls w' = calls w /\ tiiCache w' = tiiCache w /\
    googleCache w' = googleCache w /\
    Result.fromCache r <> Some true /\
    (Result.fromCache r = Some false ->
     webtrisCache w' = <[key := {| ce_data := Result.data r;
                                   ce_timestamp := clock w' |}]> (webtrisCache w)) /\
    match sitesEndpoint rt (List.length (requests w)) (toUpperCase road) with
    | Rejected _ | Resolved SitesAbsent | Resolved (SitesArray []) =>
        Result.data r = [] /\ Result.error r = None /\
        webtrisCache w' = webtrisCache w
    | Resolved (SitesIllTyped e) =>
        Result.data r = [] /\ Result.error r = Some e /\
        webtrisCache w' = webtrisCache w
    | Resolved (SitesArray (_ :: _)) => True
    end.
Proof.
  unfold Fetch.webtrisFromNetwork.
  destruct (fetchSites_spec rt road w) as (v & w1 & E & Hr & Hc & Ht & Hw & Hg & Hv).
  unfold try_catch at 1. unfold bind at 1. rewrite E.
  destruct (sitesEndpoint rt _ _) as [m|[ |[|s ss]|e]]; subst v; munfold; cbn.
  1-3: do 2 eexists; exists []; (split; [reflexivity|]); cbn;
       repeat split; auto; congruence.
  - destruct (fetchReports_spec rt (map WebTRIS.site_id (s :: ss)) w1)
      as (rv & w2 & more & E2 & Hr2 & Hc2 & Ht2 & Hw2 & Hg2).
    cbn in E2. rewrite E2.
    destruct rv as [ |l|e]; cbn;
      do 2 eexists; exists more; (split; [reflexivity|]); cbn;
      rewrite ?Hr2, ?Hr, ?Hc2, ?Hc, ?Ht2, ?Ht, ?Hg2, ?Hg, ?Hw2;
      repeat split; auto; congruence.
  - do 2 eexists; exists []; (split; [reflexivity|]); cbn;
      repeat split; auto; congruence.
Qed.

(** [fetchWebTRISTraffic] *)
Lemma fetchWebTRIS_spec rt road w :
  exists r w' more, Fetch.fetchWebTRISTraffic rt road w = (Ret r, w') /\
    requests w' = (more ++ requests w)%list /\
    calls w' = CallWebTRIS road :: calls w /\
    tiiCache w' = tiiCache w /\ googleCache w' = googleCache w /\
    if isCacheValid (clock w) (webtrisCache w !! Fetch.webtrisKey road) then
      more = [] /\ webtrisCache w' = webtrisCache w /\ clock w' = clock w /\
      Result.fromCache r = Some true /\ Result.error r = None /\
      exists c, webtrisCache w !! Fetch.webtrisKey road = Some c /\
                Result.data r = ce_data c
    else
      (exists more', more = (more' ++ [GetSites (toUpperCase road)])%list) /\
      Result.fromCache r <> Some true /\
      (Result.fromCache r = Some false ->
       webtrisCache w' = <[Fetch.webtrisKey road :=
                             {| ce_data := Result.data r;
                                ce_timestamp := clock w' |}]> (webtrisCache w)) /\
      match sitesEndpoint rt (List.length (requests w)) (toUpperCase road) with
      | Rejected _ | Resolved SitesAbsent | Resolved (SitesArray []) =>
          Result.data r = [] /\ Result.error r = None /\
          webtrisCache w' = webtrisCache w
      | Resolved (SitesIllTyped e) =>
          Result.data r = [] /\ Result.error r = Some e /\
          webtrisCache w' = webtrisCache w
      | Resolved (SitesArray (_ :: _)) => True
      end.
Proof.
  unfold Fetch.fetchWebTRISTraffic. munfold. cbn.
  destruct (webtrisFromNetwork_spec rt road (Fetch.webtrisKey road)
              (log_call (CallWebTRIS road) w))
    as (r & w' & more & E & Hr & Hc & Ht & Hg & Hn & Hs & Hm).
  cbn in Hr, Hc, Ht, Hg, Hs, Hm.
  assert (Hmiss :
    exists more0, requests w' = (more0 ++ requests w)%list /\
                  exists more', more0 = (more' ++ [GetSites (toUpperCase road)])%list).
  { exists (more ++ [GetSites (toUpperCase road)])%list. split; [|eauto].
    rewrite Hr. now rewrite <- app_assoc. }
  destruct Hmiss as (more0 & Hr0 & Hmore0).
  destruct (webtrisCache w !! Fetch.webtrisKey road) as [c|] eqn:L.
  - destruct (isCacheValid (clock w) (Some c)) eqn:V.
    + do 2 eexists. exists []. split; [reflexivity|]. cbn. repeat split; eauto.
    + exists r, w', more0. rewrite E. auto 10.
  - exists r, w', more0. rewrite E. cbn. auto 10.
Qed.

Lemma trackAPICall_spec origin destination success w :
  exists w', Fetch.trackAPICall origin destination success w = (Ret tt, w') /\
    clock w' = clock w /\ requests w' = requests w /\ calls w' = calls w /\
    tiiCache w' = tiiCache w /\ webtrisCache w' = webtrisCache w /\
    googleCache w' = googleCache w /\
    apiCallCount w' = Datatypes.S (apiCallCount w).
Proof.
  unfold Fetch.trackAPICall, modify. eexists. split; [reflexivity|].
  cbn. auto 10.
Qed.

Lemma googleFromNetwork_spec rt origin destination road key w :
  exists r w', Fetch.googleFromNetwork rt origin destination road key w = (Ret r, w') /\
    requests w' = GetDirections origin destination :: requests w /\
    calls w' = calls w /\ tiiCache w' = tiiCache w /\
    webtrisCache w' = webtrisCache w /\
    apiCallCount w' = Datatypes.S (apiCallCount w) /\
    Result.fromCache r <> Some true /\
    (Result.fromCache r = Some false ->
     googleCache w' = <[key := {| ce_data := Result.data r;
                                  ce_timestamp := clock w' |}]> (googleCache w)) /\
    match directionsEndpoint rt (List.length (requests w)) origin destination with
    | Rejected message =>
        Result.data r = [] /\ Result.error r = Some message /\
        googleCache w' = googleCache w
    | Resolved (GoogleNoData e) =>
        Result.data r = [] /\ Result.error r = Some e /\
        googleCache w' = googleCache w
    | Resolved (GoogleData status routes) =>
        if bool_decide (status = Some "OK") then
          match from_option id [] routes with
          | [] => Result.data r = [] /\ Result.error r = None /\
                  googleCache w' = googleCache w
          | _ => True
          end
        else
          Result.data r = [] /\
          Result.error r = Some ("Google Maps API Error: " ++
                                 from_option id "undefined" status) /\
          googleCache w' = googleCache w
    end.
Proof.
  unfold Fetch.googleFromNetwork, axios_get, Fetch.trackAPICall. munfold.
  destruct (directionsEndpoint rt _ _ _) as [m|[e|status routes]]; cbn.
  1-2: do 2 eexists; (split; [reflexivity|]); cbn; repeat split; auto; congruence.
  destruct (bool_decide (status = Some "OK")) eqn:S; cbn.
  - destruct (from_option id [] routes) as [|route rest] eqn:R; cbn.
    + do 2 eexists; (split; [reflexivity|]); cbn; repeat split; auto; congruence.
    + destruct (GoogleMaps.normalizeGoogleMapsData _ _ _ _ _ _) as [e|rec]; cbn;
        do 2 eexists; (split; [reflexivity|]); cbn; repeat split; auto; congruence.
  - do 2 eexists; (split; [reflexivity|]); cbn; repeat split; auto; congruence.
Qed.

(** [fetchGoogleMapsTraffic] *)
Lemma fetchGoogle_spec rt origin destination road w :
  exists r w', Fetch.fetchGoogleMapsTraffic rt origin destination road w = (Ret r, w') /\
    calls w' = CallGoogleMaps origin destination :: calls w /\
    tiiCache w' = tiiCache w /\ webtrisCache w' = webtrisCache w /\
    if negb (truthy (GOOGLE_MAPS_API_KEY rt)) then
      Result.data r = [] /\
      Result.error r = Some "Google Maps API Key not configured" /\
      Result.fromCache r = None /\
      requests w' = requests w /\ googleCache w' = googleCache w
    else if isCacheValid (clock w)
              (googleCache w !! Fetch.googleKey origin destination) then
      requests w' = requests w /\ googleCache w' = googleCache w /\
      clock w' = clock w /\
      Result.fromCache r = Some true /\ Result.error r = None /\
      exists c, googleCache w !! Fetch.googleKey origin destination = Some c /\
                Result.data r = ce_data c
    else
      requests w' = GetDirections origin destination :: requests w /\
      Result.fromCache r <> Some true /\
      (Result.fromCache r = Some false ->
       googleCache w' = <[Fetch.googleKey origin destination :=
                            {| ce_data := Result.data r;
                               ce_timestamp := clock w' |}]> (googleCache w)) /\
      match directionsEndpoint rt (List.length (requests w)) origin destination with
      | Rejected message =>
          Result.data r = [] /\ Result.error r = Some message /\
          googleCache w' = googleCache w
      | Resolved (GoogleNoData e) =>
          Result.data r = [] /\ Result.error r = Some e /\
          googleCache w' = googleCache w
      | Resolved (GoogleData status routes) =>
          if bool_decide (status = Some "OK") then
            match from_option id [] routes with
            | [] => Result.data r = [] /\ Result.error r = None /\
                    googleCache w' = googleCache w
            | _ => True
            end
          else
            Result.data r = [] /\
            Result.error r = Some ("Google Maps API Error: " ++
                                   from_option id "undefined" status) /\
            googleCache w' = googleCache w
      end.
Proof.
  unfold Fetch.fetchGoogleMapsTraffic. munfold. cbn.
  destruct (negb (truthy (GOOGLE_MAPS_API_KEY rt))) eqn:K.
  { do 2 eexists. split; [reflexivity|]. cbn. auto 10. }
  cbn.
  destruct (googleFromNetwork_spec rt origin destination road
              (Fetch.googleKey origin destination)
              (log_call (CallGoogleMaps origin destination) w))
    as (r & w' & E & Hr & Hc & Ht & Hw & Ha & Hn & Hs & Hm).
  cbn in Hr, Hc, Ht, Hw, Hs, Hm.
  destruct (googleCache w !! Fetch.googleKey origin destination) as [c|] eqn:L.
  - destruct (isCacheValid (clock w) (Some c)) eqn:V.
    + do 2 eexists. split; [reflexivity|]. cbn. repeat split; eauto.
    + exists r, w'. rewrite E. auto 10.
  - exists r, w'. rewrite E. cbn. auto 10.
Qed.


(** ** The blocks of the orchestrator *)








(** ** Claims about the orchestrator *)




(** ** Claims about the adapters' fetch *)

(** C7, counterexample.  The sites request of the WebTRIS adapter times
    out: the fetch resolves with data [] and no error field at all. *)
Lemma webtris_timeout_has_no_error :
  sitesEndpoint Scenario.downRuntime 0 "M25"
    = Rejected "timeout of 10000ms exceeded" /\
  match fst (Fetch.fetchWebTRISTraffic Scenario.downRuntime "M25"
               Scenario.emptyWorld) with
  | Ret r => Result.data r = [] /\ Result.error r = None
  | Throw _ => False
  end.
Proof. vm_compute. auto. Qed.

(** C7, amended.  Every adapter's fetch returns a result for every state
    of its cache and every behaviour of the network; it never throws.  On a
    cache miss: a rejected request (timeout, status outside 2xx) or an
    ill-typed payload gives data [] and the failure's message as error for
    TII and Google Maps; a payload without the expected field gives data []
    and no error; the WebTRIS adapter catches a rejected sites request
    itself and gives data [] with no error.  Without an API key the Google
    Maps adapter gives data [] and a fixed error string. *)
Theorem adapters_never_throw
    (rt : Runtime) (road origin destination : string) (groad : option string)
    (w : World) :
  (exists r w', Fetch.fetchTIITraffic rt road w = (Ret r, w') /\
     (isCacheValid (clock w) (tiiCache w !! Fetch.tiiKey road) = false ->
      match tiiFeed rt (List.length (requests w)) with
      | Rejected message | Resolved (TIIIllTyped message) =>
          Result.data r = [] /\ Result.error r = Some message
      | Resolved TIINoSituation =>
          Result.data r = [] /\ Result.error r = None
      | Resolved (TIISituations _) => Result.error r = None
      end)) /\
  (exists r w', Fetch.fetchWebTRISTraffic rt road w = (Ret r, w') /\
     (isCacheValid (clock w) (webtrisCache w !! Fetch.webtrisKey road) = false ->
      match sitesEndpoint rt (List.length (requests w)) (toUpperCase road) with
      | Rejected _ | Resolved SitesAbsent | Resolved (SitesArray []) =>
          Result.data r = [] /\ Result.error r = None
      | Resolved (SitesIllTyped message) =>
          Result.data r = [] /\ Result.error r = Some message
      | Resolved (SitesArray (_ :: _)) => True
      end)) /\
  (exists r w',
     Fetch.fetchGoogleMapsTraffic rt origin destination groad w = (Ret r, w') /\
     (truthy (GOOGLE_MAPS_API_KEY rt) = false ->
      Result.data r = [] /\
      Result.error r = Some "Google Maps API Key not configured") /\
     (truthy (GOOGLE_MAPS_API_KEY rt) = true ->
      isCacheValid (clock w)
        (googleCache w !! Fetch.googleKey origin destination) = false ->
      match directionsEndpoint rt (List.length (requests w)) origin destination with
      | Rejected message | Resolved (GoogleNoData message) =>
          Result.data r = [] /\ Result.error r = Some message
      | Resolved (GoogleData status routes) =>
          if bool_decide (status = Some "OK") then
            match from_option id [] routes with
            | [] => Result.data r = [] /\ Result.error r = None
            | _ => True
            end
          else
            Result.data r = [] /\
            Result.error r = Some ("Google Maps API Error: " ++
                                   from_option id "undefined" status)
      end)).
Proof.
  split_and!.
  - destruct (fetchTII_spec rt road w) as (r & w' & E & _ & _ & _ & H).
    exists r, w'. split; [exact E|]. intros V. rewrite V in H.
    destruct H as [_ H].
    destruct (tiiFeed rt _) as [m|[ |l|e]]; tauto.
  - destruct (fetchWebTRIS_spec rt road w) as (r & w' & more & E & _ & _ & _ & _ & H).
    exists r, w'. split; [exact E|]. intros V. rewrite V in H.
    destruct H as (_ & _ & _ & H).
    destruct (sitesEndpoint rt _ _) as [m|[ |[|s ss]|e]]; tauto.
  - destruct (fetchGoogle_spec rt origin destination groad w)
      as (r & w' & E & _ & _ & _ & H).
    exists r, w'. split; [exact E|]. split.
    + intros K. rewrite K in H. cbn in H. tauto.
    + intros K V. rewrite K, V in H. cbn in H.
      destruct H as (_ & _ & _ & H).
      destruct (directionsEndpoint rt _ _ _) as [m|[e|status routes]]; try tauto.
      destruct (bool_decide (status = Some "OK")); [|tauto].
      destruct (from_option id [] routes); tauto.
Qed.

(** Witness of C7: every request times out and no API key is set. *)
Lemma adapters_never_throw_witness :
  (exists r w',
     Fetch.fetchTIITraffic Scenario.downRuntime "M1" Scenario.emptyWorld
       = (Ret r, w') /\
     Result.data r = [] /\
     Result.error r = Some "timeout of 10000ms exceeded") /\
  (exists r w',
     Fetch.fetchWebTRISTraffic Scenario.downRuntime "M1" Scenario.emptyWorld
       = (Ret r, w') /\
     Result.data r = [] /\ Result.error r = None) /\
  (exists r w',
     Fetch.fetchGoogleMapsTraffic Scenario.downRuntime "Drogheda" "M1" None
       Scenario.emptyWorld = (Ret r, w') /\
     Result.data r = [] /\
     Result.error r = Some "Google Maps API Key not configured").
Proof.
  destruct (adapters_never_throw Scenario.downRuntime "M1" "Drogheda" "M1" None
              Scenario.emptyWorld)
    as ((r1 & w1 & E1 & H1) & (r2 & w2 & E2 & H2) & (r3 & w3 & E3 & H3 & _)).
  split; [|split].
  - exists r1, w1. split; [exact E1|]. apply H1. reflexivity.
  - exists r2, w2. split; [exact E2|]. apply H2. reflexivity.
  - exists r3, w3. split; [exact E3|]. apply H3. reflexivity.
Defined.

(** ** The caches *)

Section CacheRoundTrip.
Variable rt : Runtime.



End CacheRoundTrip.




(** ** The junction report *)

Section Ladder.
Local Open Scope Q_scope.

Lemma recommend_ladder (totalDelay : Q) (worst : Junction.SegmentResult) :
  (15 <= totalDelay ->
   Junction.recommend totalDelay worst
     = Junction.MajorDelays (Qceiling (totalDelay / 5) * 5)) /\
  (10 <= totalDelay -> totalDelay < 15 ->
   Junction.recommend totalDelay worst
     = Junction.SignificantDelays
         (Junction.name (Junction.segment worst)) totalDelay) /\
  (5 <= totalDelay -> totalDelay < 10 ->
   Junction.recommend totalDelay worst
     = Junction.MinorDelays totalDelay
         (Junction.name (Junction.segment worst))) /\
  (totalDelay < 5 -> Junction.recommend totalDelay worst = Junction.RouteClear).
Proof.
  unfold Junction.recommend.
  destruct (Qle_bool 15 totalDelay) eqn:E15;
    [apply Qle_bool_iff in E15 | apply Qle_bool_false in E15];
  (destruct (Qle_bool 10 totalDelay) eqn:E10;
    [apply Qle_bool_iff in E10 | apply Qle_bool_false in E10]);
  (destruct (Qle_bool 5 totalDelay) eqn:E5;
    [apply Qle_bool_iff in E5 | apply Qle_bool_false in E5]);
  split_and!; intros; try reflexivity; exfalso; lra.
Qed.
End Ladder.

(** C4, counterexample.  One segment with a normal time of 8 minutes and a
    current time of 11: totalDelay is 3 and the report selects the clear
    message, not the minor-delay one. *)
Lemma total_delay_3_is_clear :
  match Junction.generateReport "southbound"
          [Scenario.syntheticSegment 8 11] with
  | Ret report =>
      (Junction.totalDelay report == 3)%Q /\
      Junction.recommendation report = Junction.RouteClear /\
      Junction.tierOf (Junction.recommendation report) <> Junction.TierMinor
  | Throw _ => False
  end.
Proof. vm_compute. repeat split; congruence. Qed.

(** C4, amended.  On a non-empty list of checked segments the report is
    built, totalDelay is the total current time minus the total normal
    time, and the recommendation follows the ladder: totalDelay >= 15 gives
    the major-delay message (with the departure delay rounded up to five
    minutes), else >= 10 the significant-delay message naming the worst
    segment, else >= 5 the minor-delay message, else the clear message.  For
    totalDelay of 3, 7, 12 and 20 the tiers are clear, minor, significant
    and major. *)
Theorem recommendation_ladder
    (direction : string) (s : Junction.SegmentResult)
    (rest : list Junction.SegmentResult) :
  exists report,
    Junction.generateReport direction (s :: rest) = Ret report /\
    let totalDelay := Junction.totalDelay report in
    let worst := Junction.name (Junction.segment (Junction.worstSegment report)) in
    (totalDelay ==
       Junction.totalCurrentTime report - Junction.totalNormalTime report)%Q /\
    (15 <= totalDelay ->
     Junction.recommendation report
       = Junction.MajorDelays (Qceiling (totalDelay / 5) * 5))%Q /\
    (10 <= totalDelay -> totalDelay < 15 ->
     Junction.recommendation report
       = Junction.SignificantDelays worst totalDelay)%Q /\
    (5 <= totalDelay -> totalDelay < 10 ->
     Junction.recommendation report = Junction.MinorDelays totalDelay worst)%Q /\
    (totalDelay < 5 -> Junction.recommendation report = Junction.RouteClear)%Q /\
    (totalDelay == 3 ->
     Junction.tierOf (Junction.recommendation report) = Junction.TierClear)%Q /\
    (totalDelay == 7 ->
     Junction.tierOf (Junction.recommendation report) = Junction.TierMinor)%Q /\
    (totalDelay == 12 ->
     Junction.tierOf (Junction.recommendation report) = Junction.TierSignificant)%Q /\
    (totalDelay == 20 ->
     Junction.tierOf (Junction.recommendation report) = Junction.TierMajor)%Q.
Proof.
  unfold Junction.generateReport. cbn [Junction.worstOf].
  eexists. split; [reflexivity|].
  cbn [Junction.totalDelay Junction.recommendation Junction.worstSegment
       Junction.totalCurrentTime Junction.totalNormalTime].
  match goal with |- context [Junction.recommend ?td ?w] =>
    destruct (recommend_ladder td w) as (L15 & L10 & L5 & L0);
    set (delay := td) in * end.
  split_and!; auto; try reflexivity; intros H.
  - rewrite L0; [reflexivity|lra].
  - rewrite L5; [reflexivity|lra..].
  - rewrite L10; [reflexivity|lra..].
  - rewrite L15; [reflexivity|lra].
Qed.

(** The four synthetic totals of the specification, on the code. *)
Lemma synthetic_tiers :
  map (fun current =>
         match Junction.generateReport "southbound"
                 [Scenario.syntheticSegment 8 current] with
         | Ret report => Some (Junction.tierOf (Junction.recommendation report))
         | Throw _ => None
         end)
      [11%Q; 15%Q; 20%Q; 28%Q]
  = [Some Junction.TierClear; Some Junction.TierMinor;
     Some Junction.TierSignificant; Some Junction.TierMajor].
Proof. vm_compute. reflexivity. Qed.

(** ** The enrichment fallback *)

Lemma createFallbackResult_total rt d :
  coordinatesFormattable d ->
  exists seg, Extract.createFallbackResult rt d = Ret seg /\
    Extract.rawExtracted seg = false /\ Extract.fallback seg = None.
Proof.
  destruct d as [s|o]; cbn [coordinatesFormattable Extract.createFallbackResult].
  - intros _. eexists. split; [reflexivity|]. split; reflexivity.
  - intros H.
    destruct (truthy (Extract.vor (Extract.location_lat o) (Extract.lat o)) &&
              truthy (Extract.vor (Extract.location_lon o) (Extract.lon o))) eqn:T.
    + destruct (H eq_refl) as [[a ->] [b ->]]. cbn.
      eexists. split; [reflexivity|]. split; reflexivity.
    + eexists. split; [reflexivity|]. split; reflexivity.
Qed.

(** When the backend path fails, the cache holds no valid entry, and the
    coordinates of the input are numbers (or not both present), the caller
    gets the fallback structure with its markers and the store is left as
    it was. *)
Lemma extractSegment_fallback rt d useCache s e :
  Extract.llmPath rt d = Throw e ->
  (useCache = true ->
   match Extract.cache s !! Extract.getCacheKey rt d with
   | Some (_, stamp) => Extract.CACHE_TTL <= Extract.clock s - stamp
   | None => True
   end) ->
  coordinatesFormattable d ->
  exists seg,
    Extract.extractSegment rt d useCache true s = (Ret seg, s) /\
    Extract.fallback seg = Some true /\ Extract.rawExtracted seg = false /\
    Extract.extractionError seg = Some e.
Proof.
  intros HL HC HF.
  destruct (createFallbackResult_total rt d HF) as (fb & Efb & Hraw & _).
  unfold Extract.extractSegment, bind, gets, try_catch, Extract.lift, ret.
  assert (Hmiss :
    (if useCache then
       match Extract.cache s !! Extract.getCacheKey rt d with
       | Some (data, stamp) =>
           if bool_decide (Extract.clock s - stamp < Extract.CACHE_TTL)
           then Some data else None
       | None => None
       end
     else None) = None).
  { destruct useCache; [|reflexivity]. specialize (HC eq_refl).
    destruct (Extract.cache s !! Extract.getCacheKey rt d) as [[data stamp]|];
      [|reflexivity].
    rewrite bool_decide_eq_false_2 by lia. reflexivity. }
  rewrite Hmiss, HL, Efb. eexists. split; [reflexivity|].
  cbn. auto.
Qed.

(** C9 (the code departs from the claim).  With no backend configured and
    the fallback enabled, [extractSegment] on a record whose latitude and
    longitude are JSON strings does not return the fallback structure: the
    fallback calls [toFixed] on the string and the TypeError leaves
    [extractSegment]; a text input in the same situation gets the
    structure marked fallback = true, rawExtracted = false. *)
Theorem fallback_throws_on_string_coordinates :
  Extract.llmPath Scenario.offlineRuntime
    (Extract.Obj Scenario.stringCoordinates)
    = Throw "LLM not configured: LLM_API_KEY not set" /\
  fst (Extract.extractSegment Scenario.offlineRuntime
         (Extract.Obj Scenario.stringCoordinates) true true
         Scenario.emptyStore)
    = Throw "lat.toFixed is not a function" /\
  match fst (Extract.extractSegment Scenario.offlineRuntime
               (Extract.Text "M1 Northbound, heavy traffic") true true
               Scenario.emptyStore) with
  | Ret seg =>
      Extract.fallback seg = Some true /\ Extract.rawExtracted seg = false
  | Throw _ => False
  end.
Proof. vm_compute. auto. Qed.

(** * Further properties of the code *)

(** ** The comparison helpers of [server.js] *)

(** The head of the sorted entries is the first entry with the largest
    count. *)
Lemma sortDesc_head entries :
  match Compare.sortDesc entries with
  | [] => entries = []
  | y :: _ =>
      exists pre post,
        entries = (pre ++ y :: post)%list /\
        (forall z, In z pre -> (snd z < snd y)%nat) /\
        (forall z, In z post -> (snd z <= snd y)%nat)
  end.
Proof.
  induction entries as [|x entries IH]; [reflexivity|].
  cbn [Compare.sortDesc fold_right]. fold (Compare.sortDesc entries).
  destruct (Compare.sortDesc entries) as [|h t] eqn:E.
  - subst entries. cbn. exists [], []. split; [reflexivity|].
    split; intros z [].
  - destruct IH as (pre & post & -> & Hpre & Hpost). cbn [Compare.insertDesc].
    destruct (snd x <? snd h)%nat eqn:L.
    + apply Nat.ltb_lt in L. exists (x :: pre), post.
      split; [reflexivity|]. split; [|exact Hpost].
      intros z [<-|Hz]; [lia|auto].
    + apply Nat.ltb_ge in L. exists [], (pre ++ h :: post)%list.
      split; [reflexivity|]. split; [intros z []|].
      intros z Hz. apply in_app_or in Hz.
      destruct Hz as [Hz|[<-|Hz]].
      * specialize (Hpre z Hz). lia.
      * lia.
      * specialize (Hpost z Hz). lia.
Qed.

Lemma congestionCounts_entries data :
  exists tail,
    Compare.congestionCounts data =
    ((CongHeavy, Server.countLevel CongHeavy data)
     :: (CongModerate, Server.countLevel CongModerate data)
     :: (CongLight, Server.countLevel CongLight data)
     :: (CongNone, Server.countLevel CongNone data) :: tail) /\
    (tail = [(CongUnknown, Server.countLevel CongUnknown data)] \/
     tail = [] /\ Server.countLevel CongUnknown data = 0%nat).
Proof.
  unfold Compare.congestionCounts.
  destruct (0 <? _)%nat eqn:E; eexists; (split; [reflexivity|]).
  - left; reflexivity.
  - right. split; [reflexivity|]. apply Nat.ltb_ge in E. lia.
Qed.

(** X1.  [getDominantCongestion] returns a level whose number of records is
    the largest among all levels (['unknown'] included); among the levels
    with that number it returns the first in the order heavy, moderate,
    light, none, unknown, so an empty array gives ['heavy']. *)
Theorem dominant_congestion_is_first_most_frequent
    (data : list TrafficRecord) (l : CongestionLevel) :
  (Server.countLevel l data
   <= Server.countLevel (Compare.getDominantCongestion data) data)%nat /\
  (Server.countLevel l data
   = Server.countLevel (Compare.getDominantCongestion data) data ->
   (Compare.entryOrder (Compare.getDominantCongestion data)
    <= Compare.entryOrder l)%nat).
Proof.
  unfold Compare.getDominantCongestion.
  pose proof (sortDesc_head (Compare.congestionCounts data)) as H.
  destruct (congestionCounts_entries data) as (tail & EQ & Htail).
  rewrite EQ in *. clear EQ.
  destruct (Compare.sortDesc _) as [|[top n] t]; [discriminate H|].
  destruct H as (pre & post & E & Hpre & Hpost).
  assert (Hlt : forall z, In z pre -> (snd z < n)%nat) by exact Hpre.
  assert (Hle : forall z, In z post -> (snd z <= n)%nat) by exact Hpost.
  clear Hpre Hpost.
  destruct Htail as [->|[-> U]];
    repeat (destruct pre as [|? pre];
            [cbn in E; injection E as <- <-; intros; subst
            |cbn in E; injection E as <-; intros;
             match goal with
             | H : _ = (_ ++ _)%list |- _ => rename H into E
             end]);
    try (destruct pre; discriminate E);
    cbn [Compare.entryOrder];
    repeat match goal with
    | H : forall z, In z (?a :: ?r) -> _ |- _ =>
        pose proof (H a (or_introl eq_refl)); 
        assert (forall z, In z r -> _) by (intros z0 Hz0; exact (H z0 (or_intror Hz0)));
        clear H
    end;
    cbn [snd] in *; destruct l; cbn [Compare.entryOrder]; split; lia.
Qed.

Lemma rankGt_asym a b : Compare.rankGt a b = true -> Compare.rankGt b a = false.
Proof.
  unfold Compare.rankGt.
  destruct (levelRank a), (levelRank b); try reflexivity; try discriminate.
  intros H. apply Nat.ltb_lt in H. apply Nat.ltb_ge. lia.
Qed.

(** X2.  [generateInsight] treats the two countries alike: exchanging the
    two data sets exchanges the roles of Ireland and the UK in the message
    and changes nothing else. *)
Theorem insight_is_symmetric (ieData ukData : list TrafficRecord) :
  Compare.generateInsight ukData ieData
  = Compare.mirror (Compare.generateInsight ieData ukData).
Proof.
  unfold Compare.generateInsight.
  destruct ieData as [|i ie], ukData as [|u uk]; try reflexivity.
  destruct (Compare.rankGt (Compare.getDominantCongestion (i :: ie))
              (Compare.getDominantCongestion (u :: uk))) eqn:A.
  - rewrite (rankGt_asym _ _ A). reflexivity.
  - destruct (Compare.rankGt (Compare.getDominantCongestion (u :: uk))
                (Compare.getDominantCongestion (i :: ie))); reflexivity.
Qed.

(** ** Routing predicates *)

(** X3.  In the fallback trigger of the orchestrator the local-street test
    adds nothing to the preference heuristic of the Google Maps adapter:
    the commercial adapter is tried exactly when the free adapters gave no
    data or [isGoogleMapsPreferred] holds. *)
Theorem local_street_is_google_preferred (road : string)
    (country town : option string) (results : Server.Results) :
  Server.shouldTryGoogle road country town results
  = negb (0 <? List.length (Server.data results))%nat
    || GoogleMaps.isGoogleMapsPreferred road town country.
Proof.
  unfold Server.shouldTryGoogle, Server.isLocalStreet,
    GoogleMaps.isGoogleMapsPreferred.
  destruct (negb (0 <? List.length (Server.data results))%nat);
    [reflexivity|]. cbn [orb].
  destruct (truthy town && negb (matches_designation road)); reflexivity.
Qed.

Lemma irish_number_digits (n : string) :
  existsb (String.eqb n) WebTRIS.irishMotorways = true ->
  digits1 n = Some EmptyString.
Proof.
  intros H. apply existsb_exists in H. destruct H as (x & Hin & E).
  apply String.eqb_eq in E. subst x.
  unfold WebTRIS.irishMotorways in Hin. cbn [In] in Hin.
  repeat (destruct Hin as [<-|Hin]; [reflexivity|]). destruct Hin.
Qed.

(** X4.  The motorway numbers that [isUKRoad] takes to be Irish are Irish
    roads for [isIrishRoad] and never UK roads; with a country that admits
    the UK source, such a road is sent to WebTRIS only when it is the M1. *)
Theorem irish_motorway_is_never_uk (road : string)
    (H : WebTRIS.isLikelyIrish road = true) :
  TII.isIrishRoad road = true /\
  WebTRIS.isUKRoad road = false /\
  forall country,
    Server.wantsWebTRIS road country = true -> toUpperCase road = "M1".
Proof.
  assert (U : WebTRIS.isUKRoad road = false).
  { unfold WebTRIS.isUKRoad. rewrite H. apply andb_false_r. }
  split; [|split; [exact U|]].
  - destruct road as [|c rest]; [discriminate H|].
    cbn [WebTRIS.isLikelyIrish] in H. apply andb_true_iff in H.
    destruct H as [Hc Hn]. apply irish_number_digits in Hn.
    unfold TII.isIrishRoad. cbn [letter_digits]. rewrite Hc, Hn. reflexivity.
  - intros country W. unfold Server.wantsWebTRIS in W. rewrite U in W.
    apply andb_true_iff in W. destruct W as [_ W].
    apply String.eqb_eq. exact W.
Qed.

(** Witness of X4: the M50, in lower case. *)
Lemma irish_motorway_is_never_uk_witness :
  TII.isIrishRoad "m50" = true /\
  WebTRIS.isUKRoad "m50" = false /\
  forall country,
    Server.wantsWebTRIS "m50" country = true -> toUpperCase "m50" = "M1".
Proof.
  apply (irish_motorway_is_never_uk "m50"). reflexivity.
Defined.

(** ** The free normalizers *)

Lemma tii_level_known (d : Q) : TII.congestionOf d <> CongUnknown.
Proof.
  unfold TII.congestionOf.
  destruct (Qgtb d 10), (Qgtb d 5), (Qgtb d 2); discriminate.
Qed.

Lemma webtris_level_known (s t : Q) : WebTRIS.congestionOf s t <> CongUnknown.
Proof.
  unfold WebTRIS.congestionOf.
  destruct (_ || _); [discriminate|].
  destruct (_ || _); [discriminate|].
  destruct (_ || _); discriminate.
Qed.

Lemma free_records_are_never_unknown (data : list TrafficRecord) :
  (forall d, In d data -> normalizedFree d) ->
  Server.countLevel CongUnknown data = 0%nat.
Proof.
  induction data as [|d data IH]; intros H; [reflexivity|].
  rewrite countLevel_cons.
  assert (Hd : Server.congestionLevelOf d <> CongUnknown).
  { destruct (H d (or_introl eq_refl)) as [(t & el & ->)|(t & s & r & ->)].
    - apply tii_level_known.
    - apply webtris_level_known. }
  rewrite bool_decide_eq_false_2 by exact Hd.
  apply IH. intros x Hx. apply H. right. exact Hx.
Qed.

(** X5.  When every record of a response was produced by one of the two free
    normalizers, the four buckets of the summary's congestion breakdown add
    up to [totalRecords]: the free normalizers never give the level
    ['unknown']. *)
Theorem free_records_fill_the_breakdown (country : string)
    (results : Server.Results)
    (H : forall d, In d (Server.data results) -> normalizedFree d) :
  let s := Server.summary country results in
  let b := Server.congestionBreakdown s in
  (Server.heavy b + Server.moderate b + Server.light b + Server.none b
   = Server.totalRecords s)%nat.
Proof.
  cbn. pose proof (countLevel_partition (Server.data results)) as P.
  rewrite (free_records_are_never_unknown _ H) in P. lia.
Qed.

(** Witness of X5: one TII record and one WebTRIS record. *)
Lemma free_records_fill_the_breakdown_witness :
  let results :=
    {| Server.data :=
         [FromTII (TII.normalizeTIIRecord 0 (Scenario.m1Element 1680 1320));
          FromWebTRIS (WebTRIS.normalizeWebTRISRecord 0 Scenario.m25Site
                         (Scenario.reportAt 50))];
       Server.sourcesUsed := ["TII-Ireland"; "WebTRIS-UK"];
       Server.fallbackUsed := false; Server.errors := [];
       Server.details := [] |} in
  let s := Server.summary "ALL" results in
  let b := Server.congestionBreakdown s in
  (Server.heavy b + Server.moderate b + Server.light b + Server.none b
   = Server.totalRecords s)%nat.
Proof.
  apply (free_records_fill_the_breakdown "ALL").
  intros d [<-|[<-|[]]].
  - left. eexists _, _. reflexivity.
  - right. eexists _, _, _. reflexivity.
Defined.

(** X6.  A TII record that shows a delay of at least one minute is always
    classified heavy: the thresholds 10, 5 and 2 are applied to the delay in
    the unit of the feed, a sixtieth of the displayed one, so the levels
    light and moderate go with a displayed delay of 0. *)
Theorem tii_displayed_delay_is_heavy (now : Z) (record : TII.FeedElement)
    (H : 1 <= TII.delayMinutes (TII.normalizeTIIRecord now record)) :
  TII.congestionLevel (TII.normalizeTIIRecord now record) = CongHeavy.
Proof.
  unfold TII.normalizeTIIRecord in *.
  cbn [TII.delayMinutes TII.congestionLevel] in *.
  set (delay := max0 _) in *.
  pose proof (round_lower (delay / 60)) as L.
  assert (R : (inject_Z 1 <= inject_Z (round (delay / 60)))%Q)
    by (rewrite <- Zle_Qle; exact H).
  change (inject_Z 1) with 1%Q in R.
  pose proof (div60 delay) as D.
  unfold TII.congestionOf.
  assert (G : Qgtb delay 10 = true) by (apply Qgtb_gt; lra).
  rewrite G. reflexivity.
Qed.

(** Witness of X6: raw travel times 150 and 60, shown as a delay of 2. *)
Lemma tii_displayed_delay_is_heavy_witness :
  TII.congestionLevel
    (TII.normalizeTIIRecord 0 (Scenario.m1Element 150 60)) = CongHeavy.
Proof.
  apply (tii_displayed_delay_is_heavy 0 (Scenario.m1Element 150 60)).
  vm_compute. discriminate.
Defined.

(** X7.  The normalizer reads the situation records under [situation]
    only: an element without that field is normalized to the road of its own
    [road] field (or ['Unknown']), direction ['Unknown'], times and delay 0
    and level ['none'], whatever its own [situationRecord] array, the one
    the road filter of [fetchTIITraffic] tests, holds. *)
Theorem tii_normalizer_ignores_own_records (now : Z) (el : TII.FeedElement)
    (H : TII.situation el = None) :
  let r := TII.normalizeTIIRecord now el in
  TII.r_road r = TII.strip_R (jsor (TII.road el) "Unknown") /\
  TII.r_direction r = "Unknown" /\
  TII.travelTimeMinutes r = 0 /\ TII.freeFlowTimeMinutes r = 0 /\
  TII.delayMinutes r = 0 /\ TII.congestionLevel r = CongNone.
Proof.
  unfold TII.normalizeTIIRecord. rewrite H. cbn.
  destruct (TII.road el) as [[|c s]|]; cbn; auto 10.
Qed.

(** Witness of X7: an element that passes the road filter for the M1 and is
    normalized to the road ['Unknown']. *)
Lemma tii_normalizer_ignores_own_records_witness :
  Fetch.onRoad "M1" Cases.flatElement = true /\
  TII.r_road (TII.normalizeTIIRecord 0 Cases.flatElement) = "Unknown" /\
  TII.congestionLevel (TII.normalizeTIIRecord 0 Cases.flatElement)
  = CongNone.
Proof.
  split; [reflexivity|].
  destruct (tii_normalizer_ignores_own_records 0 Cases.flatElement eq_refl)
    as (R & _ & _ & _ & _ & L).
  split; [exact R|exact L].
Defined.

(** ** Fresh fetches of the free adapters *)



Lemma webtris_no_report_is_heavy now site :
  let rec := WebTRIS.normalizeWebTRISRecord now site WebTRIS.emptyReport in
  WebTRIS.r_averageSpeed rec = 0 /\ WebTRIS.congestionLevel rec = CongHeavy.
Proof.
  unfold WebTRIS.normalizeWebTRISRecord.
  cbn [WebTRIS.r_averageSpeed WebTRIS.congestionLevel].
  change (WebTRIS.speedOf WebTRIS.emptyReport) with 0%Q.
  split; [reflexivity|].
  unfold WebTRIS.congestionOf.
  assert (L : Qltb (0 / WebTRIS.typicalSpeedOf site) (3 # 10) = true).
  { apply Qltb_lt. unfold Qdiv. rewrite Qmult_0_l. reflexivity. }
  rewrite L. reflexivity.
Qed.

(** X9.  On a cache miss with at least one site, [fetchWebTRISTraffic]
    returns exactly one record per site, in the order of the sites, each
    normalized with the first report of its site id or with the empty
    report.  When the reports request is rejected every site is reported
    with average speed 0 and congestion level heavy. *)
Theorem webtris_fresh_fetch_one_record_per_site (rt : Runtime)
    (road : string) (w : World) (site : WebTRIS.Site)
    (sites : list WebTRIS.Site)
    (Hmiss : isCacheValid (clock w) (webtrisCache w !! Fetch.webtrisKey road)
             = false)
    (Hsites : sitesEndpoint rt (List.length (requests w)) (toUpperCase road)
              = Resolved (SitesArray (site :: sites)))
    (Htyped : forall e,
       reportsEndpoint rt (S (List.length (requests w)))
         (map WebTRIS.site_id (site :: sites))
       <> Resolved (ReportsIllTyped e)) :
  let reply :=
    reportsEndpoint rt (S (List.length (requests w)))
      (map WebTRIS.site_id (site :: sites)) in
  let reports :=
    match reply with Resolved (ReportsArray l) => l | _ => [] end in
  exists r w',
    Fetch.fetchWebTRISTraffic rt road w = (Ret r, w') /\
    Result.data r
    = map (fun s =>
             WebTRIS.normalizeWebTRISRecord (clock w') s
               (Fetch.reportFor reports s)) (site :: sites) /\
    Result.fromCache r = Some false /\ Result.error r = None /\
    ((exists m, reply = Rejected m) ->
     Forall (fun rec => WebTRIS.r_averageSpeed rec = 0 /\
                        WebTRIS.congestionLevel rec = CongHeavy)
            (Result.data r)).
Proof.
  intros reply reports.
  assert (E : exists r w',
    Fetch.webtrisFromNetwork rt road (Fetch.webtrisKey road)
      (log_call (CallWebTRIS road) w) = (Ret r, w') /\
    Result.data r
    = map (fun s =>
             WebTRIS.normalizeWebTRISRecord (clock w') s
               (Fetch.reportFor reports s)) (site :: sites) /\
    Result.fromCache r = Some false /\ Result.error r = None).
  { unfold Fetch.webtrisFromNetwork, Fetch.fetchSites, Fetch.fetchReports,
      axios_get. munfold. cbn.
    rewrite Hsites. cbn.
    subst reports reply. cbn in Htyped |- *.
    destruct (reportsEndpoint rt _ _) as [m|[ |l|e]]; cbn.
    - do 2 eexists. repeat split; reflexivity.
    - do 2 eexists. repeat split; reflexivity.
    - do 2 eexists. repeat split; reflexivity.
    - exfalso. exact (Htyped e eq_refl). }
  destruct E as (r & w' & E & D & F & G).
  exists r, w'. split; [|split; [exact D|split; [exact F|split; [exact G|]]]].
  - unfold Fetch.fetchWebTRISTraffic. munfold. cbn.
    destruct (webtrisCache w !! Fetch.webtrisKey road) as [c|] eqn:L.
    + rewrite Hmiss. exact E.
    + exact E.
  - intros [m Hm]. rewrite D. subst reports. rewrite Hm.
    apply List.Forall_forall. intros rec Hin. apply in_map_iff in Hin.
    destruct Hin as (s & <- & _).
    apply (webtris_no_report_is_heavy (clock w') s).
Qed.

(** Witness of X9: the M25 while the reports request times out. *)
Lemma webtris_fresh_fetch_one_record_per_site_witness :
  exists r w',
    Fetch.fetchWebTRISTraffic Cases.reportsDownRuntime "M25"
      Scenario.emptyWorld = (Ret r, w') /\
    Forall (fun rec => WebTRIS.r_averageSpeed rec = 0 /\
                       WebTRIS.congestionLevel rec = CongHeavy)
           (Result.data r).
Proof.
  destruct (webtris_fresh_fetch_one_record_per_site Cases.reportsDownRuntime
              "M25" Scenario.emptyWorld Scenario.m25Site [])
    as (r & w' & E & _ & _ & _ & H).
  - reflexivity.
  - reflexivity.
  - intros e. discriminate.
  - exists r, w'. split; [exact E|]. apply H. eexists. reflexivity.
Defined.

(** ** The Google Maps usage counters *)

(** Appending an entry and keeping the last 100. *)
Lemma keep_last_100 {A} (history : list A) (x d : A) :
  let full := (history ++ [x])%list in
  let kept :=
    if (100 <? List.length full)%nat
    then skipn (List.length full - 100) full else full in
  (List.length kept <= 100)%nat /\ List.last kept d = x /\
  exists dropped, full = (dropped ++ kept)%list.
Proof.
  intros full kept.
  assert (Hlen : List.length full = S (List.length history)).
  { unfold full. rewrite length_app. cbn. lia. }
  unfold kept. destruct (100 <? List.length full)%nat eqn:E.
  - apply Nat.ltb_lt in E. split; [rewrite length_skipn; lia|]. split.
    + unfold full. rewrite skipn_app.
      replace (List.length (history ++ [x]) - 100 - List.length history)%nat
        with 0%nat by (rewrite length_app; cbn; lia).
      cbn [skipn]. apply last_last.
    + exists (firstn (List.length full - 100) full).
      symmetry. apply firstn_skipn.
  - apply Nat.ltb_ge in E. split; [lia|]. split; [apply last_last|].
    exists []. reflexivity.
Qed.

(** X10.  [trackAPICall] counts the call and appends it to the history,
    which never holds more than 100 entries afterwards; the new call is its
    last entry, older entries are dropped from the front only, and the
    request log and the cache are left alone. *)
Theorem api_history_keeps_last_100 (origin destination : string)
    (success : bool) (w : World) :
  exists w',
    Fetch.trackAPICall origin destination success w = (Ret tt, w') /\
    apiCallCount w' = S (apiCallCount w) /\
    (List.length (apiCallHistory w') <= 100)%nat /\
    List.last (apiCallHistory w')
      {| ac_timestamp := 0; ac_origin := ""; ac_destination := "";
         ac_success := false |}
    = {| ac_timestamp := clock w; ac_origin := origin;
         ac_destination := destination; ac_success := success |} /\
    (exists dropped,
       (apiCallHistory w ++
          [{| ac_timestamp := clock w; ac_origin := origin;
              ac_destination := destination; ac_success := success |}])%list
       = (dropped ++ apiCallHistory w')%list) /\
    requests w' = requests w /\ googleCache w' = googleCache w.
Proof.
  unfold Fetch.trackAPICall, modify. eexists. split; [reflexivity|].
  cbn [apiCallCount apiCallHistory requests googleCache].
  split; [reflexivity|].
  destruct (keep_last_100 (apiCallHistory w)
              {| ac_timestamp := clock w; ac_origin := origin;
                 ac_destination := destination; ac_success := success |}
              {| ac_timestamp := 0; ac_origin := ""; ac_destination := "";
                 ac_success := false |}) as (Hlen & Hlast & Hdrop).
  split; [exact Hlen|]. split; [exact Hlast|]. split; [exact Hdrop|].
  split; reflexivity.
Qed.

Lemma trackAPICall_ret origin destination success w :
  Fetch.trackAPICall origin destination success w
  = (Ret tt, snd (Fetch.trackAPICall origin destination success w)).
Proof. reflexivity. Qed.

#[local] Arguments Fetch.trackAPICall : simpl never.

Lemma googleFromNetwork_tracks rt origin destination road key w :
  exists r w',
    Fetch.googleFromNetwork rt origin destination road key w = (Ret r, w') /\
    requests w' = GetDirections origin destination :: requests w /\
    apiCallCount w' = S (apiCallCount w) /\
    exists w0,
      snd (Fetch.trackAPICall origin destination
             (0 <? List.length (Result.data r))%nat w0) = w'.
Proof.
  unfold Fetch.googleFromNetwork, axios_get. munfold.
  destruct (directionsEndpoint rt _ _ _) as [m|[e|status routes]]; cbn.
  1-2: rewrite trackAPICall_ret; cbn;
       do 2 eexists; (split; [reflexivity|]); cbn;
       (split; [reflexivity|]); (split; [reflexivity|]);
       eexists; reflexivity.
  destruct (bool_decide (status = Some "OK")) eqn:S; cbn.
  - destruct (from_option id [] routes) as [|route rest] eqn:R; cbn.
    + rewrite trackAPICall_ret; cbn.
      do 2 eexists; (split; [reflexivity|]); cbn;
        (split; [reflexivity|]); (split; [reflexivity|]);
        eexists; reflexivity.
    + destruct (GoogleMaps.normalizeGoogleMapsData _ _ _ _ _ _) as [e|n]; cbn;
        rewrite trackAPICall_ret; cbn;
        do 2 eexists; (split; [reflexivity|]); cbn;
        (split; [reflexivity|]); (split; [reflexivity|]);
        eexists; reflexivity.
  - rewrite trackAPICall_ret; cbn.
    do 2 eexists; (split; [reflexivity|]); cbn;
      (split; [reflexivity|]); (split; [reflexivity|]);
      eexists; reflexivity.
Qed.

(** X11.  [fetchGoogleMapsTraffic] counts exactly the requests it sends: a
    call answered without the network (missing key, valid cache entry)
    leaves the counter and the history as they are; a call that sends its
    request adds one to the counter whatever the outcome, and its history
    entry records success exactly when the call returns data. *)
Theorem google_api_counter_counts_requests (rt : Runtime)
    (origin destination : string) (road : option string) (w : World) :
  exists r w',
    Fetch.fetchGoogleMapsTraffic rt origin destination road w = (Ret r, w') /\
    ((requests w' = requests w /\ apiCallCount w' = apiCallCount w /\
      apiCallHistory w' = apiCallHistory w) \/
     (requests w' = GetDirections origin destination :: requests w /\
      apiCallCount w' = S (apiCallCount w) /\
      (List.length (apiCallHistory w') <= 100)%nat /\
      exists t,
        List.last (apiCallHistory w')
          {| ac_timestamp := 0; ac_origin := ""; ac_destination := "";
             ac_success := false |}
        = {| ac_timestamp := t; ac_origin := origin;
             ac_destination := destination;
             ac_success := (0 <? List.length (Result.data r))%nat |})).
Proof.
  unfold Fetch.fetchGoogleMapsTraffic. munfold. cbn.
  destruct (negb (truthy (GOOGLE_MAPS_API_KEY rt))) eqn:K.
  { do 2 eexists. split; [reflexivity|]. left. cbn. auto. }
  cbn.
  destruct (googleFromNetwork_tracks rt origin destination road
              (Fetch.googleKey origin destination)
              (log_call (CallGoogleMaps origin destination) w))
    as (r & w' & E & Hr & Hc & w0 & Hw).
  cbn in Hr, Hc.
  assert (N : requests w' = GetDirections origin destination :: requests w /\
      apiCallCount w' = S (apiCallCount w) /\
      (List.length (apiCallHistory w') <= 100)%nat /\
      exists t,
        List.last (apiCallHistory w')
          {| ac_timestamp := 0; ac_origin := ""; ac_destination := "";
             ac_success := false |}
        = {| ac_timestamp := t; ac_origin := origin;
             ac_destination := destination;
             ac_success := (0 <? List.length (Result.data r))%nat |}).
  { split; [exact Hr|]. split; [exact Hc|].
    rewrite <- Hw. unfold Fetch.trackAPICall, modify.
    cbn [snd apiCallHistory].
    destruct (keep_last_100 (apiCallHistory w0)
                {| ac_timestamp := clock w0; ac_origin := origin;
                   ac_destination := destination;
                   ac_success := (0 <? List.length (Result.data r))%nat |}
                {| ac_timestamp := 0; ac_origin := ""; ac_destination := "";
                   ac_success := false |}) as (Hlen & Hlast & _).
    split; [exact Hlen|]. exists (clock w0). exact Hlast. }
  destruct (googleCache w !! Fetch.googleKey origin destination) as [c|] eqn:L.
  - destruct (isCacheValid (clock w) (Some c)) eqn:V.
    + do 2 eexists. split; [reflexivity|]. left. cbn. auto.
    + exists r, w'. split; [exact E|]. right. exact N.
  - exists r, w'. split; [exact E|]. right. exact N.
Qed.

Lemma fetchGoogle_requests rt origin destination road w :
  exists r w',
    Fetch.fetchGoogleMapsTraffic rt origin destination road w = (Ret r, w') /\
    ((requests w' = requests w /\ apiCallCount w' = apiCallCount w) \/
     (requests w' = GetDirections origin destination :: requests w /\
      apiCallCount w' = S (apiCallCount w))) /\
    (Result.fromCache r = Some false -> Result.data r <> []).
Proof.
  unfold Fetch.fetchGoogleMapsTraffic. munfold. cbn.
  destruct (negb (truthy (GOOGLE_MAPS_API_KEY rt))) eqn:K.
  { do 2 eexists. split; [reflexivity|]. cbn. split; [auto|discriminate]. }
  cbn.
  assert (N : exists r w',
    Fetch.googleFromNetwork rt origin destination road
      (Fetch.googleKey origin destination)
      (log_call (CallGoogleMaps origin destination) w) = (Ret r, w') /\
    requests w' = GetDirections origin destination :: requests w /\
    apiCallCount w' = S (apiCallCount w) /\
    (Result.fromCache r = Some false -> Result.data r <> [])).
  { unfold Fetch.googleFromNetwork, axios_get, Fetch.trackAPICall. munfold.
    destruct (directionsEndpoint rt _ _ _) as [m|[e|status routes]]; cbn.
    1-2: do 2 eexists; (split; [reflexivity|]); cbn;
         repeat split; discriminate.
    destruct (bool_decide (status = Some "OK")) eqn:S; cbn.
    - destruct (from_option id [] routes) as [|route rest] eqn:R; cbn.
      + do 2 eexists; (split; [reflexivity|]); cbn;
          repeat split; discriminate.
      + destruct (GoogleMaps.normalizeGoogleMapsData _ _ _ _ _ _) as [e|n];
          cbn; do 2 eexists; (split; [reflexivity|]); cbn;
          repeat split; discriminate.
    - do 2 eexists; (split; [reflexivity|]); cbn;
        repeat split; discriminate. }
  destruct N as (r & w' & E & Hr & Hc & Hd).
  destruct (googleCache w !! Fetch.googleKey origin destination) as [c|] eqn:L.
  - destruct (isCacheValid (clock w) (Some c)) eqn:V.
    + do 2 eexists. split; [reflexivity|]. cbn. split; [auto|discriminate].
    + exists r, w'. split; [exact E|]. split; [right; auto|exact Hd].
  - exists r, w'. split; [exact E|]. split; [right; auto|exact Hd].
Qed.

(** X12.  [fetchRoadTraffic] sends at most two requests, all of them
    Directions requests, and at most one when no town is given; each request
    it sends adds one to the usage counter. *)
Theorem road_traffic_sends_at_most_two_requests (rt : Runtime)
    (road : string) (town : option string) (country : string) (w : World) :
  exists r w' more,
    Fetch.fetchRoadTraffic rt road town country w = (Ret r, w') /\
    requests w' = (more ++ requests w)%list /\
    (List.length more <= if truthy town then 2 else 1)%nat /\
    apiCallCount w' = (apiCallCount w + List.length more)%nat /\
    Forall (fun rq => exists o d, rq = GetDirections o d) more.
Proof.
  unfold Fetch.fetchRoadTraffic, bind, modify.
  destruct (fetchGoogle_requests rt (Fetch.roadOrigin road town country)
              (Fetch.roadDestination road town country) (Some road)
              (log_call (CallRoadTraffic road town country) w))
    as (g1 & w1 & E1 & H1 & _).
  rewrite E1. cbn in H1.
  destruct (bool_decide (List.length (Result.data g1) = 0%nat)
            && truthy town) eqn:B.
  - apply andb_true_iff in B. destruct B as [_ T]. rewrite T.
    destruct (fetchGoogle_requests rt (Fetch.altOrigin road town)
                (Fetch.altDest road town) (Some road) w1)
      as (g2 & w2 & E2 & H2 & _).
    exists g2, w2.
    destruct H1 as [[R1 C1]|[R1 C1]], H2 as [[R2 C2]|[R2 C2]];
      rewrite R2, R1, C2, C1.
    + exists []. split; [exact E2|]. cbn. repeat split; [lia|lia|constructor].
    + exists [GetDirections (Fetch.altOrigin road town)
                (Fetch.altDest road town)].
      split; [exact E2|]. cbn. repeat split; [lia|lia|].
      constructor; [eauto|constructor].
    + exists [GetDirections (Fetch.roadOrigin road town country)
                (Fetch.roadDestination road town country)].
      split; [exact E2|]. cbn. repeat split; [lia|lia|].
      constructor; [eauto|constructor].
    + exists [GetDirections (Fetch.altOrigin road town)
                (Fetch.altDest road town);
              GetDirections (Fetch.roadOrigin road town country)
                (Fetch.roadDestination road town country)].
      split; [exact E2|]. cbn. repeat split; [lia|lia|].
      constructor; [eauto|constructor; [eauto|constructor]].
  - exists g1, w1.
    destruct H1 as [[R1 C1]|[R1 C1]]; rewrite R1, C1.
    + exists []. split; [reflexivity|]. cbn.
      repeat split; [destruct (truthy town); lia|lia|constructor].
    + exists [GetDirections (Fetch.roadOrigin road town country)
                (Fetch.roadDestination road town country)].
      split; [reflexivity|]. cbn.
      repeat split; [destruct (truthy town); lia|lia|].
      constructor; [eauto|constructor].
Qed.

(** ** Cache keys *)

Lemma upper_lower_char (c : ascii) : upper_char (lower_char c) = upper_char c.
Proof. destruct c as [[] [] [] [] [] [] [] []]; reflexivity. Qed.

Lemma lower_upper_char (c : ascii) : lower_char (upper_char c) = lower_char c.
Proof. destruct c as [[] [] [] [] [] [] [] []]; reflexivity. Qed.

Lemma upper_upper_char (c : ascii) : upper_char (upper_char c) = upper_char c.
Proof. destruct c as [[] [] [] [] [] [] [] []]; reflexivity. Qed.

Lemma lower_lower_char (c : ascii) : lower_char (lower_char c) = lower_char c.
Proof. destruct c as [[] [] [] [] [] [] [] []]; reflexivity. Qed.

Lemma map_string_compose (f g h : ascii -> ascii) (s : string) :
  (forall c, f (g c) = h c) ->
  map_string f (map_string g s) = map_string h s.
Proof.
  intros H. induction s as [|c s IH]; [reflexivity|].
  cbn. rewrite H, IH. reflexivity.
Qed.

Lemma map_string_app (f : ascii -> ascii) (s t : string) :
  map_string f (s ++ t) = map_string f s ++ map_string f t.
Proof.
  induction s as [|c s IH]; [reflexivity|].
  change (String (f c) (map_string f (s ++ t))
          = String (f c) (map_string f s ++ map_string f t)).
  rewrite IH. reflexivity.
Qed.

Lemma string_app_assoc (s t u : string) : (s ++ t) ++ u = s ++ t ++ u.
Proof.
  induction s as [|c s IH]; [reflexivity|].
  change (String c ((s ++ t) ++ u) = String c (s ++ t ++ u)).
  rewrite IH. reflexivity.
Qed.

(** X13.  The cache keys do not depend on the case of the query: a road, an
    origin or a destination written in upper or lower case leads to the
    same key in each adapter. *)
Theorem cache_keys_ignore_case (road origin destination : string) :
  Fetch.tiiKey (toLowerCase road) = Fetch.tiiKey road /\
  Fetch.tiiKey (toUpperCase road) = Fetch.tiiKey road /\
  Fetch.webtrisKey (toLowerCase road) = Fetch.webtrisKey road /\
  Fetch.webtrisKey (toUpperCase road) = Fetch.webtrisKey road /\
  Fetch.googleKey (toUpperCase origin) (toUpperCase destination)
  = Fetch.googleKey origin destination /\
  Fetch.googleKey (toLowerCase origin) (toLowerCase destination)
  = Fetch.googleKey origin destination.
Proof.
  unfold Fetch.tiiKey, Fetch.webtrisKey, Fetch.googleKey, toUpperCase,
    toLowerCase.
  rewrite !(map_string_compose upper_char lower_char upper_char)
    by apply upper_lower_char.
  rewrite !(map_string_compose upper_char upper_char upper_char)
    by apply upper_upper_char.
  rewrite !(map_string_compose lower_char upper_char lower_char)
    by apply lower_upper_char.
  rewrite !(map_string_compose lower_char lower_char lower_char)
    by apply lower_lower_char.
  auto 10.
Qed.

(** X14.  The key of the Google Maps cache joins origin and destination with
    a colon and so does not determine them: moving a colon-separated part
    from the origin to the destination gives the same key, and with it the
    same cache entry. *)
Theorem google_cache_key_is_not_injective (a b c : string) :
  Fetch.googleKey (a ++ ":" ++ b) c = Fetch.googleKey a (b ++ ":" ++ c).
Proof.
  unfold Fetch.googleKey, toLowerCase.
  rewrite !map_string_app. cbn [map_string].
  change (String (lower_char ":") EmptyString) with ":".
  rewrite !string_app_assoc. reflexivity.
Qed.

(** ** Clearing the caches *)

(** X15.  After the adapters' [clearCache] no fetch is served from the
    cache: the TII adapter sends its request, the WebTRIS adapter sends at
    least its sites request, and the Google Maps adapter sends its request
    whenever an API key is configured. *)
Theorem cleared_caches_force_requests (rt : Runtime)
    (road origin destination : string) (groad : option string) (w : World) :
  let w0 := Admin.clearAdapterCaches w in
  (exists r w',
     Fetch.fetchTIITraffic rt road w0 = (Ret r, w') /\
     requests w' = GetTIITraffic :: requests w /\
     Result.fromCache r <> Some true) /\
  (exists r w' more,
     Fetch.fetchWebTRISTraffic rt road w0 = (Ret r, w') /\
     requests w'
     = (more ++ GetSites (toUpperCase road) :: requests w)%list /\
     Result.fromCache r <> Some true) /\
  (exists r w',
     Fetch.fetchGoogleMapsTraffic rt origin destination groad w0
     = (Ret r, w') /\
     requests w'
     = (if truthy (GOOGLE_MAPS_API_KEY rt)
        then GetDirections origin destination :: requests w
        else requests w) /\
     Result.fromCache r <> Some true).
Proof.
  intros w0.
  assert (R0 : requests w0 = requests w) by reflexivity.
  split; [|split].
  - destruct (fetchTII_spec rt road w0) as (r & w' & E & _ & _ & _ & H).
    assert (V : isCacheValid (clock w0) (tiiCache w0 !! Fetch.tiiKey road)
                = false).
    { unfold w0, Admin.clearAdapterCaches. cbn. rewrite lookup_empty.
      reflexivity. }
    rewrite V in H. destruct H as (Hr & Hm). exists r, w'.
    split; [exact E|]. split; [rewrite Hr, R0; reflexivity|].
    destruct (tiiFeed rt _) as [m|[ |l|e]];
      destruct Hm as (? & ? & ?); try destruct H1; congruence.
  - destruct (fetchWebTRIS_spec rt road w0)
      as (r & w' & more & E & Hr & _ & _ & _ & H).
    assert (V : isCacheValid (clock w0)
                  (webtrisCache w0 !! Fetch.webtrisKey road) = false).
    { unfold w0, Admin.clearAdapterCaches. cbn. rewrite lookup_empty.
      reflexivity. }
    rewrite V in H. destruct H as ((more' & ->) & Hf & _).
    exists r, w', more'. split; [exact E|]. split; [|exact Hf].
    rewrite Hr, R0, <- app_assoc. reflexivity.
  - destruct (fetchGoogle_spec rt origin destination groad w0)
      as (r & w' & E & _ & _ & _ & H).
    exists r, w'. split; [exact E|].
    destruct (truthy (GOOGLE_MAPS_API_KEY rt)); cbn [negb] in H.
    + assert (V : isCacheValid (clock w0)
                    (googleCache w0 !! Fetch.googleKey origin destination)
                  = false).
      { unfold w0, Admin.clearAdapterCaches. cbn. rewrite lookup_empty.
        reflexivity. }
      rewrite V in H. destruct H as (Hr & Hf & _).
      split; [rewrite Hr, R0; reflexivity|exact Hf].
    + destruct H as (_ & _ & Hf & Hr & _).
      split; [rewrite Hr, R0; reflexivity|congruence].
Qed.

(** ** The extractor's cache *)

Lemma toInt32_range (z : Z) : - 2 ^ 31 <= Extract.toInt32 z < 2 ^ 31.
Proof.
  unfold Extract.toInt32.
  pose proof (Z.mod_pos_bound (z + 2 ^ 31) (2 ^ 32) ltac:(lia)). lia.
Qed.

Lemma toInt32_absorb (a b : Z) :
  Extract.toInt32 (Extract.toInt32 a + b) = Extract.toInt32 (a + b).
Proof.
  unfold Extract.toInt32. f_equal.
  replace ((a + 2 ^ 31) mod 2 ^ 32 - 2 ^ 31 + b + 2 ^ 31)
    with ((a + 2 ^ 31) mod 2 ^ 32 + b) by ring.
  rewrite Zplus_mod_idemp_l. f_equal. ring.
Qed.

Lemma hash_step (h : Z) (c : ascii) (rest : string) :
  Extract.hashFrom h (String c rest)
  = Extract.hashFrom
      (Extract.toInt32 (31 * h + Z.of_nat (nat_of_ascii c))) rest.
Proof.
  cbn [Extract.hashFrom]. f_equal.
  replace (Extract.toInt32 (Z.shiftl h 5) - h + Z.of_nat (nat_of_ascii c))
    with (Extract.toInt32 (Z.shiftl h 5) + (- h + Z.of_nat (nat_of_ascii c)))
    by ring.
  rewrite toInt32_absorb. f_equal. rewrite Z.shiftl_mul_pow2 by lia. lia.
Qed.

Lemma hashFrom_app (h : Z) (p s : string) :
  Extract.hashFrom h (p ++ s) = Extract.hashFrom (Extract.hashFrom h p) s.
Proof.
  revert h. induction p as [|c p IH]; intros h; [reflexivity|].
  change (String c p ++ s) with (String c (p ++ s)).
  cbn [Extract.hashFrom]. apply IH.
Qed.

Lemma hashFrom_range (h : Z) (s : string) :
  - 2 ^ 31 <= h < 2 ^ 31 -> - 2 ^ 31 <= Extract.hashFrom h s < 2 ^ 31.
Proof.
  revert h. induction s as [|c s IH]; intros h H; [exact H|].
  cbn [Extract.hashFrom]. apply IH. apply toInt32_range.
Qed.

Lemma toInt32_mod (a : Z) : Extract.toInt32 a mod 2 ^ 32 = a mod 2 ^ 32.
Proof.
  unfold Extract.toInt32. rewrite Zminus_mod_idemp_l. f_equal. ring.
Qed.

Lemma toInt32_mod_eq (x y : Z) :
  x mod 2 ^ 32 = y mod 2 ^ 32 -> Extract.toInt32 x = Extract.toInt32 y.
Proof.
  intros H. unfold Extract.toInt32. f_equal.
  rewrite (Zplus_mod x), (Zplus_mod y), H. reflexivity.
Qed.

Lemma toInt32_affine (a b c : Z) :
  Extract.toInt32 (a * Extract.toInt32 b + c) = Extract.toInt32 (a * b + c).
Proof.
  apply toInt32_mod_eq.
  rewrite (Zplus_mod (a * Extract.toInt32 b)), (Zmult_mod a (Extract.toInt32 b)).
  rewrite toInt32_mod.
  rewrite <- Zmult_mod, <- Zplus_mod. reflexivity.
Qed.

Lemma hash_Aa_BB (h : Z) :
  Extract.hashFrom h "Aa" = Extract.hashFrom h "BB".
Proof.
  rewrite !hash_step. cbn [Extract.hashFrom].
  rewrite !toInt32_affine.
  change (Z.of_nat (nat_of_ascii "A")) with 65.
  change (Z.of_nat (nat_of_ascii "a")) with 97.
  change (Z.of_nat (nat_of_ascii "B")) with 66.
  f_equal. ring.
Qed.

(** X16.  The hash behind [getCacheKey] is the 32-bit polynomial hash with
    multiplier 31: it stays in the signed 32-bit range, and it is not
    injective.  Two texts that differ only by ["Aa"] against ["BB"] at the
    same place have the same cache key. *)
Theorem segment_cache_key_collides (rt : Extract.Runtime)
    (before after : string) :
  (forall h c rest,
     Extract.hashFrom h (String c rest)
     = Extract.hashFrom
         (Extract.toInt32 (31 * h + Z.of_nat (nat_of_ascii c))) rest) /\
  (forall d, - 2 ^ 31 <= Extract.hashFrom 0 (Extract.dataString rt d)
             < 2 ^ 31) /\
  Extract.getCacheKey rt (Extract.Text (before ++ "Aa" ++ after))
  = Extract.getCacheKey rt (Extract.Text (before ++ "BB" ++ after)).
Proof.
  split; [exact hash_step|]. split.
  - intros d. apply hashFrom_range. lia.
  - unfold Extract.getCacheKey. cbn [Extract.dataString].
    rewrite !hashFrom_app. rewrite hash_Aa_BB. reflexivity.
Qed.

Lemma createFallbackResult_not_cached rt d seg :
  Extract.createFallbackResult rt d = Ret seg -> Extract.cached seg = None.
Proof.
  destruct d as [t|o]; cbn.
  - intros [= <-]. reflexivity.
  - destruct (truthy _ && truthy _).
    + destruct (Extract.toFixed rt "lat" _); [|discriminate].
      destruct (Extract.toFixed rt "lon" _); [|discriminate].
      intros [= <-]. reflexivity.
    + intros [= <-]. reflexivity.
Qed.

(** What a call of [extractSegment] that returns [cached: false] has done:
    the backend answered, and with [useCache] the result was stored. *)
Lemma extractSegment_fresh rt d fb s seg s1 :
  Extract.extractSegment rt d true fb s = (Ret seg, s1) ->
  Extract.cached seg = Some false ->
  s1 = {| Extract.clock := Extract.clock s;
          Extract.cache :=
            <[Extract.getCacheKey rt d := (seg, Extract.clock s)]>
              (Extract.cache s) |}.
Proof.
  unfold Extract.extractSegment, Extract.lift. munfold.
  set (key := Extract.getCacheKey rt d).
  destruct (Extract.cache s !! key) as [[data stamp]|] eqn:L.
  - destruct (bool_decide (Extract.clock s - stamp < Extract.CACHE_TTL)).
    + intros [= <- <-]. cbn. discriminate.
    + destruct (Extract.llmPath rt d) as [x|e]; cbn.
      * intros [= <- <-]. reflexivity.
      * destruct fb; cbn; [|discriminate].
        destruct (Extract.createFallbackResult rt d) as [fr|e2] eqn:F; cbn;
          [|discriminate].
        intros [= <- <-]. cbn.
        rewrite (createFallbackResult_not_cached _ _ _ F). discriminate.
  - destruct (Extract.llmPath rt d) as [x|e]; cbn.
    + intros [= <- <-]. reflexivity.
    + destruct fb; cbn; [|discriminate].
      destruct (Extract.createFallbackResult rt d) as [fr|e2] eqn:F; cbn;
        [|discriminate].
      intros [= <- <-]. cbn.
      rewrite (createFallbackResult_not_cached _ _ _ F). discriminate.
Qed.

(** X17.  The extractor's cache answers by key alone.  After a call that
    obtained its segment from the backend and stored it, a call within the
    TTL for any input with the same key, the same input or a colliding
    one, returns the stored fields with [cached: true], without consulting
    the backend and without changing the store. *)
Theorem segment_cache_answers_by_key (rt rt2 : Extract.Runtime)
    (d1 d2 : Extract.TrafficData) (fb1 fb2 : bool) (s s1 : Extract.Store)
    (seg : Extract.Segment) (dt : Z)
    (Hfirst : Extract.extractSegment rt d1 true fb1 s = (Ret seg, s1))
    (Hfresh : Extract.cached seg = Some false)
    (Hkey : Extract.getCacheKey rt2 d2 = Extract.getCacheKey rt d1)
    (Hdt : dt < Extract.CACHE_TTL) :
  exists seg2,
    Extract.extractSegment rt2 d2 true fb2 (ExtractMore.later dt s1)
    = (Ret seg2, ExtractMore.later dt s1) /\
    Extract.fields seg2 = Extract.fields seg /\
    Extract.humanReadable seg2 = Extract.humanReadable seg /\
    Extract.rawExtracted seg2 = true /\
    Extract.cached seg2 = Some true.
Proof.
  pose proof (extractSegment_fresh _ _ _ _ _ _ Hfirst Hfresh) as ->.
  assert (Hraw : Extract.rawExtracted seg = true).
  { revert Hfirst Hfresh.
    unfold Extract.extractSegment, Extract.lift. munfold.
    destruct (match Extract.cache s !! Extract.getCacheKey rt d1 with
              | Some (data, stamp) =>
                  if bool_decide (Extract.clock s - stamp < Extract.CACHE_TTL)
                  then Some data else None
              | None => None
              end) as [data|].
    - intros [= <- _]. cbn. discriminate.
    - destruct (Extract.llmPath rt d1) as [x|e]; cbn.
      + intros [= <- _] _. reflexivity.
      + destruct fb1; cbn; [|discriminate].
        destruct (Extract.createFallbackResult rt d1) as [fr|e2] eqn:F; cbn;
          [|discriminate].
        intros [= <- _]. cbn.
        rewrite (createFallbackResult_not_cached _ _ _ F). discriminate. }
  unfold Extract.extractSegment, ExtractMore.later. munfold. cbn.
  rewrite Hkey, lookup_insert_eq.
  rewrite bool_decide_eq_true_2 by lia.
  eexists. split; [reflexivity|]. cbn. auto.
Qed.

(** Witness of X17: a text is extracted by the backend; a second text with
    the same key is then answered from the cache while the backend is not
    configured and the fallback is off. *)
Lemma segment_cache_answers_by_key_witness :
  let first :=
    Extract.extractSegment Cases.onlineRuntime (Extract.Text "Aa road")
      true true Scenario.emptyStore in
  exists seg seg2,
    fst first = Ret seg /\
    Extract.extractSegment Scenario.offlineRuntime (Extract.Text "BB road")
      true false (ExtractMore.later 1000 (snd first))
    = (Ret seg2, ExtractMore.later 1000 (snd first)) /\
    Extract.fields seg2 = Extract.fields seg /\
    Extract.cached seg2 = Some true.
Proof.
  cbv zeta.
  destruct (Extract.extractSegment Cases.onlineRuntime
              (Extract.Text "Aa road") true true Scenario.emptyStore)
    as [[seg|e] s1] eqn:E; [|vm_compute in E; discriminate E].
  assert (Hc : Extract.cached seg = Some false).
  { pose proof E as E'. vm_compute in E'. injection E' as <- _. reflexivity. }
  destruct (segment_cache_answers_by_key Cases.onlineRuntime
              Scenario.offlineRuntime (Extract.Text "Aa road")
              (Extract.Text "BB road") true false Scenario.emptyStore s1
              seg 1000 E Hc)
    as (seg2 & E2 & F & _ & _ & C).
  - vm_compute. reflexivity.
  - vm_compute. reflexivity.
  - exists seg, seg2. cbn [fst snd]. auto.
Defined.

(** X18.  When the backend path fails on a cache miss, [extractSegment]
    leaves the cache as it is, with or without fallback, and with
    [fallback: false] it rethrows the failure's message to the caller. *)
Theorem failed_extraction_is_not_cached (rt : Extract.Runtime)
    (d : Extract.TrafficData) (useCache : bool) (s : Extract.Store)
    (e : string)
    (Hfail : Extract.llmPath rt d = Throw e)
    (Hmiss : ExtractMore.hitOf rt d useCache s = None) :
  Extract.extractSegment rt d useCache false s = (Throw e, s) /\
  snd (Extract.extractSegment rt d useCache true s) = s /\
  match fst (Extract.extractSegment rt d useCache true s) with
  | Ret seg => Extract.fallback seg = Some true /\
               Extract.extractionError seg = Some e /\
               Extract.cached seg = None
  | Throw _ => True
  end.
Proof.
  unfold ExtractMore.hitOf in Hmiss.
  unfold Extract.extractSegment, Extract.lift. munfold.
  rewrite Hmiss, Hfail. cbn.
  split; [reflexivity|].
  destruct (Extract.createFallbackResult rt d) as [fr|e2] eqn:F; cbn.
  - split; [reflexivity|]. split; [reflexivity|]. split; [reflexivity|].
    destruct d as [t|o]; cbn in F.
    + injection F as <-. reflexivity.
    + destruct (truthy _ && truthy _).
      * destruct (Extract.toFixed rt "lat" _); [|discriminate].
        destruct (Extract.toFixed rt "lon" _); [|discriminate].
        injection F as <-. reflexivity.
      * injection F as <-. reflexivity.
  - auto.
Qed.

(** Witness of X18: no backend configured, fallback off. *)
Lemma failed_extraction_is_not_cached_witness :
  Extract.extractSegment Scenario.offlineRuntime
    (Extract.Text "M1 Northbound, heavy traffic") true false
    Scenario.emptyStore
  = (Throw "LLM not configured: LLM_API_KEY not set", Scenario.emptyStore).
Proof.
  apply (failed_extraction_is_not_cached Scenario.offlineRuntime
           (Extract.Text "M1 Northbound, heavy traffic") true
           Scenario.emptyStore "LLM not configured: LLM_API_KEY not set").
  - reflexivity.
  - unfold ExtractMore.hitOf. cbn [Extract.cache Scenario.emptyStore].
    rewrite lookup_empty. reflexivity.
Defined.

(** ** The sweep of the extractor's cache *)

Lemma cleanCache_lookup (s : Extract.Store) (k : string) :
  Extract.cache (ExtractMore.cleanCache s) !! k
  = match Extract.cache s !! k with
    | Some (data, stamp) =>
        if bool_decide (Extract.CACHE_TTL < Extract.clock s - stamp)
        then None else Some (data, stamp)
    | None => None
    end.
Proof.
  unfold ExtractMore.cleanCache. cbn [Extract.cache].
  rewrite map_lookup_filter.
  destruct (Extract.cache s !! k) as [[data stamp]|]; cbn; [|reflexivity].
  case_bool_decide as C.
  - rewrite option_guard_False; [reflexivity|]. cbn. intros N. exact (N C).
  - rewrite option_guard_True; [reflexivity|]. cbn. exact C.
Qed.

Lemma cleanCache_hit rt d useCache s :
  ExtractMore.hitOf rt d useCache (ExtractMore.cleanCache s)
  = ExtractMore.hitOf rt d useCache s.
Proof.
  unfold ExtractMore.hitOf. destruct useCache; [|reflexivity].
  rewrite cleanCache_lookup.
  change (Extract.clock (ExtractMore.cleanCache s)) with (Extract.clock s).
  destruct (Extract.cache s !! _) as [[data stamp]|]; [|reflexivity].
  repeat case_bool_decide; try reflexivity; lia.
Qed.

Lemma cleanCache_insert (s : Extract.Store) (k : string)
    (seg : Extract.Segment) :
  ExtractMore.cleanCache
    {| Extract.clock := Extract.clock s;
       Extract.cache := <[k := (seg, Extract.clock s)]> (Extract.cache s) |}
  = {| Extract.clock := Extract.clock s;
       Extract.cache :=
         <[k := (seg, Extract.clock s)]>
           (Extract.cache (ExtractMore.cleanCache s)) |}.
Proof.
  unfold ExtractMore.cleanCache. cbn [Extract.clock Extract.cache]. f_equal.
  apply map_filter_insert_True. cbn. unfold Extract.CACHE_TTL. lia.
Qed.

(** X19.  The periodic sweep [cleanCache] is invisible to [extractSegment]:
    a call after a sweep returns what it returns without the sweep, and
    leaves the swept version of the store it would otherwise leave.  After
    a sweep no entry is older than the TTL. *)
Theorem cache_sweep_is_transparent (rt : Extract.Runtime)
    (d : Extract.TrafficData) (useCache fallbackOn : bool)
    (s : Extract.Store) :
  Extract.extractSegment rt d useCache fallbackOn (ExtractMore.cleanCache s)
  = (fst (Extract.extractSegment rt d useCache fallbackOn s),
     ExtractMore.cleanCache
       (snd (Extract.extractSegment rt d useCache fallbackOn s))) /\
  (forall k data stamp,
     Extract.cache (ExtractMore.cleanCache s) !! k = Some (data, stamp) ->
     Extract.clock s - stamp <= Extract.CACHE_TTL) /\
  (ExtractMore.cacheSize s <= size (Extract.cache s))%nat.
Proof.
  split; [|split].
  - pose proof (cleanCache_hit rt d useCache s) as H.
    unfold ExtractMore.hitOf in H.
    unfold Extract.extractSegment, Extract.lift. munfold.
    rewrite H. clear H.
    destruct (if useCache then _ else None) as [data|]; [reflexivity|].
    destruct (Extract.llmPath rt d) as [x|e]; cbn.
    + destruct useCache; cbn; [|reflexivity].
      rewrite cleanCache_insert. reflexivity.
    + destruct fallbackOn; cbn; [|reflexivity].
      destruct (Extract.createFallbackResult rt d); reflexivity.
  - intros k data stamp H. rewrite cleanCache_lookup in H.
    destruct (Extract.cache s !! k) as [[data0 stamp0]|]; [|discriminate].
    case_bool_decide; [discriminate|]. injection H as <- <-. lia.
  - unfold ExtractMore.cacheSize, ExtractMore.cleanCache.
    cbn [Extract.cache]. apply map_size_filter.
Qed.

(** ** The batch extractor *)

Lemma extractSegmentAt_same rt d useCache fallbackOn s :
  ExtractMore.extractSegmentAt rt d useCache fallbackOn s s
  = Extract.extractSegment rt d useCache fallbackOn s.
Proof.
  unfold ExtractMore.extractSegmentAt, Extract.extractSegment, Extract.lift.
  munfold.
  destruct (if useCache then _ else None) as [data|].
  - cbn. rewrite andb_false_r. destruct s; reflexivity.
  - destruct (Extract.llmPath rt d) as [x|e]; cbn.
    + destruct useCache; cbn; [reflexivity|]. destruct s; reflexivity.
    + destruct fallbackOn; cbn; [|reflexivity].
      destruct (Extract.createFallbackResult rt d) as [fr|e2] eqn:F; cbn;
        [|reflexivity].
      replace (bool_decide (Extract.cached fr = Some false)) with false.
      * rewrite andb_false_r. reflexivity.
      * symmetry. apply bool_decide_eq_false_2.
        destruct d as [t|o]; cbn in F.
        -- injection F as <-. discriminate.
        -- destruct (truthy _ && truthy _).
           ++ destruct (Extract.toFixed rt "lat" _); [|discriminate].
              destruct (Extract.toFixed rt "lon" _); [|discriminate].
              injection F as <-. discriminate.
           ++ injection F as <-. discriminate.
Qed.

Lemma batchItem_spec rt useCache fallbackOn seen r st :
  exists st',
    ExtractMore.batchItem rt useCache fallbackOn seen r st
    = (Ret (ExtractMore.itemOf r
              (fst (Extract.extractSegment rt r useCache fallbackOn seen))),
       st') /\
    Extract.clock st' = Extract.clock st.
Proof.
  unfold ExtractMore.batchItem, ExtractMore.extractSegmentAt. munfold.
  destruct (Extract.extractSegment rt r useCache fallbackOn seen)
    as [[seg|e] seen']; cbn.
  - eexists. split; [reflexivity|].
    destruct (useCache && _); reflexivity.
  - eexists. split; reflexivity.
Qed.

Lemma mapM_batch rt useCache fallbackOn seen records st :
  exists st',
    ExtractMore.mapM (ExtractMore.batchItem rt useCache fallbackOn seen)
      records st
    = (Ret (map (fun r =>
                   ExtractMore.itemOf r
                     (fst (Extract.extractSegment rt r useCache fallbackOn
                             seen))) records), st') /\
    Extract.clock st' = Extract.clock st.
Proof.
  revert st. induction records as [|r records IH]; intros st.
  - exists st. split; reflexivity.
  - cbn [ExtractMore.mapM map]. munfold.
    destruct (batchItem_spec rt useCache fallbackOn seen r st)
      as (st1 & E1 & C1).
    rewrite E1. destruct (IH st1) as (st2 & E2 & C2).
    unfold bind, ret in E2. rewrite E2. exists st2.
    split; [reflexivity|congruence].
Qed.

(** A batch of one record is a single call of [extractSegment]. *)
Lemma batch_of_one rt r useCache fallbackOn s :
  ExtractMore.extractSegmentsBatch rt [r] useCache fallbackOn s
  = (Ret [ExtractMore.itemOf r
            (fst (Extract.extractSegment rt r useCache fallbackOn s))],
     snd (Extract.extractSegment rt r useCache fallbackOn s)).
Proof.
  unfold ExtractMore.extractSegmentsBatch. cbn [ExtractMore.mapM].
  unfold ExtractMore.batchItem. munfold.
  rewrite extractSegmentAt_same.
  destruct (Extract.extractSegment rt r useCache fallbackOn s)
    as [[seg|e] s1]; reflexivity.
Qed.

(** X20.  [extractSegmentsBatch] never throws and returns one item per
    record, in the order of the records.  Each item is what a single call
    of [extractSegment] on the cache as it was when the batch started gives:
    the segment and its summary, or, when that call throws, the placeholder
    with [segment: null], the text ['Segment extraction failed'] and the
    error message.  A record repeated within a batch is therefore not
    served from the cache entry its first occurrence writes. *)
Theorem batch_never_throws (rt : Extract.Runtime)
    (records : list Extract.TrafficData) (useCache fallbackOn : bool)
    (s : Extract.Store) :
  exists items s',
    ExtractMore.extractSegmentsBatch rt records useCache fallbackOn s
    = (Ret items, s') /\
    Forall2
      (fun r item =>
         ExtractMore.record item = r /\
         match fst (Extract.extractSegment rt r useCache fallbackOn s) with
         | Ret seg =>
             ExtractMore.item_segment item = Some seg /\
             ExtractMore.item_humanReadable item = Extract.humanReadable seg /\
             ExtractMore.item_extractionError item = None
         | Throw e =>
             ExtractMore.item_segment item = None /\
             ExtractMore.item_humanReadable item
             = "Segment extraction failed" /\
             ExtractMore.item_extractionError item = Some e
         end)
      records items.
Proof.
  unfold ExtractMore.extractSegmentsBatch.
  destruct (mapM_batch rt useCache fallbackOn s records s) as (s' & E & _).
  do 2 eexists. split; [exact E|]. clear E.
  induction records as [|r records IH]; [constructor|].
  cbn [map]. constructor; [|exact IH].
  destruct (fst _); cbn; auto.
Qed.

(** ** The junction monitor *)

Section WorstSegment.
Local Open Scope Q_scope.

Lemma worst_fold (rest : list Junction.SegmentResult)
    (acc : Junction.SegmentResult) :
  let w :=
    fold_left
      (fun worst current =>
         if Qgtb (Junction.delayMinutes current) (Junction.delayMinutes worst)
         then current else worst) rest acc in
  (w = acc \/ In w rest) /\
  Junction.delayMinutes acc <= Junction.delayMinutes w /\
  forall x, In x rest -> Junction.delayMinutes x <= Junction.delayMinutes w.
Proof.
  revert acc. induction rest as [|c rest IH]; intros acc; cbn.
  - split; [left; reflexivity|]. split; [lra|]. intros x [].
  - destruct (Qgtb (Junction.delayMinutes c) (Junction.delayMinutes acc))
      eqn:G.
    + apply Qgtb_gt in G. destruct (IH c) as (Hin & Hacc & Hall).
      split; [destruct Hin as [->|Hin]; auto|].
      split; [lra|]. intros x [<-|Hx]; [exact Hacc|auto].
    + apply Qgtb_le in G. destruct (IH acc) as (Hin & Hacc & Hall).
      split; [destruct Hin as [->|Hin]; auto|].
      split; [exact Hacc|]. intros x [<-|Hx]; [lra|auto].
Qed.

(** X21.  For a non-empty list of checked segments [generateReport]
    returns, and its worst segment is one of the segments, with a delay no
    other segment exceeds; on the empty list it throws the TypeError of
    [reduce]. *)
Theorem worst_segment_has_the_largest_delay (direction : string)
    (results : list Junction.SegmentResult) (H : results <> []) :
  Junction.generateReport direction []
  = Throw "Reduce of empty array with no initial value" /\
  exists report,
    Junction.generateReport direction results = Ret report /\
    In (Junction.worstSegment report) results /\
    forall s, In s results ->
      Junction.delayMinutes s
      <= Junction.delayMinutes (Junction.worstSegment report).
Proof.
  split; [reflexivity|].
  destruct results as [|s0 rest]; [congruence|].
  unfold Junction.generateReport. cbn [Junction.worstOf].
  eexists. split; [reflexivity|]. cbn [Junction.worstSegment].
  destruct (worst_fold rest s0) as (Hin & Hacc & Hall).
  split.
  - destruct Hin as [->|Hin]; [left; reflexivity|right; exact Hin].
  - intros s [<-|Hs]; [exact Hacc|exact (Hall s Hs)].
Qed.

(** Witness of X21: two segments with delays 3 and 7. *)
Lemma worst_segment_has_the_largest_delay_witness :
  exists report,
    Junction.generateReport "southbound"
      [Scenario.syntheticSegment 8 11; Scenario.syntheticSegment 5 12]
    = Ret report /\
    Junction.delayMinutes (Junction.worstSegment report) == 7.
Proof.
  destruct (worst_segment_has_the_largest_delay "southbound"
              [Scenario.syntheticSegment 8 11; Scenario.syntheticSegment 5 12]
              ltac:(discriminate)) as (_ & report & E & _ & _).
  exists report. split; [exact E|].
  injection E as <-. reflexivity.
Defined.

End WorstSegment.

Section TrafficCheck.
Local Open Scope Q_scope.

Lemma checkAll_segments api n segments :
  map Junction.segment (Monitor.checkAll api n segments) = segments.
Proof.
  revert n. induction segments as [|seg rest IH]; intros n; [reflexivity|].
  cbn [Monitor.checkAll map]. rewrite IH. f_equal.
  unfold Monitor.checkSegment.
  destruct (api n (Junction.town seg)) as [m|[|first data]]; reflexivity.
Qed.

Lemma M1_SEGMENTS_known direction segments :
  Monitor.M1_SEGMENTS direction = Some segments ->
  (direction = "southbound" /\ segments = Monitor.southbound) \/
  (direction = "northbound" /\ segments = Monitor.northbound).
Proof.
  unfold Monitor.M1_SEGMENTS.
  destruct (String.eqb direction "southbound") eqn:S.
  - apply String.eqb_eq in S. intros [= <-]. auto.
  - destruct (String.eqb direction "northbound") eqn:N; [|discriminate].
    apply String.eqb_eq in N. intros [= <-]. auto.
Qed.

(** X22.  [handleTrafficCheck] never throws.  It succeeds exactly for the
    directions ['southbound'] and ['northbound'], whatever the API answers,
    with one checked segment per configured segment, in order; for every
    other direction it returns the failure object with the TypeError of the
    loop over an undefined segment list. *)
Theorem traffic_check_succeeds_iff_direction_known
    (api : nat -> string -> Monitor.ApiReply) (direction : string) :
  match Monitor.handleTrafficCheck api direction with
  | Monitor.Success d report segments summary =>
      d = direction /\
      Monitor.M1_SEGMENTS direction
      = Some (map Junction.segment segments) /\
      List.length segments = 8%nat /\
      Junction.southbound report = String.eqb direction "southbound"
  | Monitor.Failure e =>
      direction <> "southbound" /\ direction <> "northbound" /\
      e = "segments is not iterable"
  end.
Proof.
  unfold Monitor.handleTrafficCheck, Monitor.checkRoute.
  destruct (Monitor.M1_SEGMENTS direction) as [segments|] eqn:M.
  - assert (L : List.length segments = 8%nat).
    { destruct (M1_SEGMENTS_known _ _ M) as [[_ ->]|[_ ->]]; reflexivity. }
    pose proof (checkAll_segments api 0 segments) as S.
    assert (L' : List.length (Monitor.checkAll api 0 segments) = 8%nat).
    { rewrite <- L. rewrite <- S at 2. rewrite length_map. reflexivity. }
    unfold Junction.generateReport.
    destruct (Monitor.checkAll api 0 segments) as [|r0 rest] eqn:C;
      [discriminate L'|].
    cbn [Junction.worstOf]. rewrite S. auto.
  - unfold Monitor.M1_SEGMENTS in M.
    destruct (String.eqb direction "southbound") eqn:S; [discriminate|].
    destruct (String.eqb direction "northbound") eqn:N; [discriminate|].
    apply String.eqb_neq in S, N. auto.
Qed.

Lemma checkAll_outage api n segments :
  (forall k town, exists m, api k town = Monitor.CheckFailed m) ->
  Monitor.checkAll api n segments = map Junction.unknownSegment segments.
Proof.
  intros H. revert n.
  induction segments as [|seg rest IH]; intros n; [reflexivity|].
  cbn [Monitor.checkAll map]. rewrite IH. f_equal.
  unfold Monitor.checkSegment.
  destruct (H n (Junction.town seg)) as [m ->]. reflexivity.
Qed.

(** X23.  When every request of a check fails, [handleTrafficCheck] still
    reports success: every segment has status unknown and no current time,
    the total delay is 0, and the recommendation is that the route is
    clear. *)
Theorem api_outage_reports_route_clear
    (api : nat -> string -> Monitor.ApiReply) (direction : string)
    (Hdown : forall k town, exists m, api k town = Monitor.CheckFailed m)
    (Hdir : direction = "southbound" \/ direction = "northbound") :
  exists report segments summary,
    Monitor.handleTrafficCheck api direction
    = Monitor.Success direction report segments summary /\
    Forall (fun s => Junction.status s = Junction.Unknown /\
                     Junction.currentTime s = None) segments /\
    Junction.totalDelay report == 0 /\
    Monitor.totalDelay summary == 0 /\
    Junction.recommendation report = Junction.RouteClear.
Proof.
  unfold Monitor.handleTrafficCheck, Monitor.checkRoute.
  destruct Hdir as [-> | ->];
    [change (Monitor.M1_SEGMENTS "southbound") with (Some Monitor.southbound)
    |change (Monitor.M1_SEGMENTS "northbound") with (Some Monitor.northbound)];
    cbv beta iota; rewrite (checkAll_outage api 0 _ Hdown);
    do 3 eexists; (split; [reflexivity|]);
    (split; [repeat constructor|]);
    (split; [reflexivity|]); split; reflexivity.
Qed.

(** Witness of X23: every request fails, northbound. *)
Lemma api_outage_reports_route_clear_witness :
  exists report segments summary,
    Monitor.handleTrafficCheck (fun _ _ => Monitor.CheckFailed "fetch failed")
      "northbound"
    = Monitor.Success "northbound" report segments summary /\
    Junction.recommendation report = Junction.RouteClear.
Proof.
  destruct (api_outage_reports_route_clear
              (fun _ _ => Monitor.CheckFailed "fetch failed") "northbound")
    as (report & segments & summary & E & _ & _ & _ & R).
  - intros k town. exists "fetch failed". reflexivity.
  - right. reflexivity.
  - exists report, segments, summary. split; [exact E|exact R].
Defined.

End TrafficCheck.

Section Totals.
Local Open Scope Q_scope.

Lemma sum_fold_acc {A} (f : A -> Q) (xs : list A) (a : Q) :
  fold_left (fun sum s => sum + f s) xs a == a + Junction.sumQ f xs.
Proof.
  unfold Junction.sumQ. revert a.
  induction xs as [|x xs IH]; intros a; cbn [fold_left]; [lra|].
  rewrite (IH (a + f x)), (IH (0 + f x)). lra.
Qed.

Lemma sumQ_cons {A} (f : A -> Q) (x : A) (xs : list A) :
  Junction.sumQ f (x :: xs) == f x + Junction.sumQ f xs.
Proof.
  unfold Junction.sumQ at 1. cbn [fold_left]. rewrite sum_fold_acc. lra.
Qed.

Lemma sumQ_gap {A} (cur norm delay : A -> Q) (xs : list A) :
  (forall x, In x xs -> cur x - norm x <= delay x /\ 0 <= delay x) ->
  Junction.sumQ cur xs - Junction.sumQ norm xs <= Junction.sumQ delay xs /\
  0 <= Junction.sumQ delay xs.
Proof.
  induction xs as [|x xs IH]; intros H.
  - unfold Junction.sumQ. cbn. lra.
  - rewrite !sumQ_cons.
    destruct (H x (or_introl eq_refl)) as [H1 H2].
    destruct IH as [I1 I2]; [intros y Hy; apply H; right; exact Hy|].
    lra.
Qed.

Lemma truthy_false_zero (q : Q) : truthy q = false -> q == 0.
Proof.
  unfold truthy, truthy_Q. rewrite negb_false_iff. apply Qeq_bool_eq.
Qed.

(** One checked segment: its share of the report's total delay is at most
    its own delay when the API's records state no delay. *)
Lemma checkSegment_gap api n seg :
  (forall k town data, api k town = Monitor.ApiData data ->
     Forall (fun d => truthy (Junction.api_delayMinutes d) = false) data) ->
  let r := Monitor.checkSegment api n seg in
  jsor (Junction.currentTime r) (Junction.normalTime (Junction.segment r))
  - Junction.normalTime (Junction.segment r) <= Junction.delayMinutes r /\
  0 <= Junction.delayMinutes r.
Proof.
  intros H. unfold Monitor.checkSegment.
  destruct (api n (Junction.town seg)) as [m|data] eqn:E.
  - cbn. lra.
  - specialize (H _ _ _ E). destruct data as [|first rest].
    + cbn. destruct (truthy (Junction.normalTime seg)); lra.
    + unfold Junction.processSegmentData.
      set (record := from_option id first _).
      assert (Hin : In record (first :: rest)).
      { unfold record.
        destruct (List.find _ (first :: rest)) as [d|] eqn:F; cbn.
        - apply List.find_some in F. tauto.
        - left. reflexivity. }
      assert (Hd : truthy (Junction.api_delayMinutes record) = false).
      { rewrite List.Forall_forall in H. exact (H _ Hin). }
      cbn [Junction.currentTime Junction.segment Junction.delayMinutes].
      set (current := jsor (Junction.travelTimeMinutes record)
                        (Junction.normalTime seg)).
      assert (Hdelay : jsor (Junction.api_delayMinutes record)
                         (max0 (current - Junction.normalTime seg))
                       = max0 (current - Junction.normalTime seg)).
      { unfold jsor. destruct (Junction.api_delayMinutes record) as [q|];
          [|reflexivity]. cbn in Hd. rewrite Hd. reflexivity. }
      rewrite Hdelay.
      pose proof (max0_ge (current - Junction.normalTime seg)).
      pose proof (max0_nonneg (current - Junction.normalTime seg)).
      split; [|assumption].
      unfold jsor at 1. cbn [truthy truthy_option].
      destruct (truthy current); lra.
Qed.

Lemma checkAll_gap api n segments :
  (forall k town data, api k town = Monitor.ApiData data ->
     Forall (fun d => truthy (Junction.api_delayMinutes d) = false) data) ->
  forall r, In r (Monitor.checkAll api n segments) ->
    jsor (Junction.currentTime r) (Junction.normalTime (Junction.segment r))
    - Junction.normalTime (Junction.segment r) <= Junction.delayMinutes r /\
    0 <= Junction.delayMinutes r.
Proof.
  intros H. revert n.
  induction segments as [|seg rest IH]; intros n r Hr; [destruct Hr|].
  cbn [Monitor.checkAll] in Hr. destruct Hr as [<-|Hr].
  - apply checkSegment_gap. exact H.
  - exact (IH _ _ Hr).
Qed.

(** X24.  The result of [handleTrafficCheck] carries two total delays: the
    report's, total current time minus total normal time, and the
    summary's, the sum of the segments' delays.  When the API's records
    state no delay of their own (absent or 0), the report's total is at
    most the summary's, which is never negative: a segment faster than
    normal lowers the first and not the second. *)
Theorem report_delay_at_most_summary_delay
    (api : nat -> string -> Monitor.ApiReply) (direction d : string)
    (report : Junction.Report) (segments : list Junction.SegmentResult)
    (summary : Monitor.Summary)
    (Hapi : forall k town data, api k town = Monitor.ApiData data ->
       Forall (fun d => truthy (Junction.api_delayMinutes d) = false) data)
    (Hok : Monitor.handleTrafficCheck api direction
           = Monitor.Success d report segments summary) :
  Junction.totalDelay report
  == Monitor.totalCurrentTime summary - Monitor.totalNormalTime summary /\
  Junction.totalDelay report <= Monitor.totalDelay summary /\
  0 <= Monitor.totalDelay summary.
Proof.
  revert Hok. unfold Monitor.handleTrafficCheck, Monitor.checkRoute.
  destruct (Monitor.M1_SEGMENTS direction) as [segs|]; [|discriminate].
  unfold Junction.generateReport.
  destruct (Junction.worstOf (Monitor.checkAll api 0 segs)) as [worst|e];
    [|discriminate].
  intros [= _ <- <- <-].
  cbn [Junction.totalDelay Monitor.totalCurrentTime Monitor.totalNormalTime
       Monitor.totalDelay].
  split; [reflexivity|].
  apply (sumQ_gap
           (fun s => jsor (Junction.currentTime s)
                       (Junction.normalTime (Junction.segment s)))
           (fun s => Junction.normalTime (Junction.segment s))
           Junction.delayMinutes).
  intros x Hx. exact (checkAll_gap api 0 segs Hapi x Hx).
Qed.

(** Witness of X24: every segment takes 3 minutes; the report's total delay
    is -23, the summary's is 0. *)
Lemma report_delay_at_most_summary_delay_witness :
  match Monitor.handleTrafficCheck Cases.quickApi "southbound" with
  | Monitor.Success _ report _ summary =>
      Junction.totalDelay report <= Monitor.totalDelay summary /\
      Junction.totalDelay report == - (23) /\
      Monitor.totalDelay summary == 0
  | Monitor.Failure _ => False
  end.
Proof.
  destruct (Monitor.handleTrafficCheck Cases.quickApi "southbound")
    as [d report segments summary|e] eqn:E.
  - split.
    + apply (report_delay_at_most_summary_delay Cases.quickApi "southbound"
               d report segments summary); [|exact E].
      intros k town data [= <-]. repeat constructor.
    + vm_compute in E. injection E as _ <- _ <-. split; reflexivity.
  - vm_compute in E. discriminate E.
Defined.

End Totals.
